(** * guestspost-backend: order lifecycle, notifications, message stream

    A shallow embedding of the service layer of the marketplace backend
    (order service, site-submission service, message service and stream
    controller, payment façade) together with the properties the design
    document states about them.

    Modelling conventions.
    - A MongoDB collection addressed by [_id] is a finite map from the
      identifier to the document; a collection searched by another field
      is the list of its documents in natural order.
    - [new Date()] is an explicit argument [now], in epoch milliseconds.
    - A JavaScript [number] that carries money is a rational; an optional
      property is an [option]; [a || b] on optional strings and numbers
      follows JavaScript truthiness (the empty string and 0 are falsy).
    - The mail transport is an oracle: every dispatch either resolves
      (with the boolean [sendEmail] returns) or raises.
    - The driver casts a string that a query or a document puts in an
      ObjectId field, and throws a CastError for a string it cannot
      cast.  [OrderService.createOrder], the validation of a new site
      submission and the calls of [OrderCalls] carry that cast; the
      other operations are the queries past it, read as total lookups.
      Lost connections are outside the model.
    - A request body is read at the fields of its DTO.  Strings are
      byte strings; [trim] and [toLowerCase] act on the ASCII range. *)

From Stdlib Require Import ZArith QArith Bool List String Ascii Lia.
From stdpp Require Import gmap strings list fin_maps.
Import ListNotations.

Local Open Scope string_scope.

(** ** JavaScript values *)

Module Js.

(** [!!s] for an optional string property. *)
Definition truthyS (s : option string) : bool :=
  match s with
  | Some s' => negb (String.eqb s' EmptyString)
  | None => false
  end.

(** [a || b] where [b] is a plain string. *)
Definition orS (a : option string) (b : string) : string :=
  match a with
  | Some s => if String.eqb s EmptyString then b else s
  | None => b
  end.

(** [a || b] where both sides are optional strings. *)
Definition orSS (a b : option string) : option string :=
  if truthyS a then a else b.

(** [a || b || 0] on optional numbers. *)
Definition orQ0 (a b : option Q) : Q :=
  match a with
  | Some q => if Qeq_bool q 0
              then (match b with
                    | Some r => if Qeq_bool r 0 then 0%Q else r
                    | None => 0%Q
                    end)
              else q
  | None => match b with
            | Some r => if Qeq_bool r 0 then 0%Q else r
            | None => 0%Q
            end
  end.

(** [a || b] on an optional integer (HTTP status codes). *)
Definition orZ (a : option Z) (b : Z) : Z :=
  match a with
  | Some z => if Z.eqb z 0 then b else z
  | None => b
  end.

Definition isUpper (c : ascii) : bool :=
  let n := nat_of_ascii c in (65 <=? n)%nat && (n <=? 90)%nat.

Definition lowerChar (c : ascii) : ascii :=
  if isUpper c then ascii_of_nat (nat_of_ascii c + 32) else c.

(** [String.prototype.toLowerCase], on the ASCII range. *)
Fixpoint toLowerCase (s : string) : string :=
  match s with
  | EmptyString => EmptyString
  | String c r => String (lowerChar c) (toLowerCase r)
  end.

Definition isSpace (c : ascii) : bool :=
  let n := nat_of_ascii c in
  (n =? 32)%nat || ((9 <=? n)%nat && (n <=? 13)%nat).

(** [!s.trim()]: the string holds nothing but white space. *)
Fixpoint blank (s : string) : bool :=
  match s with
  | EmptyString => true
  | String c r => isSpace c && blank r
  end.

Fixpoint trimStart (s : string) : string :=
  match s with
  | EmptyString => EmptyString
  | String c r => if isSpace c then trimStart r else s
  end.

Fixpoint trimEnd (s : string) : string :=
  match s with
  | EmptyString => EmptyString
  | String c r => if blank s then EmptyString else String c (trimEnd r)
  end.

(** [String.prototype.trim] *)
Definition trim (s : string) : string := trimEnd (trimStart s).

(** [s.replace(/\s+/g, '')] *)
Fixpoint stripSpaces (s : string) : string :=
  match s with
  | EmptyString => EmptyString
  | String c r => if isSpace c then stripSpaces r
                  else String c (stripSpaces r)
  end.

Definition isHex (c : ascii) : bool :=
  let n := nat_of_ascii c in
  ((48 <=? n)%nat && (n <=? 57)%nat)
  || ((65 <=? n)%nat && (n <=? 70)%nat)
  || ((97 <=? n)%nat && (n <=? 102)%nat).

Fixpoint allHex (s : string) : bool :=
  match s with
  | EmptyString => true
  | String c r => isHex c && allHex r
  end.

(** [/^[0-9a-fA-F]{24}$/.test(s)]. *)
Definition isObjectIdShape (s : string) : bool :=
  (String.length s =? 24)%nat && allHex s.

(** [s.split("@")[0]]. *)
Fixpoint beforeAt (s : string) : string :=
  match s with
  | EmptyString => EmptyString
  | String c r => if Ascii.eqb c "@"%char then EmptyString
                  else String c (beforeAt r)
  end.

End Js.

(** ** Application errors *)

Record AppError := mkAppError {
  message : string;
  statusCode : Z
}.

(** What a service call does: return a value, throw an [AppError], or
    throw something else (a schema validation error of the driver). *)
Inductive Result (A : Type) : Type :=
| Ok (a : A)
| Err (e : AppError)
| Thrown (what : string).
Arguments Ok {A} a.
Arguments Err {A} e.
Arguments Thrown {A} what.


(** ** Notifications (utils/email.utils) *)

Inductive OrderStatus := pending | processing | completed | failed.

Definition OrderStatus_eqb (a b : OrderStatus) : bool :=
  match a, b with
  | pending, pending | processing, processing
  | completed, completed | failed, failed => true
  | _, _ => false
  end.

Inductive SubmissionStatus := sub_pending | approved | rejected.

Definition SubmissionStatus_eqb (a b : SubmissionStatus) : bool :=
  match a, b with
  | sub_pending, sub_pending | approved, approved | rejected, rejected => true
  | _, _ => false
  end.

(** The argument objects of the three order emails and the three
    site-submission emails. *)
Record OrderMail := mkOrderMail {
  om_id : string;
  om_item_name : string;
  om_price : Q;
  om_userName : string;
  om_userEmail : string;
  om_orderDate : Z;
  om_type : string
}.

Record SubmissionMail := mkSubmissionMail {
  sm_userEmail : string;
  sm_userName : string;
  sm_websites : list string;
  sm_adminNotes : option string
}.

Inductive Notification :=
| OrderConfirmationEmail (m : OrderMail)
| OrderCompletionEmail (m : OrderMail) (completedAt : Z)
    (completionMessage completionLink : option string)
| OrderStatusUpdateEmail (m : OrderMail) (status : OrderStatus)
    (msg : option string)
| SiteSubmissionReceivedEmail (m : SubmissionMail)
| SiteSubmissionApprovalEmail (m : SubmissionMail)
| SiteSubmissionRejectionEmail (m : SubmissionMail).

(** What awaiting a [send...Email] call can do: resolve to the boolean
    [sendEmail] returned, or reject. *)
Inductive MailOutcome := Resolved (sent : bool) | Raised.

Definition Mailer := Notification -> MailOutcome.

Inductive LogLine := LogSuccess (s : string) | LogError (s : string).

(** ** Documents *)

Record FileMeta := mkFileMeta {
  file_name : string;
  file_type : string;
  file_size : Z;
  file_data : string
}.

Module User.
(** Modelled from the spec: the user schema ([user.model]) is not among
    the sources; the service reads the identifier, the unique
    lower-cased e-mail address and the nicename. *)
Record t := mk {
  _id : string;
  user_email : string;
  user_nicename : option string
}.
End User.

Module Order.
(** Modelled from the spec: the order schema ([order.model]) is not
    among the sources; the fields are those the service writes and
    reads, with the four-valued status of the data model. *)
Record t := mk {
  _id : string;
  userId : string;
  user_id : string;
  userName : string;
  userEmail : string;
  item_name : string;
  price : Q;
  type : string;
  status : OrderStatus;
  date : option Z;
  createdAt : Z;
  updatedAt : option Z;
  description : option string;
  features : option (list string);
  article : option string;
  file : option FileMeta;
  message : option string;
  message_time : option Z;
  submittedAt : option Z;
  completionMessage : option string;
  completionLink : option string;
  completedAt : option Z
}.
End Order.

Module CreateOrderDto.
(** The request body handed to [createOrder]; every property may be
    missing at run time, and the body may carry properties the
    interface does not list ([amount], [name], [title], [submittedAt],
    [status]). *)
Record t := mk {
  userId : option string;
  user_id : option string;
  userName : option string;
  userEmail : option string;
  item_name : option string;
  price : option Q;
  type : option string;
  description : option string;
  features : option (list string);
  article : option string;
  file : option FileMeta;
  message : option string;
  amount : option Q;
  name : option string;
  title : option string;
  submittedAt : option Z;
  status : option string
}.
End CreateOrderDto.

Module UpdateOrderDto.
Record t := mk {
  status : option OrderStatus;
  description : option string;
  features : option (list string);
  article : option string;
  file : option FileMeta;
  message : option string;
  completionMessage : option string;
  completionLink : option string;
  completedAt : option Z
}.
End UpdateOrderDto.

Record CsvFile := mkCsvFile {
  fileName : string;
  filePath : string;
  fileSize : option Z;
  mimeType : option string
}.

Module SiteSubmission.
(** [siteSubmissionSchema] *)
Record t := mk {
  _id : string;
  userId : option string;
  userName : string;
  userEmail : string;
  websites : list string;
  isOwner : bool;
  publisherName : option string;
  country : option string;
  phone : option string;
  message : option string;
  siteDescription : option string;
  monthlyTraffic : option string;
  domainAuthority : option string;
  domainRating : option string;
  websiteOwner : option string;
  csvFile : option CsvFile;
  status : SubmissionStatus;
  submittedAt : Z;
  reviewedAt : option Z;
  reviewedBy : option string;
  adminNotes : option string
}.
End SiteSubmission.

Module CreateSiteSubmissionDto.
Record t := mk {
  userId : option string;
  userName : option string;
  userEmail : option string;
  websites : list string;
  isOwner : bool;
  publisherName : option string;
  country : option string;
  phone : option string;
  message : option string;
  siteDescription : option string;
  monthlyTraffic : option string;
  domainAuthority : option string;
  domainRating : option string;
  websiteOwner : option string;
  csvFile : option CsvFile
}.
End CreateSiteSubmissionDto.

Module UpdateSiteSubmissionDto.
Record t := mk {
  status : option SubmissionStatus;
  adminNotes : option string;
  reviewedBy : option string
}.
End UpdateSiteSubmissionDto.

Module MessageContent.
(** Modelled from the spec: the message schema ([message.model]) is not
    among the sources.  A content entry carries its own time stamp
    ([time], absent or unparsable as [None]); [rest] stands for its
    remaining properties. *)
Record t := mk {
  time : option Z;
  rest : string
}.
End MessageContent.

Module Message.
(** Modelled from the spec: a thread keyed by [commentId], holding the
    ordered sequence of content entries, the owner, a type tag, the
    approval flag and the top-level [date]. *)
Record t := mk {
  commentId : string;
  userId : string;
  userName : string;
  userEmail : string;
  type : string;
  content : list MessageContent.t;
  approved : Z;
  date : Z
}.
End Message.

(** ** The world the services run in *)

Record World := mkWorld {
  users : list User.t;
  orders : gmap string Order.t;
  submissions : gmap string SiteSubmission.t;
  messages : list Message.t;
  outbox : list Notification;
  logs : list LogLine
}.

Definition setOrders (os : gmap string Order.t) (w : World) : World :=
  mkWorld (users w) os (submissions w) (messages w) (outbox w) (logs w).

Definition setSubmissions (ss : gmap string SiteSubmission.t) (w : World)
  : World :=
  mkWorld (users w) (orders w) ss (messages w) (outbox w) (logs w).

Definition setMessages (ms : list Message.t) (w : World) : World :=
  mkWorld (users w) (orders w) (submissions w) ms (outbox w) (logs w).

Definition pushLog (l : LogLine) (w : World) : World :=
  mkWorld (users w) (orders w) (submissions w) (messages w) (outbox w)
          (logs w ++ [l]).

Definition pushOutbox (n : Notification) (w : World) : World :=
  mkWorld (users w) (orders w) (submissions w) (messages w)
          (outbox w ++ [n]) (logs w).

(** What the database holds, as opposed to the outbox and the log. *)
Definition persisted (w : World)
  : list User.t * gmap string Order.t * gmap string SiteSubmission.t
    * list Message.t :=
  (users w, orders w, submissions w, messages w).

(** [try { await send(n); logger.success(ok) } catch { logger.error(bad) }] *)
Definition tryNotify (mailer : Mailer) (n : Notification)
    (ok bad : string) (w : World) : World :=
  let w1 := pushOutbox n w in
  match mailer n with
  | Resolved _ => pushLog (LogSuccess ok) w1
  | Raised => pushLog (LogError bad) w1
  end.

(** [b ?? a] for a patch property: a present property replaces the
    stored one. *)
Definition patched {A} (p : option A) (old : option A) : option A :=
  match p with Some _ => p | None => old end.

(** ** The driver's cast to an ObjectId *)

Module Driver.

(** The strings the driver casts to an ObjectId: 24 hexadecimal digits,
    the shape the service itself tests for.  (Older releases also took
    any string of 12 characters, as the twelve bytes.) *)
Definition castsToObjectId (s : string) : bool := Js.isObjectIdShape s.

(** A string no release of the driver casts: not 24 hexadecimal digits
    and not 12 characters long. *)
Definition neverCasts (s : string) : bool :=
  negb (Js.isObjectIdShape s) && negb (String.length s =? 12)%nat.

Definition quoted (s : string) : string :=
  String "034"%char (s ++ String "034"%char EmptyString).

(** The message of the CastError thrown for a string [value] under the
    ObjectId path [path] of the model [model], in the wording of the
    current release. *)
Definition castError (value path model : string) : string :=
  "Cast to ObjectId failed for value " ++ quoted value
  ++ " (type string) at path " ++ quoted path
  ++ " for model " ++ quoted model
  ++ " because of " ++ quoted "BSONError".

End Driver.

Module OrderService.

(** [User.findById(id)] *)
Definition User_findById (us : list User.t) (id : string) : option User.t :=
  List.find (fun u => String.eqb (User._id u) id) us.

(** [User.findOne({ user_email: e })] *)
Definition User_findByEmail (us : list User.t) (e : string) : option User.t :=
  List.find (fun u => String.eqb (User.user_email u) e) us.

(** [User.findOne({ $or: [{ user_email: e }, { _id: i }] })] *)
Definition User_findByEmailOrId (us : list User.t) (e i : string)
  : option User.t :=
  List.find (fun u => String.eqb (User.user_email u) e
                      || String.eqb (User._id u) i) us.

(** The three look-ups at the head of [createOrder].  The first is
    guarded by the identifier shape; the third puts [data.user_id] under
    [_id] unguarded, so the driver throws before the collection is read
    when that string cannot be cast, whatever the e-mail alternative of
    the [$or] would match. *)
Definition resolveUser (us : list User.t) (data : CreateOrderDto.t)
  : Result (option User.t) :=
  let user1 :=
    match CreateOrderDto.userId data with
    | Some i => if negb (String.eqb i EmptyString) && Js.isObjectIdShape i
                then User_findById us i else None
    | None => None
    end in
  let user2 :=
    match user1 with
    | Some _ => user1
    | None => if Js.truthyS (CreateOrderDto.userEmail data)
              then User_findByEmail us
                     (Js.toLowerCase (Js.orS (CreateOrderDto.userEmail data) EmptyString))
              else None
    end in
  match user2 with
  | Some _ => Ok user2
  | None => if Js.truthyS (CreateOrderDto.user_id data)
            then let i := Js.orS (CreateOrderDto.user_id data) EmptyString in
                 if Driver.castsToObjectId i
                 then Ok (User_findByEmailOrId us (Js.toLowerCase i) i)
                 else Thrown (Driver.castError i "_id" "User")
            else Ok None
  end.

(** [data.price || data.amount || 0] *)
Definition orderAmount (data : CreateOrderDto.t) : Q :=
  Js.orQ0 (CreateOrderDto.price data) (CreateOrderDto.amount data).

(** [data.item_name || data.name || data.title], or the empty string *)
Definition itemName (data : CreateOrderDto.t) : string :=
  Js.orS (Js.orSS (CreateOrderDto.item_name data)
            (Js.orSS (CreateOrderDto.name data) (CreateOrderDto.title data)))
         EmptyString.

Definition orderType (data : CreateOrderDto.t) : string :=
  Js.orS (CreateOrderDto.type data) "service".

Definition truthyOpt (s : option string) : option string :=
  if Js.truthyS s then s else None.

(** [orderDataToSave], completed by the driver with [_id] and the
    [createdAt] time stamp. *)
Definition orderDataToSave (newId : string) (now : Z) (user : User.t)
    (data : CreateOrderDto.t) : Order.t :=
  let email := User.user_email user in
  Order.mk
    newId
    (User._id user)
    (Js.orS (Js.orSS (CreateOrderDto.user_id data)
               (CreateOrderDto.userEmail data)) email)
    (Js.orS (Js.orSS (CreateOrderDto.userName data)
               (User.user_nicename user)) (Js.beforeAt email))
    (Js.toLowerCase (Js.orS (CreateOrderDto.userEmail data) email))
    (itemName data)
    (orderAmount data)
    (orderType data)
    pending
    (Some now)
    now
    None
    (truthyOpt (CreateOrderDto.description data))
    (match CreateOrderDto.features data with
     | Some (f :: fs) => Some (f :: fs)
     | _ => None
     end)
    (truthyOpt (CreateOrderDto.article data))
    (CreateOrderDto.file data)
    (truthyOpt (CreateOrderDto.message data))
    (if Js.truthyS (CreateOrderDto.message data) then Some now else None)
    (CreateOrderDto.submittedAt data)
    None None None.

(** [createOrder(data)], in the revision that falls back to the
    e-mail address.  [newId] is the identifier the driver draws for the
    new document. *)
Definition createOrder (newId : string) (now : Z)
    (data : CreateOrderDto.t) (w : World) : Result Order.t * World :=
  match resolveUser (users w) data with
  | Err e => (Err e, w)
  | Thrown what =>
      (Err (mkAppError
              ("Failed to create order: "
               ++ Js.orS (Some what) "Unknown error") 500),
       pushLog (LogError "Error creating order:") w)
  | Ok None => (Err (mkAppError "User not found" 404), w)
  | Ok (Some user) =>
    if Qle_bool (orderAmount data) 0 then
      (Err (mkAppError "Order amount must be greater than 0" 400), w)
    else if Js.blank (itemName data) then
      (Err (mkAppError "Item name is required" 400), w)
    else if Js.blank (orderType data) then
      (Err (mkAppError "Order type is required" 400), w)
    else
      let order := orderDataToSave newId now user data in
      let w1 := setOrders (<[newId := order]> (orders w)) w in
      (Ok order,
       pushLog (LogSuccess ("Order created: " ++ Order.item_name order
                            ++ " for " ++ Order.userName order)) w1)
  end.

(** The mail argument shared by the three order emails. *)
Definition orderMail (order : Order.t) : OrderMail :=
  mkOrderMail (Order._id order) (Order.item_name order) (Order.price order)
    (Order.userName order) (Order.userEmail order)
    (default (Order.createdAt order) (Order.date order))
    (Order.type order).

Definition completionEmail (now : Z) (order : Order.t) : Notification :=
  OrderCompletionEmail (orderMail order)
    (default now (Order.completedAt order))
    (Order.completionMessage order) (Order.completionLink order).

(** [{ ...data, updatedAt: new Date() }] applied by [findByIdAndUpdate]. *)
Definition applyUpdate (data : UpdateOrderDto.t) (now : Z) (o : Order.t)
  : Order.t :=
  Order.mk (Order._id o) (Order.userId o) (Order.user_id o)
    (Order.userName o) (Order.userEmail o) (Order.item_name o)
    (Order.price o) (Order.type o)
    (default (Order.status o) (UpdateOrderDto.status data))
    (Order.date o) (Order.createdAt o) (Some now)
    (patched (UpdateOrderDto.description data) (Order.description o))
    (patched (UpdateOrderDto.features data) (Order.features o))
    (patched (UpdateOrderDto.article data) (Order.article o))
    (patched (UpdateOrderDto.file data) (Order.file o))
    (patched (UpdateOrderDto.message data) (Order.message o))
    (Order.message_time o) (Order.submittedAt o)
    (patched (UpdateOrderDto.completionMessage data)
             (Order.completionMessage o))
    (patched (UpdateOrderDto.completionLink data) (Order.completionLink o))
    (patched (UpdateOrderDto.completedAt data) (Order.completedAt o)).

(** The status-change branch of [updateOrder]: which email, if any. *)
Definition statusChangeEmail (now : Z) (data : UpdateOrderDto.t)
    (previousStatus : OrderStatus) (order : Order.t)
  : option (Notification * string) :=
  let newStatus := Order.status order in
  if OrderStatus_eqb previousStatus pending
     && OrderStatus_eqb newStatus processing then
    Some (OrderConfirmationEmail (orderMail order),
          "Payment confirmation email sent for order " ++ Order._id order)
  else if OrderStatus_eqb newStatus completed then
    Some (completionEmail now order,
          "Order completion email sent for order " ++ Order._id order)
  else if OrderStatus_eqb newStatus failed
          || (OrderStatus_eqb newStatus processing
              && negb (OrderStatus_eqb previousStatus pending)) then
    Some (OrderStatusUpdateEmail (orderMail order) newStatus
            (UpdateOrderDto.message data),
          "Order status update email sent for order " ++ Order._id order)
  else None.

(** [updateOrder(id, data)], past the cast of [id]
    ([OrderCalls.updateOrder] has the cast). *)
Definition updateOrder (mailer : Mailer) (now : Z) (id : string)
    (data : UpdateOrderDto.t) (w : World) : Result Order.t * World :=
  match orders w !! id with
  | None => (Err (mkAppError "Order not found" 404), w)
  | Some previousOrder =>
    let previousStatus := Order.status previousOrder in
    let order := applyUpdate data now previousOrder in
    let w1 := setOrders (<[id := order]> (orders w)) w in
    let newStatus := Order.status order in
    let w2 :=
      if negb (OrderStatus_eqb newStatus previousStatus) then
        match statusChangeEmail now data previousStatus order with
        | Some (n, ok) =>
            tryNotify mailer n ok
              ("Failed to send email notification for order "
               ++ Order._id order ++ ":") w1
        | None => w1
        end
      else w1 in
    (Ok order, pushLog (LogSuccess ("Order updated: " ++ Order.item_name order)) w2)
  end.

(** The update document of [completeOrder]. *)
Definition applyComplete (completionMessage completionLink : option string)
    (now : Z) (o : Order.t) : Order.t :=
  Order.mk (Order._id o) (Order.userId o) (Order.user_id o)
    (Order.userName o) (Order.userEmail o) (Order.item_name o)
    (Order.price o) (Order.type o)
    completed
    (Order.date o) (Order.createdAt o) (Some now)
    (Order.description o) (Order.features o) (Order.article o)
    (Order.file o) (Order.message o) (Order.message_time o)
    (Order.submittedAt o)
    (patched completionMessage (Order.completionMessage o))
    (patched completionLink (Order.completionLink o))
    (Some now).

(** [completeOrder(id, completionMessage?, completionLink?)], past the
    cast of [id] ([OrderCalls.completeOrder] has the cast). *)
Definition completeOrder (mailer : Mailer) (now : Z) (id : string)
    (completionMessage completionLink : option string) (w : World)
  : Result Order.t * World :=
  match orders w !! id with
  | None => (Err (mkAppError "Order not found" 404), w)
  | Some o =>
    let order := applyComplete completionMessage completionLink now o in
    let w1 := setOrders (<[id := order]> (orders w)) w in
    let w2 := tryNotify mailer (completionEmail now order)
                ("Order completion email sent for order " ++ Order._id order)
                ("Failed to send completion email for order "
                 ++ Order._id order ++ ":") w1 in
    (Ok order, pushLog (LogSuccess ("Order completed: " ++ Order.item_name order)) w2)
  end.

(** The filter of [getOrderStats]: [userId ? { userId } : {}]. *)
Definition statsQuery (userId : option string) : option string :=
  if Js.truthyS userId then userId else None.

Definition matchesQuery (q : option string) (o : Order.t) : bool :=
  match q with
  | Some u => String.eqb (Order.userId o) u
  | None => true
  end.

(** [Order.countDocuments({ ...query })] and
    [Order.countDocuments({ ...query, status })]. *)
Definition countDocuments (q : option string) (st : option OrderStatus)
    (docs : list Order.t) : nat :=
  length (List.filter
            (fun o => matchesQuery q o
                      && match st with
                         | Some s => OrderStatus_eqb (Order.status o) s
                         | None => true
                         end) docs).

Record RevenueGroup := mkRevenueGroup {
  g_totalRevenue : Q;
  g_averageOrderValue : Q
}.

Definition sumPrices (docs : list Order.t) : Q :=
  fold_right (fun o acc => Qplus (Order.price o) acc) 0%Q docs.

(** The [$match] stage.  The driver casts the filter of
    [countDocuments] to the schema but leaves aggregation pipelines as
    they are, so a string [userId] may match no stored reference;
    [pipelineCasts] selects between the two behaviours. *)
Definition aggregateMatch (pipelineCasts : bool) (q : option string)
    (docs : list Order.t) : list Order.t :=
  match q with
  | Some _ => if pipelineCasts then List.filter (matchesQuery q) docs else []
  | None => docs
  end.

(** [$group] with [_id: null]: one group, or none on empty input. *)
Definition aggregate (pipelineCasts : bool) (q : option string)
    (docs : list Order.t) : list RevenueGroup :=
  match aggregateMatch pipelineCasts q docs with
  | [] => []
  | ms => [ mkRevenueGroup (sumPrices ms)
              (Qdiv (sumPrices ms) (inject_Z (Z.of_nat (length ms)))) ]
  end.

(** [x || 0] on a number. *)
Definition orZero (x : Q) : Q := if Qeq_bool x 0 then 0%Q else x.

Record OrderStats := mkOrderStats {
  total : nat;
  n_pending : nat;
  n_processing : nat;
  n_completed : nat;
  n_failed : nat;
  totalRevenue : Q;
  averageOrderValue : Q
}.

Definition orderDocs (w : World) : list Order.t :=
  (map_to_list (orders w)).*2.

(** [getOrderStats(userId?)], on the documents of the collection. *)
Definition statsOf (pipelineCasts : bool) (userId : option string)
    (docs : list Order.t) : OrderStats :=
  let query := statsQuery userId in
  let revenueData := aggregate pipelineCasts query docs in
  mkOrderStats
    (countDocuments query None docs)
    (countDocuments query (Some pending) docs)
    (countDocuments query (Some processing) docs)
    (countDocuments query (Some completed) docs)
    (countDocuments query (Some failed) docs)
    (match revenueData with
     | g :: _ => orZero (g_totalRevenue g)
     | [] => 0%Q
     end)
    (match revenueData with
     | g :: _ => orZero (g_averageOrderValue g)
     | [] => 0%Q
     end).

Definition getOrderStats (pipelineCasts : bool) (userId : option string)
    (w : World) : Result OrderStats :=
  Ok (statsOf pipelineCasts userId (orderDocs w)).

End OrderService.

(** The revision of the order service under [src/modules/order], which
    differs from the one above in [createOrder] only: the user is looked
    up by identifier alone and the request body is spread into the new
    document. *)
Module OrderServiceBase.

Definition createOrder (newId : string) (now : Z)
    (data : CreateOrderDto.t) (w : World) : Result Order.t * World :=
  match (match CreateOrderDto.userId data with
         | Some i => OrderService.User_findById (users w) i
         | None => None
         end) with
  | None => (Err (mkAppError "User not found" 404), w)
  | Some user =>
    let orderAmount := OrderService.orderAmount data in
    if Qle_bool orderAmount 0 then
      (Err (mkAppError "Order amount must be greater than 0" 400), w)
    else
      let order :=
        Order.mk newId
          (Js.orS (CreateOrderDto.userId data) EmptyString)
          (Js.orS (CreateOrderDto.user_id data) EmptyString)
          (Js.orS (CreateOrderDto.userName data) EmptyString)
          (Js.orS (CreateOrderDto.userEmail data) EmptyString)
          (Js.orS (CreateOrderDto.item_name data) EmptyString)
          orderAmount
          (Js.orS (CreateOrderDto.type data) EmptyString)
          pending
          (Some now) now None
          (CreateOrderDto.description data)
          (CreateOrderDto.features data)
          (CreateOrderDto.article data)
          (CreateOrderDto.file data)
          (CreateOrderDto.message data)
          None
          (CreateOrderDto.submittedAt data)
          None None None in
      let w1 := setOrders (<[newId := order]> (orders w)) w in
      (Ok order,
       pushLog (LogSuccess ("Order created: " ++ Order.item_name order
                            ++ " for " ++ Order.userName order)) w1)
  end.

End OrderServiceBase.

(** ** Site-submission service *)

Module SiteSubmissionService.

(** The [trim] setter of the schema on an optional string. *)
Definition trimmed (s : option string) : option string :=
  option_map Js.trim s.

(** [new SiteSubmission(data)]: setters and defaults of the schema. *)
Definition fromDto (newId : string) (now : Z)
    (data : CreateSiteSubmissionDto.t) : SiteSubmission.t :=
  SiteSubmission.mk newId
    (CreateSiteSubmissionDto.userId data)
    (Js.trim (Js.orS (CreateSiteSubmissionDto.userName data) EmptyString))
    (Js.toLowerCase
       (Js.trim (Js.orS (CreateSiteSubmissionDto.userEmail data) EmptyString)))
    (List.map Js.trim (CreateSiteSubmissionDto.websites data))
    (CreateSiteSubmissionDto.isOwner data)
    (trimmed (CreateSiteSubmissionDto.publisherName data))
    (trimmed (CreateSiteSubmissionDto.country data))
    (trimmed (CreateSiteSubmissionDto.phone data))
    (trimmed (CreateSiteSubmissionDto.message data))
    (trimmed (CreateSiteSubmissionDto.siteDescription data))
    (trimmed (CreateSiteSubmissionDto.monthlyTraffic data))
    (trimmed (CreateSiteSubmissionDto.domainAuthority data))
    (trimmed (CreateSiteSubmissionDto.domainRating data))
    (trimmed (CreateSiteSubmissionDto.websiteOwner data))
    (CreateSiteSubmissionDto.csvFile data)
    sub_pending
    now
    None None None.

(** What [save] checks of the new document: the [required] validators
    of the schema, and the cast of [userId], an ObjectId reference, which
    the document keeps as a validation error when it fails. *)
Definition validates (s : SiteSubmission.t) : bool :=
  negb (String.eqb (SiteSubmission.userName s) EmptyString)
  && negb (String.eqb (SiteSubmission.userEmail s) EmptyString)
  && forallb (fun site => negb (String.eqb site EmptyString))
             (SiteSubmission.websites s)
  && match SiteSubmission.userId s with
     | Some i => Driver.castsToObjectId i
     | None => true
     end.

(** [createSiteSubmission(data)] *)
Definition createSiteSubmission (mailer : Mailer) (newId : string)
    (now : Z) (data : CreateSiteSubmissionDto.t) (w : World)
  : Result SiteSubmission.t * World :=
  let siteSubmission := fromDto newId now data in
  if validates siteSubmission then
    let w1 := setSubmissions (<[newId := siteSubmission]> (submissions w)) w in
    let n := SiteSubmissionReceivedEmail
               (mkSubmissionMail
                  (Js.orS (CreateSiteSubmissionDto.userEmail data) EmptyString)
                  (Js.orS (CreateSiteSubmissionDto.userName data) EmptyString)
                  (CreateSiteSubmissionDto.websites data)
                  None) in
    let w2 := pushOutbox n w1 in
    let w3 := match mailer n with
              | Resolved _ => w2
              | Raised =>
                  pushLog (LogError
                    "Failed to send site submission received email:") w2
              end in
    (Ok siteSubmission, w3)
  else (Thrown "SiteSubmission validation failed", w).

(** [{ ...data, reviewedAt: new Date() }] applied by
    [findByIdAndUpdate]. *)
Definition applyUpdate (data : UpdateSiteSubmissionDto.t) (now : Z)
    (s : SiteSubmission.t) : SiteSubmission.t :=
  SiteSubmission.mk
    (SiteSubmission._id s) (SiteSubmission.userId s)
    (SiteSubmission.userName s) (SiteSubmission.userEmail s)
    (SiteSubmission.websites s) (SiteSubmission.isOwner s)
    (SiteSubmission.publisherName s) (SiteSubmission.country s)
    (SiteSubmission.phone s) (SiteSubmission.message s)
    (SiteSubmission.siteDescription s) (SiteSubmission.monthlyTraffic s)
    (SiteSubmission.domainAuthority s) (SiteSubmission.domainRating s)
    (SiteSubmission.websiteOwner s) (SiteSubmission.csvFile s)
    (default (SiteSubmission.status s) (UpdateSiteSubmissionDto.status data))
    (SiteSubmission.submittedAt s)
    (Some now)
    (patched (UpdateSiteSubmissionDto.reviewedBy data)
             (SiteSubmission.reviewedBy s))
    (patched (trimmed (UpdateSiteSubmissionDto.adminNotes data))
             (SiteSubmission.adminNotes s)).

(** The email of a status change: [newStatus && oldStatus !== newStatus]. *)
Definition statusChangeEmail (data : UpdateSiteSubmissionDto.t)
    (oldStatus : SubmissionStatus) (siteSubmission : SiteSubmission.t)
  : option Notification :=
  let mail := mkSubmissionMail
                (SiteSubmission.userEmail siteSubmission)
                (SiteSubmission.userName siteSubmission)
                (SiteSubmission.websites siteSubmission)
                (UpdateSiteSubmissionDto.adminNotes data) in
  match UpdateSiteSubmissionDto.status data with
  | Some newStatus =>
      if negb (SubmissionStatus_eqb oldStatus newStatus) then
        match newStatus with
        | approved => Some (SiteSubmissionApprovalEmail mail)
        | rejected => Some (SiteSubmissionRejectionEmail mail)
        | sub_pending => None
        end
      else None
  | None => None
  end.

(** [updateSiteSubmission(id, data)] *)
Definition updateSiteSubmission (mailer : Mailer) (now : Z) (id : string)
    (data : UpdateSiteSubmissionDto.t) (w : World)
  : Result SiteSubmission.t * World :=
  match submissions w !! id with
  | None => (Err (mkAppError "Site submission not found" 404), w)
  | Some currentSubmission =>
    let oldStatus := SiteSubmission.status currentSubmission in
    let siteSubmission := applyUpdate data now currentSubmission in
    let w1 := setSubmissions (<[id := siteSubmission]> (submissions w)) w in
    let w2 :=
      match statusChangeEmail data oldStatus siteSubmission with
      | Some n =>
          let w' := pushOutbox n w1 in
          match mailer n with
          | Resolved _ => w'
          | Raised =>
              pushLog (LogError
                "Failed to send site submission status email:") w'
          end
      | None => w1
      end in
    (Ok siteSubmission, w2)
  end.

End SiteSubmissionService.

(** ** Message service *)

Module MessageService.

(** [Message.findOne({ commentId })]: the first matching thread of the
    collection, with its position. *)
Definition findOne (commentId : string) (ms : list Message.t)
  : option (nat * Message.t) :=
  list_find (fun m => Message.commentId m = commentId) ms.

(** [message.content.push(newMessage); message.date = new Date();
    message.approved = 1]. *)
Definition appended (now : Z) (newMessage : MessageContent.t)
    (message : Message.t) : Message.t :=
  Message.mk (Message.commentId message) (Message.userId message)
    (Message.userName message) (Message.userEmail message)
    (Message.type message)
    (Message.content message ++ [newMessage])
    1%Z
    now.

(** [addMessageToThread(commentId, newMessage)]; [None] is [null]. *)
Definition addMessageToThread (now : Z) (commentId : string)
    (newMessage : MessageContent.t) (w : World)
  : option Message.t * World :=
  match findOne commentId (messages w) with
  | None => (None, w)
  | Some (i, message) =>
      let message' := appended now newMessage message in
      (Some message', setMessages (<[i := message']> (messages w)) w)
  end.

(** [.sort({ date: -1 })], as a stable insertion sort. *)
Fixpoint insertByDate (m : Message.t) (l : list Message.t) : list Message.t :=
  match l with
  | [] => [m]
  | x :: r => if (Message.date x <=? Message.date m)%Z then m :: x :: r
              else x :: insertByDate m r
  end.

Definition sortByDateDesc (l : list Message.t) : list Message.t :=
  fold_right insertByDate [] l.

(** [getMessagesByUserEmail(userEmail)] *)
Definition getMessagesByUserEmail (userEmail : string) (ms : list Message.t)
  : list Message.t :=
  if String.eqb userEmail EmptyString then []
  else sortByDateDesc
         (List.filter (fun m => String.eqb (Message.userEmail m) userEmail) ms).

End MessageService.

(** ** Message stream (server-sent events) *)

Module MessageController.

(** The payload of a verified access token. *)
Record Decoded := mkDecoded {
  d_userEmail : option string;
  d_email : option string
}.

Record StreamRequest := mkStreamRequest {
  req_userEmail : option string;   (* [req.user?.userEmail] *)
  query_lastId : option string;    (* [req.query.lastId] *)
  query_token : option string      (* [req.query.token] *)
}.

Inductive SseEvent :=
| EvError (msg : string)
| EvConnected
| EvMessage (content : MessageContent.t) (commentId : string).

(** One connection: what has been written to the response, whether the
    response is ended, whether the interval timer is armed, and how many
    timer callbacks are awaiting the database. *)
Record Stream := mkStream {
  httpStatus : Z;
  written : list SseEvent;
  ended : bool;
  pollInterval : bool;
  inflight : nat;
  userEmail : string;
  lastId : option string
}.

(** [res.write(e)]: nothing reaches the client once the response is
    ended. *)
Definition res_write (e : SseEvent) (s : Stream) : Stream :=
  if ended s then s
  else mkStream (httpStatus s) (written s ++ [e]) (ended s) (pollInterval s)
         (inflight s) (userEmail s) (lastId s).

Definition res_writeAll (es : list SseEvent) (s : Stream) : Stream :=
  fold_left (fun acc e => res_write e acc) es s.

(** The user the stream serves: [req.user], else the token of the query
    string.  [verifyAccessToken] returns [None] where the original
    throws. *)
Definition authenticate (verifyAccessToken : string -> option Decoded)
    (req : StreamRequest) : option string :=
  if Js.truthyS (req_userEmail req) then req_userEmail req
  else if Js.truthyS (query_token req) then
    match verifyAccessToken (Js.orS (query_token req) EmptyString) with
    | Some decoded =>
        OrderService.truthyOpt (Js.orSS (d_userEmail decoded) (d_email decoded))
    | None => None
    end
  else None.

(** The synchronous part of [messageStream]: refuse, or acknowledge and
    arm the timer. *)
Definition messageStream (verifyAccessToken : string -> option Decoded)
    (req : StreamRequest) : Stream :=
  match authenticate verifyAccessToken req with
  | None =>
      mkStream 401 [EvError "Unauthorized"] true false 0 EmptyString
        (query_lastId req)
  | Some email =>
      mkStream 200 [EvConnected] false true 0 email (query_lastId req)
  end.

(** [msg.content.map(content => ({ ...content, comment_id, commentId }))] *)
Definition flatten (msg : Message.t) : list (MessageContent.t * string) :=
  List.map (fun c => (c, Message.commentId msg)) (Message.content msg).

(** [new Date(msg.time).getTime() > new Date().getTime() - 10000]; the
    clock reads of one synchronous filter pass are identified with the
    time [now] at which the query returned. *)
Definition recent (now : Z) (item : MessageContent.t * string) : bool :=
  match MessageContent.time (fst item) with
  | Some msgTime => (now - 10000 <? msgTime)%Z
  | None => false
  end.

(** The body of the timer callback: the events of one poll. *)
Definition newMessages (lastId : option string) (now : Z)
    (threads : list Message.t) : list (MessageContent.t * string) :=
  List.filter (fun item => if negb (Js.truthyS lastId) then true
                           else recent now item)
              (flat_map flatten threads).

Definition pollEvents (s : Stream) (now : Z) (db : list Message.t)
  : list SseEvent :=
  List.map (fun item => EvMessage (fst item) (snd item))
    (newMessages (lastId s) now
       (MessageService.getMessagesByUserEmail (userEmail s) db)).

(** What can happen to a connection after the handler returned. *)
Inductive Action :=
| TimerFire                                 (* the 2000 ms interval elapses *)
| PollDone (db : list Message.t) (now : Z)  (* an awaited query returns *)
| ClientClose.                              (* [req.on("close")] *)

Definition step (s : Stream) (a : Action) : Stream :=
  match a with
  | TimerFire =>
      if pollInterval s
      then mkStream (httpStatus s) (written s) (ended s) (pollInterval s)
             (S (inflight s)) (userEmail s) (lastId s)
      else s
  | PollDone db now =>
      match inflight s with
      | O => s
      | S k =>
          res_writeAll (pollEvents s now db)
            (mkStream (httpStatus s) (written s) (ended s) (pollInterval s)
               k (userEmail s) (lastId s))
      end
  | ClientClose =>
      (* [clearInterval(pollInterval); res.end()] *)
      mkStream (httpStatus s) (written s) true false (inflight s)
        (userEmail s) (lastId s)
  end.

Definition run (s : Stream) (trace : list Action) : Stream :=
  fold_left step trace s.

End MessageController.

(** The revision of the stream under [src/modules/message]: the token
    must carry [userEmail], and the cursor selects threads by the number
    in their identifier instead of entries by age. *)
Module MessageControllerBase.

Definition digit (c : ascii) : option Z :=
  let n := nat_of_ascii c in
  if (48 <=? n)%nat && (n <=? 57)%nat then Some (Z.of_nat (n - 48)) else None.

Fixpoint digits (acc : option Z) (s : string) : option Z :=
  match s with
  | EmptyString => acc
  | String c r =>
      match digit c with
      | Some d => digits (Some (10 * default 0%Z acc + d)%Z) r
      | None => acc
      end
  end.

(** [parseInt(s)] on decimal input: leading white space, an optional
    sign, then the longest run of digits; [None] is [NaN]. *)
Definition parseInt (s : string) : option Z :=
  match Js.trimStart s with
  | String "-"%char r => option_map Z.opp (digits None r)
  | String "+"%char r => digits None r
  | r => digits None r
  end.

(** The token branch: [decoded && decoded.userEmail]. *)
Definition authenticate
    (verifyAccessToken : string -> option MessageController.Decoded)
    (req : MessageController.StreamRequest) : option string :=
  if Js.truthyS (MessageController.req_userEmail req)
  then MessageController.req_userEmail req
  else if Js.truthyS (MessageController.query_token req) then
    match verifyAccessToken
            (Js.orS (MessageController.query_token req) EmptyString) with
    | Some decoded =>
        OrderService.truthyOpt (MessageController.d_userEmail decoded)
    | None => None
    end
  else None.

(** [!lastId || (msg.commentId && parseInt(msg.commentId) > parseInt(lastId))] *)
Definition newer (lastId : option string) (msg : Message.t) : bool :=
  if negb (Js.truthyS lastId) then true
  else negb (String.eqb (Message.commentId msg) EmptyString)
       && match parseInt (Message.commentId msg),
                parseInt (Js.orS lastId EmptyString) with
          | Some a, Some b => (b <? a)%Z
          | _, _ => false
          end.

Definition newMessages (lastId : option string) (threads : list Message.t)
  : list (MessageContent.t * string) :=
  flat_map MessageController.flatten (List.filter (newer lastId) threads).

End MessageControllerBase.

(** ** Payment service: a façade over two gateways *)

Module PaymentService.

Record Config := mkConfig {
  stripe_secretKey : option string;
  paypal_clientId : option string;
  paypal_clientSecret : option string
}.

(** [const stripe = config.stripe.secretKey ? new Stripe(...) : null] *)
Definition stripe (cfg : Config) : bool := Js.truthyS (stripe_secretKey cfg).

(** [paypalConfigured] after module initialisation; [configureOk] tells
    whether [paypal.configure] returned without throwing. *)
Definition paypalConfigured (configureOk : bool) (cfg : Config) : bool :=
  Js.truthyS (paypal_clientId cfg) && Js.truthyS (paypal_clientSecret cfg)
  && negb ((String.length
              (Js.stripSpaces (Js.trim (Js.orS (paypal_clientId cfg) EmptyString)))
            <? 20)%nat
           || (String.length
                 (Js.stripSpaces
                    (Js.trim (Js.orS (paypal_clientSecret cfg) EmptyString)))
               <? 20)%nat)
  && configureOk.

(** The error object a gateway SDK hands back. *)
Record GatewayError := mkGatewayError {
  ge_message : option string;              (* [error.message] *)
  ge_httpStatusCode : option Z;            (* [error.httpStatusCode] *)
  ge_response_error : option string;       (* [error.response?.error] *)
  ge_response_error_description : option string
}.

Record PaymentResult := mkPaymentResult {
  success : bool;
  paymentId : option string;
  clientSecret : option string;
  approvalUrl : option string
}.

Record PaymentIntent := mkPaymentIntent {
  pi_id : string;
  pi_client_secret : option string;
  pi_status : string
}.

Record Link := mkLink { rel : string; href : string }.

Record PayPalPayment := mkPayPalPayment {
  pp_id : string;
  pp_links : option (list Link);
  pp_state : string
}.

(** [createStripePaymentIntent(data)], given the gateway's reply. *)
Definition createStripePaymentIntent (cfg : Config)
    (reply : GatewayError + PaymentIntent) : Result PaymentResult :=
  if negb (stripe cfg) then Err (mkAppError "Stripe is not configured" 500)
  else match reply with
       | inr paymentIntent =>
           Ok (mkPaymentResult true (Some (pi_id paymentIntent))
                 (OrderService.truthyOpt (pi_client_secret paymentIntent))
                 None)
       | inl error =>
           Err (mkAppError
                  (Js.orS (ge_message error) "Failed to create payment intent")
                  500)
       end.

(** [verifyStripePayment(paymentIntentId)] *)
Definition verifyStripePayment (cfg : Config)
    (reply : GatewayError + PaymentIntent) : Result bool :=
  if negb (stripe cfg) then Err (mkAppError "Stripe is not configured" 500)
  else match reply with
       | inr paymentIntent => Ok (String.eqb (pi_status paymentIntent) "succeeded")
       | inl _ => Ok false
       end.

(** The callback of [paypal.payment.create]: [(error, payment)]. *)
Definition createPayPalPayment (configureOk : bool) (cfg : Config)
    (error : option GatewayError) (payment : option PayPalPayment)
  : Result PaymentResult :=
  if negb (Js.truthyS (paypal_clientId cfg))
     || negb (Js.truthyS (paypal_clientSecret cfg)) then
    Err (mkAppError
      "PayPal is not configured. Please check your PayPal credentials in .env file"
      500)
  else if negb (paypalConfigured configureOk cfg) then
    Err (mkAppError
      "PayPal SDK is not initialized. Please check your PayPal credentials" 500)
  else
    match error with
    | Some error =>
        if match ge_httpStatusCode error with
           | Some c => (c =? 401)%Z
           | None => false
           end
           || match ge_response_error error with
              | Some e => String.eqb e "invalid_client"
              | None => false
              end
        then
          let errorMsg :=
            Js.orS (Js.orSS (ge_response_error_description error)
                            (ge_message error))
                   "PayPal authentication failed" in
          Err (mkAppError
                 ("PayPal authentication failed: " ++ errorMsg ++
                  ". Please verify your PayPal credentials in the .env file match your PayPal Developer Dashboard.")
                 401)
        else
          Err (mkAppError
                 (Js.orS (Js.orSS (ge_message error)
                                  (ge_response_error_description error))
                         "Failed to create PayPal payment")
                 (Js.orZ (ge_httpStatusCode error) 500))
    | None =>
        match payment with
        | Some (mkPayPalPayment id (Some links) _) =>
            match List.find (fun link => String.eqb (rel link) "approval_url")
                            links with
            | Some approvalUrl =>
                Ok (mkPaymentResult true (Some id) None (Some (href approvalUrl)))
            | None => Err (mkAppError "PayPal approval URL not found" 500)
            end
        | _ => Err (mkAppError "Invalid PayPal payment response" 500)
        end
    end.

(** The callback of [paypal.payment.execute]. *)
Definition executePayPalPayment (cfg : Config)
    (reply : GatewayError + PayPalPayment) : Result PaymentResult :=
  if negb (Js.truthyS (paypal_clientId cfg))
     || negb (Js.truthyS (paypal_clientSecret cfg)) then
    Err (mkAppError "PayPal is not configured" 500)
  else
    match reply with
    | inl error =>
        Err (mkAppError
               (Js.orS (ge_message error) "Failed to execute PayPal payment")
               500)
    | inr payment =>
        if String.eqb (pp_state payment) "approved"
        then Ok (mkPaymentResult true (Some (pp_id payment)) None None)
        else Err (mkAppError "Payment was not approved" 400)
    end.

End PaymentService.

(** ** What the design promises for one poll of the stream *)

(** The entries of the threads of [email], each tagged with its thread;
    with a cursor, only those younger than ten seconds at [now]. *)
Definition promisedEvents (email : string) (cursor : bool) (now : Z)
    (db : list Message.t) : list MessageController.SseEvent :=
  List.map (fun item => MessageController.EvMessage (fst item) (snd item))
    (List.filter
       (fun item => if cursor then MessageController.recent now item else true)
       (flat_map MessageController.flatten
          (List.filter (fun m => String.eqb (Message.userEmail m) email) db))).

(** ** The notification table of the design *)

(** The notifications [updateOrder] owes to a transition, as the design
    lists them. *)
Definition owed (now : Z) (data : UpdateOrderDto.t) (prev : OrderStatus)
    (order : Order.t) : list Notification :=
  match prev, Order.status order with
  | pending, pending | processing, processing
  | completed, completed | failed, failed => []
  | pending, processing =>
      [OrderConfirmationEmail (OrderService.orderMail order)]
  | _, completed => [OrderService.completionEmail now order]
  | _, failed =>
      [OrderStatusUpdateEmail (OrderService.orderMail order) failed
         (UpdateOrderDto.message data)]
  | _, processing =>
      [OrderStatusUpdateEmail (OrderService.orderMail order) processing
         (UpdateOrderDto.message data)]
  | _, pending => []
  end.

(** ** Sample data *)

Module Sample.

Definition alice : User.t :=
  User.mk "64b7f0c2a1d3e4f5a6b7c8d9" "alice@example.com" (Some "Alice").

Definition order1 (st : OrderStatus) : Order.t :=
  Order.mk "o1" "64b7f0c2a1d3e4f5a6b7c8d9" "alice@example.com" "Alice"
    "alice@example.com" "Guest post" 50%Q "article" st
    (Some 1000%Z) 1000%Z None None None None None None None None None None None.

Definition world1 (st : OrderStatus) : World :=
  mkWorld [alice] {[ "o1" := order1 st ]} ∅ [] [] [].

Definition setStatus (st : OrderStatus) : UpdateOrderDto.t :=
  UpdateOrderDto.mk (Some st) None None None None None None None None.

(** A checkout request without identifier, with a caller-chosen status. *)
Definition checkout : CreateOrderDto.t :=
  CreateOrderDto.mk None None None (Some "Alice@Example.com")
    (Some "Guest post") (Some 50%Q) (Some "article")
    None None None None None None None None None (Some "completed").






Definition order2 (id : string) (p : Q) (st : OrderStatus) : Order.t :=
  Order.mk id "64b7f0c2a1d3e4f5a6b7c8d9" "alice@example.com" "Alice"
    "alice@example.com" "Link insertion" p "service" st
    (Some 1000%Z) 1000%Z None None None None None None None None None None None.

Definition world3 : World :=
  mkWorld [alice]
    (<["a" := order2 "a" 50%Q pending]>
       (<["b" := order2 "b" 25%Q processing]>
          {[ "c" := order2 "c" 30%Q completed ]}))
    ∅ [] [] [].

Definition entry (t : Z) (text : string) : MessageContent.t :=
  MessageContent.mk (Some t) text.

(** A thread whose stored [date] the client chose. *)
Definition thread1 (date : Z) : Message.t :=
  Message.mk "1700000000000" "u1" "Alice" "alice@example.com" "message"
    [entry 100 "hello"] 0 date.


Definition gateways : PaymentService.Config :=
  PaymentService.mkConfig (Some "sk_test_1")
    (Some "AbCdEfGhIjKlMnOpQrStUvWx") (Some "ZyXwVuTsRqPoNmLkJiHgFeDc").

Definition invalidClient : PaymentService.GatewayError :=
  PaymentService.mkGatewayError (Some "Response Status : 401") (Some 401%Z)
    (Some "invalid_client") (Some "Client Authentication failed").

Definition verifier (token : string) : option MessageController.Decoded :=
  if String.eqb token "good"
  then Some (MessageController.mkDecoded None (Some "alice@example.com"))
  else None.

Definition subscribe : MessageController.StreamRequest :=
  MessageController.mkStreamRequest None (Some "1700000000000") (Some "good").

Definition thread2 : Message.t :=
  Message.mk "1700000000001" "u1" "Alice" "alice@example.com" "message"
    [entry 100 "old"; entry 95000 "fresh"] 1 95000.

Definition bounce : Mailer := fun _ => Raised.
Definition deliver : Mailer := fun _ => Resolved true.

End Sample.

From Stdlib Require DecimalString Sorted.

(** ** Further operations of the order service *)

Module OrderFilters.
Record t := mk {
  userId : option string;
  userEmail : option string;
  status : option string;
  type : option string;
  page : option Z;
  limit : option Z;
  startDate : option Z;
  endDate : option Z
}.
End OrderFilters.

Module OrderCrud.

(** The value a status has in a document. *)
Definition statusName (s : OrderStatus) : string :=
  match s with
  | pending => "pending"
  | processing => "processing"
  | completed => "completed"
  | failed => "failed"
  end.

(** One optional equality of a query: [if (x) query.f = x]. *)
Definition eqFilter (x : option string) (field : string) : bool :=
  if Js.truthyS x then String.eqb field (Js.orS x EmptyString) else true.

(** [query.createdAt = { $gte: startDate, $lte: endDate }], each bound
    only when given. *)
Definition dateFilter (startDate endDate : option Z) (createdAt : Z) : bool :=
  match startDate with Some a => (a <=? createdAt)%Z | None => true end
  && match endDate with Some b => (createdAt <=? b)%Z | None => true end.

(** The query object [getOrders] builds from its filters. *)
Definition matchesFilters (f : OrderFilters.t) (o : Order.t) : bool :=
  eqFilter (OrderFilters.userId f) (Order.userId o)
  && eqFilter (OrderFilters.userEmail f) (Order.userEmail o)
  && eqFilter (OrderFilters.status f) (statusName (Order.status o))
  && eqFilter (OrderFilters.type f) (Order.type o)
  && dateFilter (OrderFilters.startDate f) (OrderFilters.endDate f)
       (Order.createdAt o).

(** [.sort({ createdAt: -1 })], as a stable insertion sort. *)
Fixpoint insertByCreatedAt (o : Order.t) (l : list Order.t) : list Order.t :=
  match l with
  | [] => [o]
  | x :: r => if (Order.createdAt x <=? Order.createdAt o)%Z then o :: x :: r
              else x :: insertByCreatedAt o r
  end.

Definition sortByCreatedAtDesc (l : list Order.t) : list Order.t :=
  fold_right insertByCreatedAt [] l.

(** [Math.ceil(total / limit)] for a non-zero [limit]. *)
Definition ceilDiv (total limit : Z) : Z := (- ((- total) / limit))%Z.

Record OrderPage := mkOrderPage {
  p_orders : list Order.t;
  p_total : Z;
  p_page : Z;
  p_limit : Z;
  p_totalPages : option Z     (* [None]: not a finite number *)
}.

(** [.skip(skip).limit(limit)]: a negative [skip] is refused by the
    database, a [limit] of 0 means no limit, a negative one its absolute
    value. *)
Definition skipLimit (skip limit : Z) (l : list Order.t)
  : option (list Order.t) :=
  if (skip <? 0)%Z then None
  else let rest := drop (Z.to_nat skip) l in
       Some (if (limit =? 0)%Z then rest
             else take (Z.to_nat (Z.abs limit)) rest).

(** [getOrders(filters)] on the documents of the collection, past the
    cast of the query ([OrderCalls.getOrders] has the cast). *)
Definition getOrdersOf (filters : OrderFilters.t) (docs : list Order.t)
  : Result OrderPage :=
  let page := default 1%Z (OrderFilters.page filters) in
  let limit := default 20%Z (OrderFilters.limit filters) in
  let hits := List.filter (matchesFilters filters) docs in
  let total := Z.of_nat (length hits) in
  let skip := ((page - 1) * limit)%Z in
  match skipLimit skip limit (sortByCreatedAtDesc hits) with
  | None => Err (mkAppError "Failed to fetch orders" 500)
  | Some orders =>
      Ok (mkOrderPage orders total page limit
            (if (limit =? 0)%Z then None else Some (ceilDiv total limit)))
  end.

Definition getOrders (filters : OrderFilters.t) (w : World)
  : Result OrderPage :=
  getOrdersOf filters (OrderService.orderDocs w).

(** [getOrdersByUser(userEmail, filters)]: the address is always part of
    the query, the other filters as in [getOrders]; no paging.  The
    order schema is not among the sources: the address is compared as
    the service passes it. *)
Definition getOrdersByUserOf (userEmail : string) (filters : OrderFilters.t)
    (docs : list Order.t) : list Order.t :=
  sortByCreatedAtDesc
    (List.filter
       (fun o => String.eqb (Order.userEmail o) userEmail
                 && eqFilter (OrderFilters.status filters)
                      (statusName (Order.status o))
                 && eqFilter (OrderFilters.type filters) (Order.type o)
                 && dateFilter (OrderFilters.startDate filters)
                      (OrderFilters.endDate filters) (Order.createdAt o))
       docs).

Definition getOrdersByUser (userEmail : string) (filters : OrderFilters.t)
    (w : World) : Result (list Order.t) :=
  Ok (getOrdersByUserOf userEmail filters (OrderService.orderDocs w)).

(** [getOrderById(id)]: the order, with the user its [userId] refers to
    ([populate]); the look-up past the cast of [id]
    ([OrderCalls.getOrderById] has the cast). *)
Definition getOrderById (id : string) (w : World)
  : Result (Order.t * option User.t) :=
  match orders w !! id with
  | None => Err (mkAppError "Order not found" 404)
  | Some order =>
      Ok (order, OrderService.User_findById (users w) (Order.userId order))
  end.

(** [deleteOrder(id)], past the cast of [id] ([OrderCalls.deleteOrder]
    has the cast). *)
Definition deleteOrder (id : string) (w : World) : Result unit * World :=
  match orders w !! id with
  | None => (Err (mkAppError "Order not found" 404), w)
  | Some order =>
      (Ok tt,
       pushLog (LogSuccess ("Order deleted: " ++ Order.item_name order))
         (setOrders (delete id (orders w)) w))
  end.

End OrderCrud.

(** ** Further operations of the site-submission service *)

Module FileUtils.

(** The upload directory: the files present, as full paths. *)
Inductive FsLog :=
| FileDeleted (filePath : string)     (* [logger.success] *)
| FileNotFound (filePath : string)    (* [logger.warn] *)
| FileDeleteFailed (filePath : string). (* [logger.error] *)

Inductive UnlinkResult := Unlinked | ENOENT | OtherError.

(** [fs.unlink(fullPath)]: a path that is not there gives [ENOENT];
    [locked] holds the paths that are there but that the operating system
    refuses to remove (permissions, a directory, a busy file). *)
Definition fs_unlink (locked : gset string) (fullPath : string)
    (disk : gset string) : UnlinkResult * gset string :=
  if decide (fullPath ∈ disk) then
    if decide (fullPath ∈ locked) then (OtherError, disk)
    else (Unlinked, disk ∖ {[ fullPath ]})
  else (ENOENT, disk).

(** [deleteFileFromVPS(filePath)]; [join] is
    [path.join(config.upload.uploadPath, _)]. *)
Definition deleteFileFromVPS (join : string -> string) (locked : gset string)
    (filePath : string) (disk : gset string)
  : bool * gset string * FsLog :=
  match fs_unlink locked (join filePath) disk with
  | (Unlinked, disk') => (true, disk', FileDeleted filePath)
  | (ENOENT, disk') => (true, disk', FileNotFound filePath)
  | (OtherError, disk') => (false, disk', FileDeleteFailed filePath)
  end.

(** [fileExists(relativePath)] *)
Definition fileExists (join : string -> string) (relativePath : string)
    (disk : gset string) : bool :=
  bool_decide (join relativePath ∈ disk).

End FileUtils.

Module SiteSubmissionFilters.
Record t := mk {
  status : option string;
  userEmail : option string
}.
End SiteSubmissionFilters.

Module SiteSubmissionCrud.

Definition statusName (s : SubmissionStatus) : string :=
  match s with
  | sub_pending => "pending"
  | approved => "approved"
  | rejected => "rejected"
  end.

Definition submissionDocs (w : World) : list SiteSubmission.t :=
  (map_to_list (submissions w)).*2.



(** [getSiteSubmissionById(id)], with the two populated references. *)
Definition getSiteSubmissionById (id : string) (w : World)
  : Result (SiteSubmission.t * option User.t * option User.t) :=
  match submissions w !! id with
  | None => Err (mkAppError "Site submission not found" 404)
  | Some s =>
      Ok (s,
          match SiteSubmission.userId s with
          | Some u => OrderService.User_findById (users w) u
          | None => None
          end,
          match SiteSubmission.reviewedBy s with
          | Some u => OrderService.User_findById (users w) u
          | None => None
          end)
  end.




(** The setters of the schema's [userEmail] path ([trim], [lowercase]).
    The driver applies them to a value it stores and, when it casts a
    query, to the value asked for. *)
Definition castEmail (e : string) : string := Js.toLowerCase (Js.trim e).

(** [if (filters.userEmail) query.userEmail = filters.userEmail] *)
Definition emailFilter (userEmail : option string) (s : SiteSubmission.t)
  : bool :=
  if Js.truthyS userEmail
  then String.eqb (SiteSubmission.userEmail s)
         (castEmail (Js.orS userEmail EmptyString))
  else true.

(** [SiteSubmission.countDocuments({ ...query, status })] with
    [query.userEmail] set when the filter is truthy. *)
Definition countDocuments (userEmail : option string)
    (st : option SubmissionStatus) (docs : list SiteSubmission.t) : nat :=
  length (List.filter
            (fun s => emailFilter userEmail s
                      && match st with
                         | Some x => SubmissionStatus_eqb (SiteSubmission.status s) x
                         | None => true
                         end) docs).


(** [.sort({ submittedAt: -1 })], as a stable insertion sort. *)
Fixpoint insertBySubmittedAt (s : SiteSubmission.t)
    (l : list SiteSubmission.t) : list SiteSubmission.t :=
  match l with
  | [] => [s]
  | x :: r =>
      if (SiteSubmission.submittedAt x <=? SiteSubmission.submittedAt s)%Z
      then s :: x :: r
      else x :: insertBySubmittedAt s r
  end.

(** [getSiteSubmissionsByUser(userEmail, filters)] *)
Definition getSiteSubmissionsByUser (userEmail : string)
    (filters : SiteSubmissionFilters.t) (w : World)
  : list SiteSubmission.t :=
  fold_right insertBySubmittedAt []
    (List.filter
       (fun s => String.eqb (SiteSubmission.userEmail s) (castEmail userEmail)
                 && OrderCrud.eqFilter (SiteSubmissionFilters.status filters)
                      (statusName (SiteSubmission.status s)))
       (submissionDocs w)).

End SiteSubmissionCrud.

(** ** Further operations of the message service and its controller *)

Module MessageDto.
(** A request body read as [Partial<IMessage>]. *)
Record t := mk {
  commentId : option string;
  userId : option string;
  userName : option string;
  userEmail : option string;
  type : option string;
  content : option (list MessageContent.t);
  approved : option Z;
  date : option Z
}.
End MessageDto.

Module MessageCrud.

(** [new Message(messageData)]; for a property the body leaves out, the
    empty string, no content and 0 stand in for the defaults of the
    schema, which is not among the sources. *)
Definition fromDto (d : MessageDto.t) (now : Z) : Message.t :=
  Message.mk (Js.orS (MessageDto.commentId d) EmptyString)
    (Js.orS (MessageDto.userId d) EmptyString)
    (Js.orS (MessageDto.userName d) EmptyString)
    (Js.orS (MessageDto.userEmail d) EmptyString)
    (Js.orS (MessageDto.type d) EmptyString)
    (default [] (MessageDto.content d))
    (default 0%Z (MessageDto.approved d))
    (default now (MessageDto.date d)).

(** [createMessage(messageData)]: the new thread goes to the end of the
    collection. *)
Definition createMessage (now : Z) (messageData : MessageDto.t) (w : World)
  : Message.t * World :=
  let newMessage := fromDto messageData now in
  (newMessage, setMessages (messages w ++ [newMessage]) w).

(** The update document of [findOneAndUpdate]: the properties present
    replace the stored ones. *)
Definition applyPatch (d : MessageDto.t) (m : Message.t) : Message.t :=
  Message.mk
    (default (Message.commentId m) (MessageDto.commentId d))
    (default (Message.userId m) (MessageDto.userId d))
    (default (Message.userName m) (MessageDto.userName d))
    (default (Message.userEmail m) (MessageDto.userEmail d))
    (default (Message.type m) (MessageDto.type d))
    (default (Message.content m) (MessageDto.content d))
    (default (Message.approved m) (MessageDto.approved d))
    (default (Message.date m) (MessageDto.date d)).

(** [updateMessage(commentId, updateData)]; [None] is [null]. *)
Definition updateMessage (commentId : string) (updateData : MessageDto.t)
    (w : World) : option Message.t * World :=
  match MessageService.findOne commentId (messages w) with
  | None => (None, w)
  | Some (i, m) =>
      let m' := applyPatch updateData m in
      (Some m', setMessages (<[i := m']> (messages w)) w)
  end.

(** [getMessageById(commentId)] *)
Definition getMessageById (commentId : string) (w : World)
  : option Message.t :=
  option_map snd (MessageService.findOne commentId (messages w)).

(** [deleteMessage(commentId)]: [findOneAndDelete] removes the first
    matching thread, if any. *)
Definition deleteMessage (commentId : string) (w : World) : World :=
  match MessageService.findOne commentId (messages w) with
  | None => w
  | Some (i, _) => setMessages (delete i (messages w)) w
  end.

(** [getAllMessages()] *)
Definition getAllMessages (w : World) : list Message.t :=
  MessageService.sortByDateDesc (messages w).

(** [getMessagesByUser(userId)] *)
Definition getMessagesByUser (userId : string) (w : World)
  : list Message.t :=
  MessageService.sortByDateDesc
    (List.filter (fun m => String.eqb (Message.userId m) userId)
       (messages w)).

Record MessageStats := mkMessageStats {
  total : nat;
  unread : nat;
  todayCount : nat
}.

(** [getMessageStats()]; [today] is the local midnight that
    [setHours(0, 0, 0, 0)] computes from the clock. *)
Definition getMessageStats (today : Z) (w : World) : MessageStats :=
  mkMessageStats
    (length (messages w))
    (length (List.filter (fun m => (Message.approved m =? 0)%Z) (messages w)))
    (length (List.filter (fun m => (today <=? Message.date m)%Z) (messages w))).

End MessageCrud.

(** [req.user], as the authentication middleware leaves it. *)
Record ReqUser := mkReqUser {
  u_userId : option string;
  u_userEmail : option string;
  u_userName : option string;
  u_email : option string
}.

Module MessageHandlers.

Inductive Reply (A : Type) :=
| ApiCreated (data : A)
| ApiSuccess (data : A)
| Status401
| Status403.
Arguments ApiCreated {A} data.
Arguments ApiSuccess {A} data.
Arguments Status401 {A}.
Arguments Status403 {A}.

Definition userEmailOf (user : option ReqUser) : option string :=
  match user with
  | Some u => OrderService.truthyOpt (u_userEmail u)
  | None => None
  end.

(** [new Date().getTime().toString()] *)
Definition timeString (now : Z) : string :=
  DecimalString.NilZero.string_of_int (Z.to_int now).

(** [messageWithUser] of the [createMessage] handler. *)
Definition messageWithUser (now : Z) (user : option ReqUser)
    (userEmail : string) (messageData : MessageDto.t) : MessageDto.t :=
  MessageDto.mk
    (Some (Js.orS (MessageDto.commentId messageData) (timeString now)))
    (Some (Js.orS (Js.orSS (MessageDto.userId messageData)
                     (match user with Some u => u_userId u | None => None end))
                  userEmail))
    (Some (Js.orS (Js.orSS (MessageDto.userName messageData)
                     (match user with Some u => u_userName u | None => None end))
                  "Anonymous"))
    (Some userEmail)
    (Some (Js.orS (MessageDto.type messageData) "message"))
    (Some (default [] (MessageDto.content messageData)))
    (Some (Js.orZ (MessageDto.approved messageData) 1))
    (Some (Js.orZ (MessageDto.date messageData) now)).

(** The [createMessage] handler. *)
Definition createMessage (now : Z) (user : option ReqUser)
    (messageData : MessageDto.t) (w : World) : Reply Message.t * World :=
  match userEmailOf user with
  | None => (Status401, w)
  | Some userEmail =>
      let '(newMessage, w') :=
        MessageCrud.createMessage now
          (messageWithUser now user userEmail messageData) w in
      (ApiCreated newMessage, w')
  end.

(** The [updateMessage] handler: only the owner of a thread may change
    it. *)
Definition updateMessage (user : option ReqUser) (id : string)
    (updateData : MessageDto.t) (w : World)
  : Reply (option Message.t) * World :=
  match userEmailOf user with
  | None => (Status401, w)
  | Some userEmail =>
      match MessageCrud.getMessageById id w with
      | None => (Status403, w)
      | Some existingMessage =>
          if String.eqb (Message.userEmail existingMessage) userEmail then
            let '(updatedMessage, w') :=
              MessageCrud.updateMessage id updateData w in
            (ApiSuccess updatedMessage, w')
          else (Status403, w)
      end
  end.

(** The [getMyMessages] handler. *)
Definition getMyMessages (user : option ReqUser) (w : World)
  : Reply (list Message.t) :=
  match userEmailOf user with
  | None => Status401
  | Some userEmail =>
      ApiSuccess
        (MessageService.getMessagesByUserEmail userEmail (messages w))
  end.

End MessageHandlers.

(** ** The order handler in front of [createOrder] *)

Module OrderController.

(** The defaults the [createOrder] handler writes into the request body
    before it calls the service, in the order of the source. *)
Definition prepare (user : option ReqUser) (orderData : CreateOrderDto.t)
  : CreateOrderDto.t :=
  let reqUserId := match user with Some u => u_userId u | None => None end in
  let reqUserEmail :=
    match user with Some u => u_userEmail u | None => None end in
  let reqUserName :=
    match user with Some u => u_userName u | None => None end in
  let userId :=
    if negb (Js.truthyS (CreateOrderDto.userId orderData))
       && Js.truthyS reqUserId
    then reqUserId else CreateOrderDto.userId orderData in
  let userEmail :=
    if negb (Js.truthyS (CreateOrderDto.userEmail orderData))
       && Js.truthyS reqUserEmail
    then reqUserEmail else CreateOrderDto.userEmail orderData in
  let user_id :=
    if negb (Js.truthyS (CreateOrderDto.user_id orderData))
    then Some (Js.orS (Js.orSS userEmail reqUserEmail) EmptyString)
    else CreateOrderDto.user_id orderData in
  let item_name :=
    if negb (Js.truthyS (CreateOrderDto.item_name orderData))
       && Js.truthyS (CreateOrderDto.title orderData)
    then CreateOrderDto.title orderData
    else CreateOrderDto.item_name orderData in
  let price :=
    match CreateOrderDto.price orderData, CreateOrderDto.amount orderData with
    | Some p, Some a =>
        if Qeq_bool p 0 && negb (Qeq_bool a 0) then Some a else Some p
    | None, Some a => if negb (Qeq_bool a 0) then Some a else None
    | p, None => p
    end in
  let userName :=
    if negb (Js.truthyS (CreateOrderDto.userName orderData))
       && Js.truthyS reqUserName
    then reqUserName else CreateOrderDto.userName orderData in
  CreateOrderDto.mk userId user_id userName userEmail item_name price
    (CreateOrderDto.type orderData)
    (CreateOrderDto.description orderData)
    (CreateOrderDto.features orderData)
    (CreateOrderDto.article orderData)
    (CreateOrderDto.file orderData)
    (CreateOrderDto.message orderData)
    (CreateOrderDto.amount orderData)
    (CreateOrderDto.name orderData)
    (CreateOrderDto.title orderData)
    (CreateOrderDto.submittedAt orderData)
    (CreateOrderDto.status orderData).

(** The [createOrder] handler: prepare the body, call the service. *)
Definition createOrder (newId : string) (now : Z) (user : option ReqUser)
    (body : CreateOrderDto.t) (w : World) : Result Order.t * World :=
  OrderService.createOrder newId now (prepare user body) w.

End OrderController.

(** ** Sending mail ([sendEmail]) *)

Module EmailUtils.

Record EmailConfig := mkEmailConfig {
  email_host : string;
  email_port : Z;
  email_user : option string;
  email_password : option string;
  email_from : string
}.

Record Transporter := mkTransporter {
  t_host : string;
  t_port : Z;
  t_secure : bool;
  t_user : string;
  t_pass : string
}.

(** [createTransporter()]; [None] is [null]. *)
Definition createTransporter (cfg : EmailConfig) : option Transporter :=
  if negb (Js.truthyS (email_user cfg)) || negb (Js.truthyS (email_password cfg))
  then None
  else Some (mkTransporter (email_host cfg) (email_port cfg)
               (email_port cfg =? 465)%Z
               (Js.orS (email_user cfg) EmptyString)
               (Js.orS (email_password cfg) EmptyString)).

Fixpoint includesChar (c : ascii) (s : string) : bool :=
  match s with
  | EmptyString => false
  | String x r => Ascii.eqb x c || includesChar c r
  end.

(** [html.replace(/<[^>]*>/g, ...)] with the empty replacement: from a
    [<] that has a [>] somewhere after it, everything up to and including
    the first such [>] is dropped; [inTag] tells that the scan is inside
    such a match. *)
Fixpoint stripFrom (inTag : bool) (s : string) : string :=
  match s with
  | EmptyString => EmptyString
  | String c r =>
      if inTag then
        if Ascii.eqb c ">"%char then stripFrom false r else stripFrom true r
      else if Ascii.eqb c "<"%char then
        if includesChar ">"%char r then stripFrom true r
        else String c (stripFrom false r)
      else String c (stripFrom false r)
  end.

Definition stripTags (html : string) : string := stripFrom false html.

Record MailOptions := mkMailOptions {
  from : string;
  to : string;
  subject : string;
  text : string;
  html : string
}.

(** [config.email.from.includes("<") ? config.email.from
    : `"GuestPost Now" <${config.email.from}>`] *)
Definition fromAddress (cfg : EmailConfig) : string :=
  if includesChar "<"%char (email_from cfg) then email_from cfg
  else String "034"%char
         ("GuestPost Now" ++ String "034"%char (" <" ++ email_from cfg ++ ">")).

Definition mailOptions (cfg : EmailConfig) (to subject html : string)
    (text : option string) : MailOptions :=
  mkMailOptions (fromAddress cfg) to subject
    (if Js.truthyS text then Js.orS text EmptyString else stripTags html)
    html.

(** [sendEmail(to, subject, html, text?)].  [sendMail] is the transport:
    it returns the message identifier, or [None] where it throws.  The
    result is the boolean returned and the mails handed to the
    transport. *)
Definition sendEmail (cfg : EmailConfig)
    (sendMail : Transporter -> MailOptions -> option string)
    (to subject html : string) (text : option string)
  : bool * list MailOptions :=
  match createTransporter cfg with
  | None => (false, [])
  | Some transporter =>
      let options := mailOptions cfg to subject html text in
      match sendMail transporter options with
      | Some _ => (true, [options])
      | None => (false, [options])
      end
  end.

End EmailUtils.

(** ** The payment handlers *)

Module PaymentController.

Record Body := mkBody {
  amount : option Q;
  currency : option string;
  orderId : option string;
  b_userId : option string;
  b_userEmail : option string
}.

Record PaymentData := mkPaymentData {
  pd_amount : Q;
  pd_currency : string;
  pd_userId : string;
  pd_userEmail : string;
  pd_orderId : option string
}.

Inductive Reply (A : Type) :=
| BadRequest (msg : string)
| Success (data : A) (msg : string)
| Failure (e : AppError).
Arguments BadRequest {A} msg.
Arguments Success {A} data msg.
Arguments Failure {A} e.

(** [!amount || amount <= 0] *)
Definition invalidAmount (b : Body) : bool :=
  match amount b with
  | Some a => Qle_bool a 0
  | None => true
  end.

(** [req.user?.userId || req.body.userId] and
    [req.user?.email || req.body.userEmail]. *)
Definition userIdOf (user : option ReqUser) (b : Body) : option string :=
  Js.orSS (match user with Some u => u_userId u | None => None end)
          (b_userId b).

Definition userEmailOf (user : option ReqUser) (b : Body) : option string :=
  Js.orSS (match user with Some u => u_email u | None => None end)
          (b_userEmail b).

Definition paymentData (defaultCurrency : string) (user : option ReqUser)
    (b : Body) : PaymentData :=
  mkPaymentData (default 0%Q (amount b))
    (Js.orS (currency b) defaultCurrency)
    (Js.orS (userIdOf user b) EmptyString)
    (Js.orS (userEmailOf user b) EmptyString)
    (orderId b).

Definition ofResult {A} (r : Result A) (msg : string) : Reply A :=
  match r with
  | Ok a => Success a msg
  | Err e => Failure e
  | Thrown what => Failure (mkAppError what 500)
  end.

(** The [createStripePaymentIntent] handler; [gateway] is Stripe's answer
    to the request built from the payment data. *)
Definition createStripePaymentIntent (cfg : PaymentService.Config)
    (gateway : PaymentData
               -> PaymentService.GatewayError + PaymentService.PaymentIntent)
    (user : option ReqUser) (b : Body)
  : Reply PaymentService.PaymentResult :=
  if invalidAmount b then BadRequest "Invalid amount"
  else if negb (Js.truthyS (userIdOf user b))
          || negb (Js.truthyS (userEmailOf user b))
  then BadRequest "User information is required"
  else ofResult
         (PaymentService.createStripePaymentIntent cfg
            (gateway (paymentData "usd" user b)))
         "Payment intent created successfully".

(** The [createPayPalPayment] handler; [gateway] is PayPal's callback
    [(error, payment)]. *)
Definition createPayPalPayment (configureOk : bool)
    (cfg : PaymentService.Config)
    (gateway : PaymentData
               -> option PaymentService.GatewayError
                  * option PaymentService.PayPalPayment)
    (user : option ReqUser) (b : Body)
  : Reply PaymentService.PaymentResult :=
  if invalidAmount b then BadRequest "Invalid amount"
  else if negb (Js.truthyS (userIdOf user b))
          || negb (Js.truthyS (userEmailOf user b))
  then BadRequest "User information is required"
  else let '(error, payment) := gateway (paymentData "USD" user b) in
       ofResult
         (PaymentService.createPayPalPayment configureOk cfg error payment)
         "PayPal payment created successfully".

(** The [verifyStripePayment] handler. *)
Definition verifyStripePayment (cfg : PaymentService.Config)
    (gateway : string
               -> PaymentService.GatewayError + PaymentService.PaymentIntent)
    (paymentIntentId : string) : Reply bool :=
  if String.eqb paymentIntentId EmptyString
  then BadRequest "Payment intent ID is required"
  else match PaymentService.verifyStripePayment cfg (gateway paymentIntentId) with
       | Ok isVerified =>
           Success isVerified
             (if isVerified then "Payment verified successfully"
              else "Payment verification failed")
       | Err e => Failure e
       | Thrown what => Failure (mkAppError what 500)
       end.

End PaymentController.

(** ** The order operations behind the driver's cast

    [findById], [findByIdAndUpdate], [findByIdAndDelete] and a query on
    the [userId] reference cast the string they are given before the
    collection is read.  When the cast fails the driver throws, and the
    catch-all of the service function logs the error and answers 500.
    Each call below is the operation of [OrderCrud] or [OrderService]
    with that cast in front. *)

Module OrderCalls.

(** [catch (error) { logger.error(logged, error);
    throw new AppError(failure, 500) }] *)
Definition caught {A} (logged failure : string) (w : World)
  : Result A * World :=
  (Err (mkAppError failure 500), pushLog (LogError logged) w).

Definition getOrderById (id : string) (w : World)
  : Result (Order.t * option User.t) * World :=
  if Driver.castsToObjectId id then (OrderCrud.getOrderById id w, w)
  else caught "Error fetching order:" "Failed to fetch order" w.

Definition updateOrder (mailer : Mailer) (now : Z) (id : string)
    (data : UpdateOrderDto.t) (w : World) : Result Order.t * World :=
  if Driver.castsToObjectId id
  then OrderService.updateOrder mailer now id data w
  else caught "Error updating order:" "Failed to update order" w.

Definition deleteOrder (id : string) (w : World) : Result unit * World :=
  if Driver.castsToObjectId id then OrderCrud.deleteOrder id w
  else caught "Error deleting order:" "Failed to delete order" w.

Definition completeOrder (mailer : Mailer) (now : Z) (id : string)
    (completionMessage completionLink : option string) (w : World)
  : Result Order.t * World :=
  if Driver.castsToObjectId id
  then OrderService.completeOrder mailer now id completionMessage
         completionLink w
  else caught "Error completing order:" "Failed to complete order" w.

(** [getOrders(filters)]: [query.userId] is set for a truthy filter and
    cast with the query; every error, the refused negative [skip]
    included, ends in the catch. *)
Definition getOrders (filters : OrderFilters.t) (w : World)
  : Result OrderCrud.OrderPage * World :=
  if Js.truthyS (OrderFilters.userId filters)
     && negb (Driver.castsToObjectId
                (Js.orS (OrderFilters.userId filters) EmptyString))
  then caught "Error fetching orders:" "Failed to fetch orders" w
  else match OrderCrud.getOrders filters w with
       | Ok page => (Ok page, w)
       | _ => caught "Error fetching orders:" "Failed to fetch orders" w
       end.

End OrderCalls.

(** ** Plain text *)

Module Text.

(** The string is ASCII text: on it [trim] and [toLowerCase] of the
    model are those of the language. *)
Fixpoint isAscii (s : string) : bool :=
  match s with
  | EmptyString => true
  | String c r => (nat_of_ascii c <? 128)%nat && isAscii r
  end.

End Text.

(** ** Reading a listing page by page *)

Module Paging.

(** The same filters, asking for page [k]. *)
Definition withPage (f : OrderFilters.t) (k : Z) : OrderFilters.t :=
  OrderFilters.mk (OrderFilters.userId f) (OrderFilters.userEmail f)
    (OrderFilters.status f) (OrderFilters.type f) (Some k)
    (OrderFilters.limit f) (OrderFilters.startDate f)
    (OrderFilters.endDate f).

(** The orders a call of [getOrders] returned, none when it failed. *)
Definition ordersOf (r : Result OrderCrud.OrderPage) : list Order.t :=
  match r with
  | Ok pg => OrderCrud.p_orders pg
  | _ => []
  end.

(** What a client collects that asks for the pages 1 to [n] in turn. *)
Definition collect (f : OrderFilters.t) (w : World) (n : nat)
  : list Order.t :=
  flat_map (fun k => ordersOf (OrderCrud.getOrders (withPage f (Z.of_nat k)) w))
           (seq 1 n).

(** A non-empty filter value, when given, is the value of the field. *)
Definition agrees (x : option string) (field : string) : Prop :=
  forall v, x = Some v -> v <> EmptyString -> field = v.


(** Newest first. *)
Definition newestFirst (l : list Order.t) : Prop :=
  Sorted.StronglySorted
    (fun a b => (Order.createdAt b <= Order.createdAt a)%Z) l.

End Paging.

(** ** Reading the statistics *)

Module StatsView.

(** The count the statistics report for a status. *)
Definition statusCount (st : OrderService.OrderStats) (s : OrderStatus)
  : nat :=
  match s with
  | pending => OrderService.n_pending st
  | processing => OrderService.n_processing st
  | completed => OrderService.n_completed st
  | failed => OrderService.n_failed st
  end.

(** 1 when the order is counted under the user filter, else 0. *)
Definition counted (userId : option string) (o : Order.t) : nat :=
  if OrderService.matchesQuery (OrderService.statsQuery userId) o
  then 1 else 0.

(** 1 when the order is counted under the user filter and has the
    status, else 0. *)
Definition countedAs (userId : option string) (o : Order.t)
    (s : OrderStatus) : nat :=
  if OrderService.matchesQuery (OrderService.statsQuery userId) o
     && OrderStatus_eqb (Order.status o) s
  then 1 else 0.

(** The statistics [getOrderStats] computes in a world. *)
Definition statsIn (pipelineCasts : bool) (userId : option string)
    (w : World) : OrderService.OrderStats :=
  OrderService.statsOf pipelineCasts userId (OrderService.orderDocs w).

End StatsView.

(** ** Reading submissions *)

Module SubmissionView.

(** Newest first, by the time of submission. *)
Definition newestFirst (l : list SiteSubmission.t) : Prop :=
  Sorted.StronglySorted
    (fun a b => (SiteSubmission.submittedAt b
                 <= SiteSubmission.submittedAt a)%Z) l.

End SubmissionView.

(** ** Reading threads *)

Module MessageView.

(** Newest first, by the top-level [date]. *)
Definition newestFirst (l : list Message.t) : Prop :=
  Sorted.StronglySorted
    (fun a b => (Message.date b <= Message.date a)%Z) l.

(** The identifier names one thread at most. *)
Definition namesOne (id : string) (ms : list Message.t) : Prop :=
  forall i j a b,
    ms !! i = Some a -> ms !! j = Some b ->
    Message.commentId a = id -> Message.commentId b = id -> i = j.

End MessageView.

(** ** More sample data *)

Module Cases.

Definition orderAt (id email : string) (p : Q) (st : OrderStatus) (t : Z)
  : Order.t :=
  Order.mk id "64b7f0c2a1d3e4f5a6b7c8d9" email "Alice" email
    "Link insertion" p "service" st
    (Some t) t None None None None None None None None None None None.

Definition shop : World :=
  mkWorld [Sample.alice]
    (<["a" := orderAt "a" "alice@example.com" 50%Q pending 1000]>
       (<["b" := orderAt "b" "alice@example.com" 25%Q processing 3000]>
          (<["c" := orderAt "c" "bob@example.com" 30%Q completed 2000]>
             {[ "d" := orderAt "d" "alice@example.com" 10%Q failed 4000 ]})))
    ∅ [] [] [].

Definition completing : UpdateOrderDto.t :=
  UpdateOrderDto.mk (Some completed) None None None None None
    (Some "done") None None.

Definition listing : CsvFile :=
  mkCsvFile "sites.csv" "site-submissions/abc.csv" (Some 120%Z)
    (Some "text/csv").

Definition submission2 (st : SubmissionStatus) : SiteSubmission.t :=
  SiteSubmission.mk "s2" None "Bob" "bob@example.com"
    ["https://a.example"] true
    None None None None None None None None None (Some listing)
    st 1000%Z None None None.

Definition desk (st : SubmissionStatus) : World :=
  mkWorld [Sample.alice] ∅ {[ "s2" := submission2 st ]} [] [] [].



Definition approve : UpdateSiteSubmissionDto.t :=
  UpdateSiteSubmissionDto.mk (Some approved) (Some "looks good") None.

Definition intake : CreateSiteSubmissionDto.t :=
  CreateSiteSubmissionDto.mk None (Some "Bob") (Some "  Bob@Example.COM ")
    ["https://a.example"; "https://b.example"] true
    None None None None None None None None None None.

Definition inbox : World :=
  mkWorld [Sample.alice] ∅ ∅
    [Sample.thread1 500; Sample.thread2;
     Message.mk "1700000000002" "u2" "Bob" "bob@example.com" "message"
       [Sample.entry 700 "hi"] 0 700]
    [] [].

Definition aliceUser : ReqUser :=
  mkReqUser (Some "64b7f0c2a1d3e4f5a6b7c8d9") (Some "alice@example.com")
    (Some "Alice") (Some "alice@example.com").

Definition bobUser : ReqUser :=
  mkReqUser (Some "u2") (Some "bob@example.com") (Some "Bob")
    (Some "bob@example.com").

Definition note : MessageDto.t :=
  MessageDto.mk None None None (Some "mallory@example.com") None
    (Some [Sample.entry 900 "question"]) (Some 0%Z) None.

Definition rename : MessageDto.t :=
  MessageDto.mk None None (Some "Alice B.") None None None None None.

Definition created : PaymentService.PayPalPayment :=
  PaymentService.mkPayPalPayment "PAY-1"
    (Some [PaymentService.mkLink "self" "https://api.example/pay/PAY-1";
           PaymentService.mkLink "approval_url" "https://pay.example/approve/1";
           PaymentService.mkLink "execute" "https://api.example/pay/PAY-1/x"])
    "created".

Definition basket : PaymentController.Body :=
  PaymentController.mkBody (Some 0%Q) None (Some "o1") (Some "u1")
    (Some "alice@example.com").

(** A body that names the item by [name] and by [title], and gives the
    amount only. *)
Definition titled : CreateOrderDto.t :=
  CreateOrderDto.mk None None None None None None (Some "article")
    None None None None None (Some 40%Q) (Some "Package") (Some "Guest post")
    None None.

Definition mailbox : EmailUtils.EmailConfig :=
  EmailUtils.mkEmailConfig "smtp.example.com" 465 (Some "mailer")
    (Some "secret") "noreply@example.com".

Definition anyOrder : OrderFilters.t :=
  OrderFilters.mk None None None None None None None None.

Definition pagesOf (n : Z) : OrderFilters.t :=
  OrderFilters.mk None None None None (Some 1%Z) (Some n) None None.


End Cases.

(** * Properties *)

Lemma outbox_pushLog l w : outbox (pushLog l w) = outbox w.
Proof. reflexivity. Qed.

Lemma outbox_tryNotify mailer n ok bad w :
  outbox (tryNotify mailer n ok bad w) = (outbox w ++ [n])%list.
Proof. unfold tryNotify. now destruct (mailer n). Qed.

Lemma orders_tryNotify mailer n ok bad w :
  orders (tryNotify mailer n ok bad w) = orders w.
Proof. unfold tryNotify. now destruct (mailer n). Qed.


(** ** Order status changes and their notification *)

Lemma status_applyUpdate data now o :
  Order.status (OrderService.applyUpdate data now o)
  = default (Order.status o) (UpdateOrderDto.status data).
Proof. reflexivity. Qed.

Lemma statusChangeEmail_owed now data prev order :
  (if negb (OrderStatus_eqb (Order.status order) prev)
   then match OrderService.statusChangeEmail now data prev order with
        | Some (n, _) => [n]
        | None => []
        end
   else []) = owed now data prev order.
Proof.
  unfold OrderService.statusChangeEmail, owed.
  destruct prev, (Order.status order); reflexivity.
Qed.

(** C1, as the code has it: an update of an existing order returns the
    patched order, stores it, and attempts the notifications of the
    design table: none when the status is unchanged, none when the order
    goes back to [pending], and otherwise exactly one, the payment
    confirmation for pending -> processing, the completion email for a
    new status [completed], the status-update email for [failed] and for
    [processing] reached from another status than [pending]. *)
Theorem updateOrder_notification mailer now id data w prev :
  orders w !! id = Some prev ->
  exists order w',
    OrderService.updateOrder mailer now id data w = (Ok order, w')
    /\ Order.status order
       = default (Order.status prev) (UpdateOrderDto.status data)
    /\ orders w' !! id = Some order
    /\ outbox w' = (outbox w ++ owed now data (Order.status prev) order)%list
    /\ (length (owed now data (Order.status prev) order) <= 1)%nat
    /\ (Order.status order <> Order.status prev ->
        Order.status order <> pending ->
        length (owed now data (Order.status prev) order) = 1%nat).
Proof.
  intros Hprev. unfold OrderService.updateOrder. rewrite Hprev.
  set (order := OrderService.applyUpdate data now prev).
  eexists order, _. split; [reflexivity|].
  split; [apply status_applyUpdate|].
  split.
  { unfold pushLog; cbn [orders].
    destruct (negb _);
      [destruct (OrderService.statusChangeEmail _ _ _ _) as [[n ok]|]|];
      rewrite ?orders_tryNotify; cbn [orders setOrders];
      apply lookup_insert_eq. }
  split.
  { rewrite outbox_pushLog, <- statusChangeEmail_owed.
    destruct (negb _); [|simpl; now rewrite app_nil_r].
    destruct (OrderService.statusChangeEmail _ _ _ _) as [[n ok]|].
    - now rewrite outbox_tryNotify.
    - simpl; now rewrite app_nil_r. }
  split.
  - unfold owed. destruct (Order.status prev), (Order.status order); simpl; lia.
  - unfold owed.
    destruct (Order.status prev), (Order.status order); simpl; congruence.
Qed.

Lemma updateOrder_notification_witness :
  orders (Sample.world1 pending) !! "o1" = Some (Sample.order1 pending)
  /\ exists order w',
    OrderService.updateOrder Sample.bounce 2000 "o1"
      (Sample.setStatus processing) (Sample.world1 pending) = (Ok order, w')
    /\ Order.status order = processing
    /\ orders w' !! "o1" = Some order
    /\ outbox w'
       = ([] ++ owed 2000 (Sample.setStatus processing) pending order)%list
    /\ (length (owed 2000 (Sample.setStatus processing) pending order) <= 1)%nat
    /\ (Order.status order <> pending -> Order.status order <> pending ->
        length (owed 2000 (Sample.setStatus processing) pending order) = 1%nat).
Proof.
  split; [apply lookup_singleton_eq|].
  apply (updateOrder_notification Sample.bounce 2000 "o1"
           (Sample.setStatus processing) (Sample.world1 pending)
           (Sample.order1 pending)).
  apply lookup_singleton_eq.
Defined.

(** C1 fails as stated: an order taken from [processing] back to
    [pending] changes its persisted status, yet no email is attempted. *)
Lemma updateOrder_back_to_pending_is_silent :
  let r := OrderService.updateOrder Sample.deliver 2000 "o1"
             (Sample.setStatus pending) (Sample.world1 processing) in
  (exists order, fst r = Ok order
                 /\ orders (snd r) !! "o1" = Some order
                 /\ Order.status order = pending
                 /\ Order.status order <> Order.status (Sample.order1 processing))
  /\ outbox (snd r) = [].
Proof.
  split.
  - eexists. split; [reflexivity|]. split; [apply lookup_insert_eq|].
    split; [reflexivity|discriminate].
  - reflexivity.
Qed.

(** ** Creating an order *)



Lemma orS_Some e d : e <> EmptyString -> Js.orS (Some e) d = e.
Proof. intros H. simpl. now apply String.eqb_neq in H as ->. Qed.

Lemma Qle_bool_false_lt q : Qle_bool q 0 = false -> (0 < q)%Q.
Proof.
  intros H. apply Qnot_le_lt. intros Hle.
  apply Qle_bool_iff in Hle. congruence.
Qed.

Lemma neverCasts_shape x :
  Driver.neverCasts x = true -> Driver.castsToObjectId x = false.
Proof.
  unfold Driver.neverCasts, Driver.castsToObjectId. intros H.
  apply andb_prop in H as [H _]. now destruct (Js.isObjectIdShape x).
Qed.



(** C3: an order returned by [createOrder], in either revision of the
    service, is [pending] and carries the time of the call as its [date]
    and [createdAt], whatever [status] the request body names. *)
Theorem createOrder_pending newId now data w order w' :
  OrderService.createOrder newId now data w = (Ok order, w')
  \/ OrderServiceBase.createOrder newId now data w = (Ok order, w') ->
  Order.status order = pending
  /\ Order.date order = Some now
  /\ Order.createdAt order = now
  /\ orders w' !! newId = Some order.
Proof.
  intros [H|H].
  - unfold OrderService.createOrder in H.
    destruct (OrderService.resolveUser _ _) as [[u|]| |]; try discriminate.
    destruct (Qle_bool _ _); [discriminate|].
    destruct (Js.blank (OrderService.itemName data)); [discriminate|].
    destruct (Js.blank (OrderService.orderType data)); [discriminate|].
    injection H as <- <-. repeat split. apply lookup_insert_eq.
  - unfold OrderServiceBase.createOrder in H.
    destruct (match CreateOrderDto.userId data with
              | Some i => _ | None => _ end) as [u|]; [|discriminate].
    destruct (Qle_bool _ _); [discriminate|].
    injection H as <- <-. repeat split. apply lookup_insert_eq.
Qed.

Lemma createOrder_pending_witness :
  CreateOrderDto.status Sample.checkout = Some "completed"
  /\ exists order w',
       OrderService.createOrder "o2" 5000 Sample.checkout
         (Sample.world1 pending) = (Ok order, w')
       /\ Order.status order = pending
       /\ Order.date order = Some 5000%Z.
Proof.
  split; [reflexivity|].
  eexists _, _. split; [reflexivity|].
  pose proof (createOrder_pending "o2" 5000 Sample.checkout
                (Sample.world1 pending) _ _ (or_introl eq_refl))
    as (Hs & Hd & _).
  exact (conj Hs Hd).
Defined.

(** The revision under [src/modules/order] has no fall-back: the same
    request, which names the user by e-mail address only, is refused. *)
Example base_createOrder_has_no_fallback :
  OrderServiceBase.createOrder "o2" 5000 Sample.checkout
    (Sample.world1 pending)
  = (Err (mkAppError "User not found" 404), Sample.world1 pending).
Proof. reflexivity. Qed.

(** ** Notification failures stay local *)

Lemma persisted_pushLog l w : persisted (pushLog l w) = persisted w.
Proof. reflexivity. Qed.

Lemma persisted_tryNotify mailer n ok bad w :
  persisted (tryNotify mailer n ok bad w) = persisted w.
Proof. unfold tryNotify. now destruct (mailer n). Qed.

(** C4: once the primary write of [updateOrder], [completeOrder],
    [createSiteSubmission] or [updateSiteSubmission] is done, the call
    returns the written record and leaves the database as the write left
    it, whatever the mail transport does with the notification: deliver
    it, decline it, or raise. *)
Theorem notification_failure_is_isolated (mailer : Mailer) now :
  (forall id data w prev,
      orders w !! id = Some prev ->
      let order := OrderService.applyUpdate data now prev in
      let r := OrderService.updateOrder mailer now id data w in
      fst r = Ok order
      /\ persisted (snd r)
         = persisted (setOrders (<[id := order]> (orders w)) w))
  /\ (forall id cm cl w prev,
      orders w !! id = Some prev ->
      let order := OrderService.applyComplete cm cl now prev in
      let r := OrderService.completeOrder mailer now id cm cl w in
      fst r = Ok order
      /\ persisted (snd r)
         = persisted (setOrders (<[id := order]> (orders w)) w))
  /\ (forall newId data w,
      let s := SiteSubmissionService.fromDto newId now data in
      let r := SiteSubmissionService.createSiteSubmission mailer newId now
                 data w in
      SiteSubmissionService.validates s = true ->
      fst r = Ok s
      /\ persisted (snd r)
         = persisted (setSubmissions (<[newId := s]> (submissions w)) w))
  /\ (forall id data w cur,
      submissions w !! id = Some cur ->
      let s := SiteSubmissionService.applyUpdate data now cur in
      let r := SiteSubmissionService.updateSiteSubmission mailer now id
                 data w in
      fst r = Ok s
      /\ persisted (snd r)
         = persisted (setSubmissions (<[id := s]> (submissions w)) w)).
Proof.
  split; [|split; [|split]].
  - intros id data w prev Hprev order r. subst r order.
    unfold OrderService.updateOrder. rewrite Hprev. cbn [fst snd].
    split; [reflexivity|]. rewrite persisted_pushLog.
    destruct (negb _); [|reflexivity].
    destruct (OrderService.statusChangeEmail _ _ _ _) as [[n ok]|];
      [apply persisted_tryNotify|reflexivity].
  - intros id cm cl w prev Hprev order r. subst r order.
    unfold OrderService.completeOrder. rewrite Hprev. cbn [fst snd].
    split; [reflexivity|].
    now rewrite persisted_pushLog, persisted_tryNotify.
  - intros newId data w s r Hval. subst r s.
    unfold SiteSubmissionService.createSiteSubmission. rewrite Hval.
    cbn [fst snd]. split; [reflexivity|].
    now destruct (mailer _).
  - intros id data w cur Hcur s r. subst r s.
    unfold SiteSubmissionService.updateSiteSubmission. rewrite Hcur.
    cbn [fst snd]. split; [reflexivity|].
    destruct (SiteSubmissionService.statusChangeEmail _ _ _) as [n|];
      [|reflexivity].
    now destruct (mailer n).
Qed.

Lemma notification_failure_is_isolated_witness :
  let r := OrderService.updateOrder Sample.bounce 2000 "o1"
             (Sample.setStatus completed) (Sample.world1 processing) in
  outbox (snd r) <> []
  /\ fst r = Ok (OrderService.applyUpdate (Sample.setStatus completed) 2000
                   (Sample.order1 processing))
  /\ persisted (snd r)
     = persisted
         (setOrders
            (<["o1" := OrderService.applyUpdate (Sample.setStatus completed)
                         2000 (Sample.order1 processing)]>
               (orders (Sample.world1 processing)))
            (Sample.world1 processing)).
Proof.
  split; [discriminate|].
  destruct (notification_failure_is_isolated Sample.bounce 2000) as (H & _).
  apply (H "o1" (Sample.setStatus completed) (Sample.world1 processing)
           (Sample.order1 processing)).
  apply lookup_singleton_eq.
Defined.

(** ** Order statistics *)

Lemma countDocuments_by_status q docs :
  OrderService.countDocuments q None docs
  = (OrderService.countDocuments q (Some pending) docs
     + OrderService.countDocuments q (Some processing) docs
     + OrderService.countDocuments q (Some completed) docs
     + OrderService.countDocuments q (Some failed) docs)%nat.
Proof.
  unfold OrderService.countDocuments.
  induction docs as [|o docs IH]; [reflexivity|].
  cbn [List.filter].
  destruct (OrderService.matchesQuery q o); cbn [andb].
  - destruct (Order.status o); cbn [OrderStatus_eqb length];
      rewrite IH; lia.
  - exact IH.
Qed.

Lemma countDocuments_length q docs :
  OrderService.countDocuments q None docs
  = length (List.filter (OrderService.matchesQuery q) docs).
Proof.
  unfold OrderService.countDocuments. f_equal.
  apply List.filter_ext. intros o. apply andb_true_r.
Qed.

Lemma filter_all_true {A} (l : list A) : List.filter (fun _ => true) l = l.
Proof. induction l as [|x l IH]; [reflexivity|]. cbn. now rewrite IH. Qed.

Lemma aggregateMatch_length q docs :
  length (OrderService.aggregateMatch true q docs)
  = OrderService.countDocuments q None docs
  /\ (q = None ->
      length (OrderService.aggregateMatch false q docs)
      = OrderService.countDocuments q None docs).
Proof.
  rewrite countDocuments_length. split.
  - destruct q; [reflexivity|]. cbn. now rewrite filter_all_true.
  - intros ->. cbn. now rewrite filter_all_true.
Qed.

Lemma inject_nat_nonzero n : n <> 0%nat -> ~ (inject_Z (Z.of_nat n) == 0)%Q.
Proof. intros Hn. unfold Qeq. cbn. lia. Qed.

Lemma mean_times_count (sum : Q) (n : nat) :
  n <> 0%nat ->
  (OrderService.orZero (sum / inject_Z (Z.of_nat n)) * inject_Z (Z.of_nat n)
   == OrderService.orZero sum)%Q.
Proof.
  intros Hn. pose proof (inject_nat_nonzero n Hn) as Hnz.
  assert (Hmean : (sum / inject_Z (Z.of_nat n) * inject_Z (Z.of_nat n)
                   == sum)%Q).
  { rewrite Qmult_comm. now apply Qmult_div_r. }
  unfold OrderService.orZero.
  destruct (Qeq_bool (sum / _) 0) eqn:Hm, (Qeq_bool sum 0) eqn:Hs.
  - apply Qmult_0_l.
  - apply Qeq_bool_iff in Hm. rewrite Hm in Hmean.
    rewrite Qmult_0_l in Hmean |- *. exact Hmean.
  - apply Qeq_bool_iff in Hs. now rewrite Hmean.
  - exact Hmean.
Qed.

(** C8: in every result of [getOrderStats], filtered by user or not, the
    total is the sum of the four per-status counts, the average order
    value times the total is the total revenue (in exact arithmetic),
    and both money figures are 0 when no order matches. *)
Theorem getOrderStats_consistent pipelineCasts userId w st :
  OrderService.getOrderStats pipelineCasts userId w = Ok st ->
  OrderService.total st
  = (OrderService.n_pending st + OrderService.n_processing st
     + OrderService.n_completed st + OrderService.n_failed st)%nat
  /\ (OrderService.averageOrderValue st
      * inject_Z (Z.of_nat (OrderService.total st))
      == OrderService.totalRevenue st)%Q
  /\ (OrderService.total st = 0%nat ->
      OrderService.totalRevenue st = 0%Q
      /\ OrderService.averageOrderValue st = 0%Q).
Proof.
  intros H. injection H as <-.
  unfold OrderService.statsOf. cbn [OrderService.total OrderService.n_pending
    OrderService.n_processing OrderService.n_completed OrderService.n_failed
    OrderService.totalRevenue OrderService.averageOrderValue].
  set (q := OrderService.statsQuery userId).
  set (docs := OrderService.orderDocs w).
  split; [apply countDocuments_by_status|].
  unfold OrderService.aggregate.
  destruct (aggregateMatch_length q docs) as [Hcast Hplain].
  assert (Hlen : OrderService.aggregateMatch pipelineCasts q docs = []
                 \/ length (OrderService.aggregateMatch pipelineCasts q docs)
                    = OrderService.countDocuments q None docs).
  { destruct pipelineCasts; [now right|].
    destruct q; [now left | right; now apply Hplain]. }
  destruct (OrderService.aggregateMatch pipelineCasts q docs) as [|o ms] eqn:E.
  - split; [apply Qmult_0_l | now intros _].
  - destruct Hlen as [Hnil|Hlen]; [discriminate|]. rewrite <- Hlen.
    split; [now apply mean_times_count | discriminate].
Qed.

Lemma getOrderStats_consistent_witness :
  let st := OrderService.statsOf true None
              (OrderService.orderDocs Sample.world3) in
  (OrderService.total st = 3%nat
   /\ (OrderService.totalRevenue st == 105)%Q
   /\ (OrderService.averageOrderValue st == 35)%Q)
  /\ OrderService.total st
     = (OrderService.n_pending st + OrderService.n_processing st
        + OrderService.n_completed st + OrderService.n_failed st)%nat
  /\ (OrderService.averageOrderValue st
      * inject_Z (Z.of_nat (OrderService.total st))
      == OrderService.totalRevenue st)%Q
  /\ (OrderService.total st = 0%nat ->
      OrderService.totalRevenue st = 0%Q
      /\ OrderService.averageOrderValue st = 0%Q).
Proof.
  split.
  - vm_compute. repeat split.
  - apply (getOrderStats_consistent true None Sample.world3).
    reflexivity.
Defined.

(** ** Appending to a thread *)

Lemma findOne_None commentId (ms : list Message.t) :
  (forall t, In t ms -> Message.commentId t <> commentId) ->
  MessageService.findOne commentId ms = None.
Proof.
  intros H. apply list_find_None, Forall_forall.
  intros t Ht. apply H. now apply list_elem_of_In.
Qed.





(** ** Site submissions: the review time stamp *)



(** ** Gateway failures *)

(** C9 fails as stated: a gateway failure while verifying a Stripe
    payment is returned as [false], not raised, and a Stripe failure that
    carries status 402 surfaces with status 500. *)
Lemma gateway_failure_not_always_surfaced :
  let cfg := PaymentService.mkConfig (Some "sk_test_1") None None in
  let declined := PaymentService.mkGatewayError (Some "Your card was declined.")
                    (Some 402%Z) None None in
  PaymentService.verifyStripePayment cfg (inl declined) = Ok false
  /\ PaymentService.createStripePaymentIntent cfg (inl declined)
     = Err (mkAppError "Your card was declined." 500).
Proof. split; reflexivity. Qed.

(** C9, as the code has it.  With the gateways configured, a failure of
    [createStripePaymentIntent], [createPayPalPayment] or
    [executePayPalPayment] is thrown as an [AppError].  A PayPal creation
    failure with status 401 or error [invalid_client] gets status 401 and
    a message that names the credentials; any other PayPal creation
    failure passes the gateway's message and status code through (500
    when the gateway gave none); Stripe creation and PayPal execution
    failures carry the gateway's message with status 500; a failure while
    verifying a Stripe payment is returned as [false]. *)
Theorem gateway_errors_surface configureOk cfg (error : PaymentService.GatewayError) :
  PaymentService.stripe cfg = true ->
  PaymentService.paypalConfigured configureOk cfg = true ->
  let unauthorized :=
    match PaymentService.ge_httpStatusCode error with
    | Some c => (c =? 401)%Z
    | None => false
    end
    || match PaymentService.ge_response_error error with
       | Some e => String.eqb e "invalid_client"
       | None => false
       end in
  (forall payment,
      PaymentService.createPayPalPayment configureOk cfg (Some error) payment
      = Err (if unauthorized
             then mkAppError
                    ("PayPal authentication failed: "
                     ++ Js.orS (Js.orSS
                                  (PaymentService.ge_response_error_description error)
                                  (PaymentService.ge_message error))
                               "PayPal authentication failed"
                     ++ ". Please verify your PayPal credentials in the .env file match your PayPal Developer Dashboard.")
                    401
             else mkAppError
                    (Js.orS (Js.orSS (PaymentService.ge_message error)
                               (PaymentService.ge_response_error_description error))
                            "Failed to create PayPal payment")
                    (Js.orZ (PaymentService.ge_httpStatusCode error) 500)))
  /\ PaymentService.createStripePaymentIntent cfg (inl error)
     = Err (mkAppError
              (Js.orS (PaymentService.ge_message error)
                      "Failed to create payment intent") 500)
  /\ PaymentService.executePayPalPayment cfg (inl error)
     = Err (mkAppError
              (Js.orS (PaymentService.ge_message error)
                      "Failed to execute PayPal payment") 500)
  /\ PaymentService.verifyStripePayment cfg (inl error) = Ok false.
Proof.
  intros Hstripe Hpaypal unauthorized. subst unauthorized.
  assert (Hcred : Js.truthyS (PaymentService.paypal_clientId cfg) = true
                  /\ Js.truthyS (PaymentService.paypal_clientSecret cfg) = true).
  { unfold PaymentService.paypalConfigured in Hpaypal.
    apply andb_prop in Hpaypal as [Hpaypal _].
    apply andb_prop in Hpaypal as [Hpaypal _].
    now apply andb_prop in Hpaypal. }
  destruct Hcred as [Hid Hsecret].
  split; [|split; [|split]].
  - intros payment. unfold PaymentService.createPayPalPayment.
    rewrite Hid, Hsecret, Hpaypal. cbn [negb orb].
    now destruct (_ || _).
  - unfold PaymentService.createStripePaymentIntent. now rewrite Hstripe.
  - unfold PaymentService.executePayPalPayment. now rewrite Hid, Hsecret.
  - unfold PaymentService.verifyStripePayment. now rewrite Hstripe.
Qed.

Lemma gateway_errors_surface_witness :
  PaymentService.createPayPalPayment true Sample.gateways
    (Some Sample.invalidClient) None
  = Err (mkAppError
           "PayPal authentication failed: Client Authentication failed. Please verify your PayPal credentials in the .env file match your PayPal Developer Dashboard."
           401)
  /\ PaymentService.verifyStripePayment Sample.gateways
       (inl Sample.invalidClient) = Ok false.
Proof.
  destruct (gateway_errors_surface true Sample.gateways Sample.invalidClient)
    as (Hcreate & _ & _ & Hverify); [reflexivity | reflexivity |].
  split; [exact (Hcreate None) | exact Hverify].
Defined.

(** ** The message stream *)

Import MessageController.

Lemma insertByDate_perm m l : MessageService.insertByDate m l ≡ₚ m :: l.
Proof.
  induction l as [|x l IH]; [reflexivity|]. cbn.
  destruct (Message.date x <=? Message.date m)%Z; [reflexivity|].
  rewrite IH. apply perm_swap.
Qed.

Lemma sortByDateDesc_perm l : MessageService.sortByDateDesc l ≡ₚ l.
Proof.
  induction l as [|x l IH]; [reflexivity|]. cbn.
  now rewrite insertByDate_perm, IH.
Qed.

Lemma filter_perm {A} (f : A -> bool) (l l' : list A) :
  l ≡ₚ l' -> List.filter f l ≡ₚ List.filter f l'.
Proof.
  induction 1 as [|x l l' _ IH|x y l|l l' l'' _ IH1 _ IH2]; cbn.
  - reflexivity.
  - destruct (f x); [now constructor | exact IH].
  - destruct (f x), (f y); try reflexivity. apply perm_swap.
  - now transitivity (List.filter f l').
Qed.

Lemma getMessagesByUserEmail_perm email db :
  email <> EmptyString ->
  MessageService.getMessagesByUserEmail email db
  ≡ₚ List.filter (fun m => String.eqb (Message.userEmail m) email) db.
Proof.
  intros Hne. unfold MessageService.getMessagesByUserEmail.
  apply String.eqb_neq in Hne as ->. apply sortByDateDesc_perm.
Qed.

Lemma res_writeAll_open es s :
  ended s = false ->
  written (res_writeAll es s) = (written s ++ es)%list
  /\ ended (res_writeAll es s) = false
  /\ pollInterval (res_writeAll es s) = pollInterval s.
Proof.
  revert s. induction es as [|e es IH]; intros s Hopen.
  - cbn. now rewrite app_nil_r.
  - change (res_writeAll (e :: es) s) with (res_writeAll es (res_write e s)).
    assert (Hstep : res_write e s
                    = mkStream (httpStatus s) (written s ++ [e]) (ended s)
                        (pollInterval s) (inflight s) (userEmail s) (lastId s)).
    { unfold res_write. now rewrite Hopen. }
    rewrite Hstep.
    destruct (IH (mkStream (httpStatus s) (written s ++ [e]) (ended s)
                    (pollInterval s) (inflight s) (userEmail s) (lastId s))
                 Hopen) as (Hw & He & Hp).
    rewrite Hw, He, Hp. cbn. now rewrite <- app_assoc.
Qed.

Lemma res_writeAll_ended es s :
  ended s = true -> res_writeAll es s = s.
Proof.
  intros Hend. induction es as [|e es IH]; [reflexivity|].
  change (res_writeAll (e :: es) s) with (res_writeAll es (res_write e s)).
  assert (Hstep : res_write e s = s) by (unfold res_write; now rewrite Hend).
  now rewrite Hstep.
Qed.

Lemma promisedEvents_In email cursor now db c cid :
  In (EvMessage c cid) (promisedEvents email cursor now db)
  <-> exists thread,
        In thread db
        /\ Message.userEmail thread = email
        /\ In c (Message.content thread)
        /\ cid = Message.commentId thread
        /\ (cursor = true ->
            exists t, MessageContent.time c = Some t /\ (now - 10000 < t)%Z).
Proof.
  unfold promisedEvents. rewrite in_map_iff. split.
  - intros ([c' cid'] & Heq & Hin). injection Heq as -> ->.
    apply filter_In in Hin as [Hin Hrecent].
    apply in_flat_map in Hin as (thread & Hthread & Hin).
    apply filter_In in Hthread as [Hdb Hmail].
    apply in_map_iff in Hin as (c' & Heq & Hc). injection Heq as -> Hcid.
    exists thread. split; [exact Hdb|]. split; [now apply String.eqb_eq|].
    split; [exact Hc|]. split; [now symmetry|].
    intros ->. unfold recent in Hrecent. cbn in Hrecent.
    destruct (MessageContent.time c) as [t|]; [|discriminate].
    exists t. split; [reflexivity|]. now apply Z.ltb_lt.
  - intros (thread & Hdb & Hmail & Hc & -> & Hrecent).
    exists (c, Message.commentId thread). split; [reflexivity|].
    apply filter_In. split.
    + apply in_flat_map. exists thread. split.
      * apply filter_In. split; [exact Hdb | now apply String.eqb_eq].
      * apply in_map_iff. now exists c.
    + destruct cursor; [|reflexivity].
      destruct (Hrecent eq_refl) as (t & Ht & Hlt).
      unfold recent. cbn. rewrite Ht. now apply Z.ltb_lt.
Qed.

Lemma pollEvents_promised s now db :
  userEmail s <> EmptyString ->
  pollEvents s now db
  ≡ₚ promisedEvents (userEmail s) (Js.truthyS (lastId s)) now db.
Proof.
  intros Hne. unfold pollEvents, promisedEvents, newMessages.
  apply Permutation_map.
  transitivity
    (List.filter
       (fun item => if negb (Js.truthyS (lastId s)) then true
                    else recent now item)
       (flat_map flatten
          (List.filter (fun m => String.eqb (Message.userEmail m) (userEmail s))
             db))).
  - apply filter_perm, Permutation_flat_map.
    now apply getMessagesByUserEmail_perm.
  - now destruct (Js.truthyS (lastId s)).
Qed.

Lemma poll_on_open_stream s now db k :
  ended s = false -> inflight s = S k -> userEmail s <> EmptyString ->
  written (step s (PollDone db now))
  = (written s ++ pollEvents s now db)%list
  /\ pollEvents s now db
     ≡ₚ promisedEvents (userEmail s) (Js.truthyS (lastId s)) now db
  /\ (forall c cid,
        In (EvMessage c cid) (pollEvents s now db)
        <-> exists thread,
              In thread db
              /\ Message.userEmail thread = userEmail s
              /\ In c (Message.content thread)
              /\ cid = Message.commentId thread
              /\ (Js.truthyS (lastId s) = true ->
                  exists t, MessageContent.time c = Some t
                            /\ (now - 10000 < t)%Z)).
Proof.
  intros Hopen Hpending Hne. split; [|split].
  - cbn [step]. rewrite Hpending.
    destruct (res_writeAll_open (pollEvents s now db)
                (mkStream (httpStatus s) (written s) (ended s)
                   (pollInterval s) k (userEmail s) (lastId s)) Hopen)
      as (Hw & _).
    exact Hw.
  - now apply pollEvents_promised.
  - intros c cid. rewrite <- promisedEvents_In. split; intros Hin.
    + eapply Permutation_in; [now apply pollEvents_promised | exact Hin].
    + eapply Permutation_in;
        [symmetry; now apply pollEvents_promised | exact Hin].
Qed.

(** The revision under [src/modules/message] answers the same cursor
    with every entry of every thread whose identifier is a larger number,
    however old the entry is. *)
Example base_stream_selects_by_thread :
  MessageControllerBase.newMessages (Some "1700000000000")
    [Sample.thread2; Sample.thread1 0]
  = [(Sample.entry 100 "old", "1700000000001");
     (Sample.entry 95000 "fresh", "1700000000001")].
Proof. reflexivity. Qed.

Lemma step_written s a :
  exists extra, written (step s a) = (written s ++ extra)%list.
Proof.
  destruct a as [|db now|]; cbn [step].
  - exists []. rewrite app_nil_r. now destruct (pollInterval s).
  - destruct (inflight s) as [|k]; [exists []; now rewrite app_nil_r|].
    destruct (ended s) eqn:Hend.
    + exists []. rewrite app_nil_r.
      now rewrite res_writeAll_ended by reflexivity.
    + eexists.
      now destruct (res_writeAll_open (pollEvents s now db)
                      (mkStream (httpStatus s) (written s) false
                         (pollInterval s) k (userEmail s) (lastId s)) eq_refl)
        as (-> & _).
  - exists []. now rewrite app_nil_r.
Qed.

Lemma run_written trace : forall s,
  exists extra, written (run s trace) = (written s ++ extra)%list.
Proof.
  induction trace as [|a trace IH]; intros s.
  - exists []. now rewrite app_nil_r.
  - change (run s (a :: trace)) with (run (step s a) trace).
    destruct (IH (step s a)) as (later & ->).
    destruct (step_written s a) as (extra & ->).
    exists (extra ++ later)%list. now rewrite app_assoc.
Qed.

Lemma step_closed s a :
  ended s = true -> pollInterval s = false ->
  written (step s a) = written s
  /\ ended (step s a) = true /\ pollInterval (step s a) = false.
Proof.
  intros Hend Hoff. destruct a as [|db now|]; cbn [step].
  - now rewrite Hoff.
  - destruct (inflight s) as [|k]; [easy|].
    now rewrite res_writeAll_ended by exact Hend.
  - easy.
Qed.

Lemma run_closed trace : forall s,
  ended s = true -> pollInterval s = false ->
  written (run s trace) = written s
  /\ ended (run s trace) = true /\ pollInterval (run s trace) = false.
Proof.
  induction trace as [|a trace IH]; intros s Hend Hoff; [easy|].
  change (run s (a :: trace)) with (run (step s a) trace).
  destruct (step_closed s a Hend Hoff) as (Hw & He & Hp).
  destruct (IH (step s a) He Hp) as (Hw' & He' & Hp').
  now rewrite Hw', Hw.
Qed.

Lemma res_writeAll_frame es : forall s,
  userEmail (res_writeAll es s) = userEmail s
  /\ lastId (res_writeAll es s) = lastId s.
Proof.
  induction es as [|e es IH]; intros s; [easy|].
  change (res_writeAll (e :: es) s) with (res_writeAll es (res_write e s)).
  destruct (IH (res_write e s)) as (-> & ->).
  unfold res_write. now destruct (ended s).
Qed.

Lemma step_frame s a :
  userEmail (step s a) = userEmail s /\ lastId (step s a) = lastId s.
Proof.
  destruct a as [|db now|]; cbn [step].
  - now destruct (pollInterval s).
  - destruct (inflight s) as [|k]; [easy|].
    now destruct (res_writeAll_frame (pollEvents s now db)
                    (mkStream (httpStatus s) (written s) (ended s)
                       (pollInterval s) k (userEmail s) (lastId s)))
      as (-> & ->).
  - easy.
Qed.

Lemma run_frame trace : forall s,
  userEmail (run s trace) = userEmail s /\ lastId (run s trace) = lastId s.
Proof.
  induction trace as [|a trace IH]; intros s; [easy|].
  change (run s (a :: trace)) with (run (step s a) trace).
  destruct (IH (step s a)) as (-> & ->). apply step_frame.
Qed.

Lemma authenticate_nonempty verifyAccessToken req email :
  authenticate verifyAccessToken req = Some email -> email <> EmptyString.
Proof.
  assert (Htruthy : forall o, Js.truthyS o = true -> o = Some email ->
                              email <> EmptyString).
  { intros o Ht -> ->. discriminate. }
  unfold authenticate. intros H.
  destruct (Js.truthyS (req_userEmail req)) eqn:Huser;
    [exact (Htruthy _ Huser H)|].
  destruct (Js.truthyS (query_token req)); [|discriminate].
  destruct (verifyAccessToken _) as [decoded|]; [|discriminate].
  unfold OrderService.truthyOpt in H.
  destruct (Js.truthyS (Js.orSS _ _)) eqn:Htok; [|discriminate].
  exact (Htruthy _ Htok H).
Qed.

(** C5: on a stream opened for an authenticated user and still open,
    when the query of a timer tick returns, the events written are those
    of that poll, and they are exactly (each as often, in the order of
    the threads sorted by date) the content entries of the threads of
    that user, each tagged with its thread: with a non-empty cursor in
    the request only the entries whose time is later than the poll time
    minus 10000 ms, without one all of them. *)
Theorem messageStream_poll verifyAccessToken req email trace k now db :
  authenticate verifyAccessToken req = Some email ->
  let s := run (messageStream verifyAccessToken req) trace in
  ended s = false -> inflight s = S k ->
  written (step s (PollDone db now))
  = (written s ++ pollEvents s now db)%list
  /\ pollEvents s now db
     ≡ₚ promisedEvents email (Js.truthyS (query_lastId req)) now db
  /\ (forall c cid,
        In (EvMessage c cid) (pollEvents s now db)
        <-> exists thread,
              In thread db
              /\ Message.userEmail thread = email
              /\ In c (Message.content thread)
              /\ cid = Message.commentId thread
              /\ (Js.truthyS (query_lastId req) = true ->
                  exists t, MessageContent.time c = Some t
                            /\ (now - 10000 < t)%Z)).
Proof.
  intros Hauth s Hopen Hpending.
  destruct (run_frame trace (messageStream verifyAccessToken req))
    as (Hmail & Hcursor).
  fold s in Hmail, Hcursor.
  unfold messageStream in Hmail, Hcursor. rewrite Hauth in Hmail, Hcursor.
  cbn in Hmail, Hcursor.
  rewrite <- Hmail, <- Hcursor.
  apply (poll_on_open_stream s now db k Hopen Hpending).
  rewrite Hmail. exact (authenticate_nonempty _ _ _ Hauth).
Qed.

Lemma messageStream_poll_witness :
  let s := run (messageStream Sample.verifier Sample.subscribe) [TimerFire] in
  (authenticate Sample.verifier Sample.subscribe = Some "alice@example.com"
   /\ ended s = false /\ inflight s = 1%nat)
  /\ written (step s (PollDone [Sample.thread1 0; Sample.thread2] 100000))
     = [EvConnected;
        EvMessage (Sample.entry 95000 "fresh") "1700000000001"].
Proof.
  split; [repeat split|].
  destruct (messageStream_poll Sample.verifier Sample.subscribe
              "alice@example.com" [TimerFire] 0 100000
              [Sample.thread1 0; Sample.thread2])
    as (Hw & _); [reflexivity | reflexivity | reflexivity |].
  exact Hw.
Defined.

(** C6: on a stream opened for an authenticated user, whatever timer
    ticks, query returns and disconnects follow, the first event written
    is the [connected] acknowledgement; and once the client has
    disconnected the timer is cancelled, the response is ended, and
    nothing further is written, not even by a query that was still in
    flight. *)
Theorem messageStream_order verifyAccessToken req email trace :
  authenticate verifyAccessToken req = Some email ->
  let s0 := messageStream verifyAccessToken req in
  (exists rest, written (run s0 trace) = EvConnected :: rest)
  /\ (forall later,
        let closed := run s0 (trace ++ [ClientClose]) in
        written (run closed later) = written closed
        /\ pollInterval (run closed later) = false
        /\ ended (run closed later) = true).
Proof.
  intros Hauth s0. split.
  - destruct (run_written trace s0) as (extra & ->).
    subst s0. unfold messageStream. rewrite Hauth. cbn. now exists extra.
  - intros later closed.
    assert (Hclosed : ended closed = true /\ pollInterval closed = false).
    { subst closed. unfold run. rewrite fold_left_app. now cbn. }
    destruct Hclosed as [Hend Hoff].
    destruct (run_closed later closed Hend Hoff) as (Hw & He & Hp).
    now rewrite Hw, He, Hp.
Qed.

Lemma messageStream_order_witness :
  let s0 := messageStream Sample.verifier Sample.subscribe in
  let trace := [TimerFire; PollDone [Sample.thread2] 100000; TimerFire] in
  let later := [PollDone [Sample.thread2] 100500; TimerFire;
                PollDone [Sample.thread2] 102000] in
  authenticate Sample.verifier Sample.subscribe = Some "alice@example.com"
  /\ (exists rest, written (run s0 trace) = EvConnected :: rest)
  /\ written (run (run s0 (trace ++ [ClientClose])) later)
     = [EvConnected; EvMessage (Sample.entry 95000 "fresh") "1700000000001"].
Proof.
  intros s0 trace later.
  destruct (messageStream_order Sample.verifier Sample.subscribe
              "alice@example.com" trace eq_refl) as (Hfirst & Hafter).
  split; [reflexivity|]. split; [exact Hfirst|].
  destruct (Hafter later) as (Hw & _). exact Hw.
Defined.

(** * Further properties *)

(** ** Listing orders *)

Lemma insertByCreatedAt_perm o l : OrderCrud.insertByCreatedAt o l ≡ₚ o :: l.
Proof.
  induction l as [|x l IH]; [reflexivity|]. cbn.
  destruct (Order.createdAt x <=? Order.createdAt o)%Z; [reflexivity|].
  rewrite IH. apply perm_swap.
Qed.

Lemma sortByCreatedAtDesc_perm l : OrderCrud.sortByCreatedAtDesc l ≡ₚ l.
Proof.
  induction l as [|x l IH]; [reflexivity|]. cbn.
  now rewrite insertByCreatedAt_perm, IH.
Qed.

Lemma insertByCreatedAt_sorted o l :
  Paging.newestFirst l -> Paging.newestFirst (OrderCrud.insertByCreatedAt o l).
Proof.
  unfold Paging.newestFirst.
  induction 1 as [|x l Hl IH Hx]; cbn.
  - repeat constructor.
  - destruct (Order.createdAt x <=? Order.createdAt o)%Z eqn:E.
    + apply Z.leb_le in E. constructor; [now constructor|].
      constructor; [exact E|].
      eapply Forall_impl; [exact Hx|]. cbn. intros y Hy. lia.
    + apply Z.leb_gt in E. constructor; [exact IH|].
      eapply Permutation_Forall;
        [symmetry; apply insertByCreatedAt_perm|].
      constructor; [lia | exact Hx].
Qed.

Lemma sortByCreatedAtDesc_sorted l :
  Paging.newestFirst (OrderCrud.sortByCreatedAtDesc l).
Proof.
  induction l as [|x l IH]; cbn; [constructor|].
  now apply insertByCreatedAt_sorted.
Qed.

Lemma ceilDiv_bounds total limit :
  (0 < limit)%Z ->
  (limit * (OrderCrud.ceilDiv total limit - 1) < total
   <= limit * OrderCrud.ceilDiv total limit)%Z.
Proof.
  intros Hl. unfold OrderCrud.ceilDiv.
  pose proof (Z.div_mod (- total) limit) as Hdm.
  pose proof (Z.mod_pos_bound (- total) limit Hl) as Hb.
  nia.
Qed.

Lemma In_orderDocs w o :
  In o (OrderService.orderDocs w) <-> exists id, orders w !! id = Some o.
Proof.
  unfold OrderService.orderDocs. rewrite <- list_elem_of_In, list_elem_of_fmap.
  split.
  - intros ([id o'] & -> & Hin). exists id.
    now apply elem_of_map_to_list in Hin.
  - intros (id & Hid). exists (id, o). split; [reflexivity|].
    now apply elem_of_map_to_list.
Qed.



Lemma skipLimit_page (k : nat) (limit : Z) (l : list Order.t) :
  (1 <= k)%nat -> (1 <= limit)%Z ->
  OrderCrud.skipLimit ((Z.of_nat k - 1) * limit) limit l
  = Some (take (Z.to_nat limit) (drop ((k - 1) * Z.to_nat limit) l)).
Proof.
  intros Hk Hl. unfold OrderCrud.skipLimit.
  destruct ((Z.of_nat k - 1) * limit <? 0)%Z eqn:E;
    [apply Z.ltb_lt in E; nia|].
  destruct (limit =? 0)%Z eqn:E0; [apply Z.eqb_eq in E0; lia|].
  rewrite Z.abs_eq by lia. do 3 f_equal. nia.
Qed.

Lemma matchesFilters_withPage f k o :
  OrderCrud.matchesFilters (Paging.withPage f k) o
  = OrderCrud.matchesFilters f o.
Proof. reflexivity. Qed.

Lemma chunks_take {A} (l : list A) (L n : nat) :
  flat_map (fun k => take L (drop ((k - 1) * L) l)) (seq 1 n) = take (n * L) l.
Proof.
  induction n as [|n IH]; [reflexivity|].
  rewrite seq_S, flat_map_app, IH. cbn [flat_map]. rewrite app_nil_r.
  replace (1 + n - 1)%nat with n by lia.
  rewrite take_take_drop. f_equal. lia.
Qed.

Lemma eqFilter_agrees x field :
  OrderCrud.eqFilter x field = true <-> Paging.agrees x field.
Proof.
  unfold OrderCrud.eqFilter, Paging.agrees, Js.truthyS, Js.orS.
  destruct x as [v|]; [|split; [intros _ ? [=] | reflexivity]].
  destruct (String.eqb v EmptyString) eqn:E; cbn [negb].
  - apply String.eqb_eq in E. split; [intros _ ? [= <-] Hne; contradiction|].
    reflexivity.
  - split.
    + intros H%String.eqb_eq ? [= <-] _. exact H.
    + intros H. apply String.eqb_eq, H; [reflexivity|].
      now apply String.eqb_neq.
Qed.

Lemma dateFilter_bounds a b t :
  OrderCrud.dateFilter a b t = true
  <-> (forall x, a = Some x -> (x <= t)%Z) /\ (forall y, b = Some y -> (t <= y)%Z).
Proof.
  unfold OrderCrud.dateFilter. rewrite andb_true_iff.
  destruct a as [x|], b as [y|]; rewrite ?Z.leb_le; split.
  all: try (intros [H1 H2]; split; intros ? [=]; subst; assumption).
  all: try (intros [H1 H2]; split; auto).
Qed.



Lemma truthyS_false_agrees x :
  Js.truthyS x = false -> forall u, x = Some u -> u = EmptyString.
Proof.
  intros H u ->. cbn in H. apply String.eqb_eq.
  now destruct (String.eqb u EmptyString).
Qed.



Lemma flat_map_agree {A B} (f g : A -> list B) (l : list A) :
  (forall a, In a l -> f a = g a) -> flat_map f l = flat_map g l.
Proof.
  induction l as [|a l IH]; intros H; [reflexivity|]. cbn.
  rewrite (H a (or_introl eq_refl)), IH; [reflexivity|].
  intros b Hb. apply H. now right.
Qed.

(** X2: a client that asks [getOrders] for the pages 1 to [totalPages]
    in turn, with a page size of at least 1 and the store unchanged in
    between, collects the matching orders newest first, each stored
    matching order exactly as often as it is stored: no order is skipped
    and none is repeated. *)
Theorem getOrders_pages_cover f w :
  let limit := default 20%Z (OrderFilters.limit f) in
  let hits := List.filter (OrderCrud.matchesFilters f)
                (OrderService.orderDocs w) in
  let totalPages := OrderCrud.ceilDiv (Z.of_nat (length hits)) limit in
  (1 <= limit)%Z ->
  Paging.collect f w (Z.to_nat totalPages)
  = OrderCrud.sortByCreatedAtDesc hits
  /\ Paging.collect f w (Z.to_nat totalPages) ≡ₚ hits.
Proof.
  intros limit hits totalPages Hl.
  assert (Hall : Paging.collect f w (Z.to_nat totalPages)
                 = OrderCrud.sortByCreatedAtDesc hits).
  { unfold Paging.collect.
    rewrite (flat_map_agree _
               (fun k => take (Z.to_nat limit)
                           (drop ((k - 1) * Z.to_nat limit)
                              (OrderCrud.sortByCreatedAtDesc hits)))).
    - rewrite chunks_take. apply take_ge.
      pose proof (ceilDiv_bounds (Z.of_nat (length hits)) limit ltac:(lia))
        as Hb. fold totalPages in Hb.
      rewrite sortByCreatedAtDesc_perm. nia.
    - intros k Hk. apply in_seq in Hk.
      unfold OrderCrud.getOrders, OrderCrud.getOrdersOf.
      change (default 1%Z (OrderFilters.page (Paging.withPage f (Z.of_nat k))))
        with (Z.of_nat k).
      change (default 20%Z
                (OrderFilters.limit (Paging.withPage f (Z.of_nat k))))
        with limit.
      rewrite skipLimit_page by lia. reflexivity. }
  split; [exact Hall|]. rewrite Hall. apply sortByCreatedAtDesc_perm.
Qed.

Lemma getOrders_pages_cover_witness :
  Paging.collect (Cases.pagesOf 3) Cases.shop 2
  = [Cases.orderAt "d" "alice@example.com" 10%Q failed 4000;
     Cases.orderAt "b" "alice@example.com" 25%Q processing 3000;
     Cases.orderAt "c" "bob@example.com" 30%Q completed 2000;
     Cases.orderAt "a" "alice@example.com" 50%Q pending 1000].
Proof.
  destruct (getOrders_pages_cover (Cases.pagesOf 3) Cases.shop) as [H _];
    [cbn; lia|].
  etransitivity; [exact H|]. vm_compute. reflexivity.
Defined.

(** X3: [getOrdersByUser] returns, newest first, exactly the stored
    orders of the given e-mail address that have the status and type
    asked for (when asked) and were created within the bounds given; it
    never returns an order of another address, and it ignores the
    paging and user filters. *)
Theorem getOrdersByUser_exact email f w :
  exists l,
    OrderCrud.getOrdersByUser email f w = Ok l
    /\ Paging.newestFirst l
    /\ (forall o,
          In o l
          <-> (exists id, orders w !! id = Some o)
              /\ Order.userEmail o = email
              /\ Paging.agrees (OrderFilters.status f)
                   (OrderCrud.statusName (Order.status o))
              /\ Paging.agrees (OrderFilters.type f) (Order.type o)
              /\ (forall a, OrderFilters.startDate f = Some a ->
                            (a <= Order.createdAt o)%Z)
              /\ (forall b, OrderFilters.endDate f = Some b ->
                            (Order.createdAt o <= b)%Z)).
Proof.
  eexists. split; [reflexivity|]. split; [apply sortByCreatedAtDesc_sorted|].
  intros o. unfold OrderCrud.getOrdersByUserOf.
  rewrite <- !list_elem_of_In, sortByCreatedAtDesc_perm, !list_elem_of_In.
  rewrite filter_In, In_orderDocs, !andb_true_iff, !eqFilter_agrees,
    dateFilter_bounds, String.eqb_eq.
  tauto.
Qed.

(** ** Orders: missing identifiers, reading back, deleting *)



Lemma first_or {A} (a b : option A) (x : A) :
  match a with Some _ => a | None => b end = Some x ->
  a = Some x \/ b = Some x.
Proof. destruct a; auto. Qed.

Lemma resolveUser_In us data u :
  OrderService.resolveUser us data = Ok (Some u) -> In u us.
Proof.
  unfold OrderService.resolveUser. intros H.
  assert (Hfind : forall f, List.find f us = Some u -> In u us)
    by (intros f Hf; now apply find_some in Hf).
  destruct (match match CreateOrderDto.userId data with
                  | Some i => _ | None => _ end with
            | Some _ => _ | None => _ end) as [v|] eqn:E.
  - injection H as ->. apply first_or in E as [E|E].
    + destruct (CreateOrderDto.userId data) as [i|]; [|discriminate].
      destruct (negb _ && _); [|discriminate]. exact (Hfind _ E).
    + destruct (Js.truthyS (CreateOrderDto.userEmail data)); [|discriminate].
      exact (Hfind _ E).
  - destruct (Js.truthyS (CreateOrderDto.user_id data)); [|discriminate].
    destruct (Driver.castsToObjectId _); [|discriminate].
    injection H as H. exact (Hfind _ H).
Qed.

Lemma User_findById_In us u :
  In u us ->
  exists owner, OrderService.User_findById us (User._id u) = Some owner
                /\ User._id owner = User._id u.
Proof.
  intros Hin. unfold OrderService.User_findById.
  destruct (List.find _ us) as [owner|] eqn:E.
  - exists owner. apply find_some in E as [_ E].
    now apply String.eqb_eq in E.
  - exfalso. apply (find_none _ _ E) in Hin.
    now rewrite String.eqb_refl in Hin.
Qed.

(** X5: an order [createOrder] returned can be read back: [getOrderById]
    with the new identifier yields that order together with its owner, a
    registered user whose identifier the order carries; every other
    identifier reads as before. *)
Theorem createOrder_then_getOrderById newId now data w order w' :
  OrderService.createOrder newId now data w = (Ok order, w') ->
  (exists owner,
      OrderCrud.getOrderById newId w' = Ok (order, Some owner)
      /\ In owner (users w)
      /\ User._id owner = Order.userId order)
  /\ (forall id, id <> newId ->
                 OrderCrud.getOrderById id w' = OrderCrud.getOrderById id w).
Proof.
  intros H. unfold OrderService.createOrder in H.
  destruct (OrderService.resolveUser _ _) as [[u|]| |] eqn:Hu;
    try discriminate.
  destruct (Qle_bool _ _); [discriminate|].
  destruct (Js.blank (OrderService.itemName data)); [discriminate|].
  destruct (Js.blank (OrderService.orderType data)); [discriminate|].
  injection H as Ho Hw. apply resolveUser_In in Hu.
  destruct (User_findById_In _ _ Hu) as (owner & Hfind & Hid).
  assert (Huid : Order.userId order = User._id u) by now rewrite <- Ho.
  assert (Hlook : orders w' !! newId = Some order)
    by (rewrite <- Hw, <- Ho; apply lookup_insert_eq).
  assert (Husers : users w' = users w) by now rewrite <- Hw.
  assert (Hothers : forall id, id <> newId -> orders w' !! id = orders w !! id).
  { intros id Hne. rewrite <- Hw. apply lookup_insert_ne. congruence. }
  split.
  - exists owner. unfold OrderCrud.getOrderById.
    rewrite Hlook, Husers, Huid, Hfind.
    split; [reflexivity|]. split; [|exact Hid].
    unfold OrderService.User_findById in Hfind.
    now apply find_some in Hfind as [? _].
  - intros id Hne. unfold OrderCrud.getOrderById.
    now rewrite Hothers, Husers by exact Hne.
Qed.

Lemma createOrder_then_getOrderById_witness :
  exists order w' owner,
    OrderService.createOrder "o2" 5000 Sample.checkout (Sample.world1 pending)
    = (Ok order, w')
    /\ OrderCrud.getOrderById "o2" w' = Ok (order, Some owner)
    /\ User._id owner = Order.userId order.
Proof.
  eexists _, _.
  destruct (createOrder_then_getOrderById "o2" 5000 Sample.checkout
              (Sample.world1 pending) _ _ eq_refl)
    as ((owner & Hget & _ & Hid) & _).
  exists owner. split; [reflexivity|]. exact (conj Hget Hid).
Defined.

(** X6: [deleteOrder] on a stored order removes exactly that order: the
    identifier then reads as 404 and a second [deleteOrder] fails with
    404, every other identifier reads as before, and no notification is
    attempted. *)
Theorem deleteOrder_removes id w order :
  orders w !! id = Some order ->
  exists w',
    OrderCrud.deleteOrder id w = (Ok tt, w')
    /\ OrderCrud.getOrderById id w' = Err (mkAppError "Order not found" 404)
    /\ fst (OrderCrud.deleteOrder id w')
       = Err (mkAppError "Order not found" 404)
    /\ (forall other, other <> id ->
          OrderCrud.getOrderById other w' = OrderCrud.getOrderById other w)
    /\ outbox w' = outbox w.
Proof.
  intros Hid. unfold OrderCrud.deleteOrder at 1. rewrite Hid.
  eexists. split; [reflexivity|].
  unfold OrderCrud.getOrderById, OrderCrud.deleteOrder. cbn.
  rewrite lookup_delete_eq. repeat split.
  intros other Hne. now rewrite lookup_delete_ne by congruence.
Qed.

Lemma deleteOrder_removes_witness :
  exists w',
    OrderCrud.deleteOrder "c" Cases.shop = (Ok tt, w')
    /\ OrderCrud.getOrderById "c" w' = Err (mkAppError "Order not found" 404)
    /\ OrderCrud.getOrderById "a" w' = OrderCrud.getOrderById "a" Cases.shop.
Proof.
  destruct (deleteOrder_removes "c" Cases.shop
              (Cases.orderAt "c" "bob@example.com" 30%Q completed 2000))
    as (w' & Hdel & Hget & _ & Hother & _); [reflexivity|].
  exists w'. split; [exact Hdel|]. split; [exact Hget|].
  apply Hother. discriminate.
Defined.

(** ** How the statistics follow the operations *)

Lemma orderDocs_insert_fresh id o w :
  orders w !! id = None ->
  OrderService.orderDocs (setOrders (<[id := o]> (orders w)) w)
  ≡ₚ o :: OrderService.orderDocs w.
Proof.
  intros Hfresh. unfold OrderService.orderDocs. cbn [orders setOrders].
  now rewrite (map_to_list_insert _ _ _ Hfresh).
Qed.

Lemma orderDocs_delete id o w :
  orders w !! id = Some o ->
  o :: OrderService.orderDocs (setOrders (delete id (orders w)) w)
  ≡ₚ OrderService.orderDocs w.
Proof.
  intros Hid. unfold OrderService.orderDocs. cbn [orders setOrders].
  now rewrite <- (map_to_list_delete _ _ _ Hid).
Qed.

Lemma orderDocs_replace id o o' w :
  orders w !! id = Some o ->
  OrderService.orderDocs (setOrders (<[id := o']> (orders w)) w)
  ≡ₚ o' :: OrderService.orderDocs (setOrders (delete id (orders w)) w).
Proof.
  intros Hid. unfold OrderService.orderDocs. cbn [orders setOrders].
  rewrite <- (insert_delete_eq (orders w)).
  now rewrite map_to_list_insert by apply lookup_delete_eq.
Qed.

Lemma countDocuments_perm q st l l' :
  l ≡ₚ l' ->
  OrderService.countDocuments q st l = OrderService.countDocuments q st l'.
Proof.
  intros Hp. unfold OrderService.countDocuments.
  apply Permutation_length. now apply filter_perm.
Qed.

(** Whether an order counts for a query and a status. *)
Lemma countDocuments_cons q st o l :
  OrderService.countDocuments q st (o :: l)
  = ((if OrderService.matchesQuery q o
         && match st with
            | Some s => OrderStatus_eqb (Order.status o) s
            | None => true
            end
      then 1 else 0)
     + OrderService.countDocuments q st l)%nat.
Proof.
  unfold OrderService.countDocuments. cbn [List.filter].
  now destruct (_ && _).
Qed.

Lemma sumPrices_perm l l' :
  l ≡ₚ l' -> (OrderService.sumPrices l == OrderService.sumPrices l')%Q.
Proof.
  induction 1 as [|x l l' _ IH|x y l|l l' l'' _ IH1 _ IH2]; cbn.
  - reflexivity.
  - now rewrite IH.
  - rewrite !Qplus_assoc. now rewrite (Qplus_comm (Order.price y)).
  - now rewrite IH1.
Qed.

Lemma statusCount_countDocuments flag uid docs s :
  StatsView.statusCount (OrderService.statsOf flag uid docs) s
  = OrderService.countDocuments (OrderService.statsQuery uid) (Some s) docs.
Proof. now destruct s. Qed.

Lemma orZero_eq x : (OrderService.orZero x == x)%Q.
Proof.
  unfold OrderService.orZero. destruct (Qeq_bool x 0) eqn:E; [|reflexivity].
  apply Qeq_bool_iff in E. now rewrite E.
Qed.

Lemma totalRevenue_sum flag docs :
  (OrderService.totalRevenue (OrderService.statsOf flag None docs)
   == OrderService.sumPrices docs)%Q.
Proof.
  unfold OrderService.statsOf, OrderService.aggregate. cbn.
  destruct docs as [|o docs]; [reflexivity|]. cbn. apply orZero_eq.
Qed.

Lemma stats_of_perm flag uid docs docs' :
  docs ≡ₚ docs' ->
  OrderService.total (OrderService.statsOf flag uid docs)
  = OrderService.total (OrderService.statsOf flag uid docs')
  /\ forall s,
       StatsView.statusCount (OrderService.statsOf flag uid docs) s
       = StatsView.statusCount (OrderService.statsOf flag uid docs') s.
Proof.
  intros Hp. split; [now apply countDocuments_perm|].
  intros s. rewrite !statusCount_countDocuments. now apply countDocuments_perm.
Qed.

(** X7: after [createOrder] stored an order under a fresh identifier,
    [getOrderStats] (with any user filter) reports one more order in
    total and one more pending order when the filter counts the new
    order, the other three counts as before, and without a filter a
    total revenue larger by the price of the new order. *)
Theorem createOrder_then_stats newId now data w order w' flag uid :
  OrderService.createOrder newId now data w = (Ok order, w') ->
  orders w !! newId = None ->
  let before := StatsView.statsIn flag uid w in
  let after := StatsView.statsIn flag uid w' in
  OrderService.total after
  = (OrderService.total before + StatsView.counted uid order)%nat
  /\ OrderService.n_pending after
     = (OrderService.n_pending before + StatsView.counted uid order)%nat
  /\ OrderService.n_processing after = OrderService.n_processing before
  /\ OrderService.n_completed after = OrderService.n_completed before
  /\ OrderService.n_failed after = OrderService.n_failed before
  /\ (OrderService.totalRevenue (StatsView.statsIn flag None w')
      == OrderService.totalRevenue (StatsView.statsIn flag None w)
         + Order.price order)%Q.
Proof.
  intros Hcreate Hfresh before after.
  assert (Hst : Order.status order = pending
                /\ orders w' = <[newId := order]> (orders w)).
  { unfold OrderService.createOrder in Hcreate.
    destruct (OrderService.resolveUser _ _) as [[u|]| |]; try discriminate.
    destruct (Qle_bool _ _); [discriminate|].
    destruct (Js.blank (OrderService.itemName data)); [discriminate|].
    destruct (Js.blank (OrderService.orderType data)); [discriminate|].
    now injection Hcreate as <- <-. }
  destruct Hst as [Hst Horders].
  assert (Hdocs : OrderService.orderDocs w' ≡ₚ order :: OrderService.orderDocs w).
  { unfold OrderService.orderDocs. rewrite Horders.
    now rewrite (map_to_list_insert _ _ _ Hfresh). }
  assert (Hrev : (OrderService.totalRevenue (StatsView.statsIn flag None w')
                  == OrderService.totalRevenue (StatsView.statsIn flag None w)
                     + Order.price order)%Q).
  { unfold StatsView.statsIn.
    rewrite !totalRevenue_sum, (sumPrices_perm _ _ Hdocs). cbn.
    apply Qplus_comm. }
  subst before after. unfold StatsView.statsIn.
  assert (Hc : forall st,
             OrderService.countDocuments (OrderService.statsQuery uid) st
               (OrderService.orderDocs w')
             = OrderService.countDocuments (OrderService.statsQuery uid) st
                 (order :: OrderService.orderDocs w))
    by (intros st; now apply countDocuments_perm).
  unfold OrderService.statsOf, StatsView.counted. cbn [OrderService.total
    OrderService.n_pending OrderService.n_processing OrderService.n_completed
    OrderService.n_failed].
  rewrite !Hc, !countDocuments_cons, Hst. cbn [OrderStatus_eqb].
  rewrite !andb_true_r, !andb_false_r.
  split; [lia|]. split; [lia|]. split; [lia|]. split; [lia|].
  split; [lia|]. exact Hrev.
Qed.

Lemma createOrder_then_stats_witness :
  exists order w',
    OrderService.createOrder "o2" 5000 Sample.checkout (Sample.world1 pending)
    = (Ok order, w')
    /\ orders (Sample.world1 pending) !! "o2" = None
    /\ OrderService.total (StatsView.statsIn true None w')
       = (OrderService.total (StatsView.statsIn true None (Sample.world1 pending))
          + StatsView.counted None order)%nat.
Proof.
  eexists _, _. split; [reflexivity|]. split; [reflexivity|].
  destruct (createOrder_then_stats "o2" 5000 Sample.checkout
              (Sample.world1 pending) _ _ true None eq_refl eq_refl)
    as (Htotal & _).
  exact Htotal.
Defined.

(** X8: [updateOrder] on a stored order replaces that order by the
    one it returns and touches no other.  In [getOrderStats] the record
    the order had leaves the total and the count of its status and the
    record returned enters them, each as far as the user filter counts
    it; the total revenue moves by the difference of the two prices. *)
Theorem updateOrder_then_stats mailer now id data w prev flag uid :
  orders w !! id = Some prev ->
  exists order w',
    OrderService.updateOrder mailer now id data w = (Ok order, w')
    /\ orders w' = <[id := order]> (orders w)
    /\ (OrderService.total (StatsView.statsIn flag uid w')
        + StatsView.counted uid prev
        = OrderService.total (StatsView.statsIn flag uid w)
          + StatsView.counted uid order)%nat
    /\ (forall s,
          (StatsView.statusCount (StatsView.statsIn flag uid w') s
           + StatsView.countedAs uid prev s
           = StatsView.statusCount (StatsView.statsIn flag uid w) s
             + StatsView.countedAs uid order s)%nat)
    /\ (OrderService.totalRevenue (StatsView.statsIn flag None w')
        + Order.price prev
        == OrderService.totalRevenue (StatsView.statsIn flag None w)
           + Order.price order)%Q.
Proof.
  intros Hprev.
  destruct (OrderService.updateOrder mailer now id data w) as [r w'] eqn:Hcall.
  assert (Hr : exists order,
             r = Ok order /\ orders w' = <[id := order]> (orders w)).
  { unfold OrderService.updateOrder in Hcall. rewrite Hprev in Hcall.
    injection Hcall as <- <-. eexists. split; [reflexivity|].
    unfold pushLog; cbn [orders].
    destruct (negb _);
      [destruct (OrderService.statusChangeEmail _ _ _ _) as [[n ok]|]|];
      now rewrite ?orders_tryNotify. }
  destruct Hr as (order & -> & Horders).
  exists order, w'. split; [reflexivity|]. split; [exact Horders|].
  set (rest := OrderService.orderDocs (setOrders (delete id (orders w)) w)).
  assert (Hafter : OrderService.orderDocs w' ≡ₚ order :: rest).
  { unfold OrderService.orderDocs at 1. rewrite Horders.
    apply (orderDocs_replace id prev order w Hprev). }
  assert (Hbefore : OrderService.orderDocs w ≡ₚ prev :: rest)
    by (symmetry; now apply orderDocs_delete).
  unfold StatsView.statsIn.
  destruct (stats_of_perm flag uid _ _ Hafter) as [Ht1 Hs1].
  destruct (stats_of_perm flag uid _ _ Hbefore) as [Ht2 Hs2].
  split; [|split].
  - rewrite Ht1, Ht2. unfold OrderService.statsOf. cbn [OrderService.total].
    rewrite !countDocuments_cons, !andb_true_r.
    unfold StatsView.counted. lia.
  - intros s. rewrite Hs1, Hs2, !statusCount_countDocuments,
      !countDocuments_cons.
    unfold StatsView.countedAs. lia.
  - rewrite !totalRevenue_sum, (sumPrices_perm _ _ Hafter),
      (sumPrices_perm _ _ Hbefore). cbn. ring.
Qed.

Lemma updateOrder_then_stats_witness :
  let w := Sample.world1 pending in
  orders w !! "o1" = Some (Sample.order1 pending)
  /\ exists order w',
       OrderService.updateOrder Sample.deliver 2000 "o1"
         (Sample.setStatus processing) w = (Ok order, w')
       /\ (StatsView.statusCount (StatsView.statsIn true None w') pending
           + StatsView.countedAs None (Sample.order1 pending) pending
           = StatsView.statusCount (StatsView.statsIn true None w) pending
             + StatsView.countedAs None order pending)%nat.
Proof.
  intros w. split; [reflexivity|].
  destruct (updateOrder_then_stats Sample.deliver 2000 "o1"
              (Sample.setStatus processing) (Sample.world1 pending)
              (Sample.order1 pending) true None eq_refl)
    as (order & w' & Hcall & _ & _ & Hmove & _).
  exists order, w'. split; [exact Hcall | exact (Hmove pending)].
Defined.

(** X9: [deleteOrder] on a stored order lowers the total of
    [getOrderStats] and the count of the order's status by one each
    (when the user filter counts the order), leaves the other counts as
    they were, and without a filter lowers the total revenue by the
    price of the order. *)
Theorem deleteOrder_then_stats id w order flag uid :
  orders w !! id = Some order ->
  let w' := snd (OrderCrud.deleteOrder id w) in
  let before := StatsView.statsIn flag uid w in
  let after := StatsView.statsIn flag uid w' in
  (OrderService.total after + StatsView.counted uid order)%nat
  = OrderService.total before
  /\ (forall s,
        (StatsView.statusCount after s + StatsView.countedAs uid order s)%nat
        = StatsView.statusCount before s)
  /\ (OrderService.totalRevenue (StatsView.statsIn flag None w')
      + Order.price order
      == OrderService.totalRevenue (StatsView.statsIn flag None w))%Q.
Proof.
  intros Hid w' before after.
  assert (Hw : OrderService.orderDocs w'
               = OrderService.orderDocs (setOrders (delete id (orders w)) w)).
  { subst w'. unfold OrderCrud.deleteOrder. now rewrite Hid. }
  pose proof (orderDocs_delete id order w Hid) as Hdocs. rewrite <- Hw in Hdocs.
  subst before after. unfold StatsView.statsIn.
  destruct (stats_of_perm flag uid _ _ Hdocs) as [Ht Hs].
  split; [|split].
  - rewrite <- Ht. unfold OrderService.statsOf. cbn [OrderService.total].
    rewrite countDocuments_cons, andb_true_r.
    unfold StatsView.counted. lia.
  - intros s. rewrite <- Hs, !statusCount_countDocuments, countDocuments_cons.
    unfold StatsView.countedAs. lia.
  - rewrite !totalRevenue_sum, <- (sumPrices_perm _ _ Hdocs). cbn.
    apply Qplus_comm.
Qed.

Lemma deleteOrder_then_stats_witness :
  let order := Cases.orderAt "c" "bob@example.com" 30%Q completed 2000 in
  orders Cases.shop !! "c" = Some order
  /\ (OrderService.total
        (StatsView.statsIn true None (snd (OrderCrud.deleteOrder "c" Cases.shop)))
      + StatsView.counted None order)%nat
     = OrderService.total (StatsView.statsIn true None Cases.shop).
Proof.
  intros order. split; [reflexivity|].
  destruct (deleteOrder_then_stats "c" Cases.shop order true None eq_refl)
    as (Htotal & _).
  exact Htotal.
Defined.

(** ** Completing an order *)

(** X10: [completeOrder] on a stored order sets the status to
    [completed] and [completedAt] to the time of the call and attempts
    exactly one completion email, whatever the status was before, an
    already completed order included; [updateOrder] asked to set
    [completed] on an already completed order attempts none. *)
Theorem completeOrder_always_notifies mailer now id cm cl w prev :
  orders w !! id = Some prev ->
  let r := OrderService.completeOrder mailer now id cm cl w in
  (exists order,
      fst r = Ok order
      /\ orders (snd r) !! id = Some order
      /\ Order.status order = completed
      /\ Order.completedAt order = Some now
      /\ outbox (snd r)
         = (outbox w ++ [OrderService.completionEmail now order])%list)
  /\ (forall data,
        UpdateOrderDto.status data = Some completed ->
        Order.status prev = completed ->
        outbox (snd (OrderService.updateOrder mailer now id data w))
        = outbox w).
Proof.
  intros Hprev r. split.
  - subst r. unfold OrderService.completeOrder. rewrite Hprev. cbn [fst snd].
    eexists. split; [reflexivity|].
    rewrite outbox_pushLog, outbox_tryNotify.
    unfold pushLog; cbn [orders]. rewrite orders_tryNotify.
    cbn [orders setOrders]. rewrite lookup_insert_eq. repeat split.
  - intros data Hdata Hdone. unfold OrderService.updateOrder.
    rewrite Hprev. cbn [snd]. rewrite outbox_pushLog.
    rewrite status_applyUpdate, Hdata, Hdone. reflexivity.
Qed.

Lemma completeOrder_always_notifies_witness :
  let w := Sample.world1 completed in
  orders w !! "o1" = Some (Sample.order1 completed)
  /\ (exists order,
        fst (OrderService.completeOrder Sample.deliver 7000 "o1" None None w)
        = Ok order
        /\ outbox (snd (OrderService.completeOrder Sample.deliver 7000 "o1"
                          None None w))
           = [OrderService.completionEmail 7000 order])
  /\ outbox (snd (OrderService.updateOrder Sample.deliver 7000 "o1"
                    Cases.completing w)) = [].
Proof.
  intros w. split; [reflexivity|].
  destruct (completeOrder_always_notifies Sample.deliver 7000 "o1" None None
              (Sample.world1 completed) (Sample.order1 completed) eq_refl)
    as ((order & Hok & _ & _ & _ & Hout) & Hquiet).
  split.
  - exists order. exact (conj Hok Hout).
  - apply (Hquiet Cases.completing); reflexivity.
Defined.

(** ** Site submissions: review, creation, deletion *)

(** X11: [updateSiteSubmission] on a stored submission attempts one
    approval email when the patch sets [approved] on a submission that
    was not approved, one rejection email when it sets [rejected] on one
    that was not rejected, and no email otherwise (no status in the
    patch, the same status again, or a return to [pending]); the email
    is made from the submission as the update returns and stores it (its
    address, name and websites) and from the notes of the patch.  The
    reviewer reference of the patch, when given, is an ObjectId. *)
Theorem updateSiteSubmission_notification mailer now id data w cur :
  submissions w !! id = Some cur ->
  (forall i, UpdateSiteSubmissionDto.reviewedBy data = Some i ->
             Js.isObjectIdShape i = true) ->
  exists s w',
    SiteSubmissionService.updateSiteSubmission mailer now id data w
    = (Ok s, w')
    /\ submissions w' !! id = Some s
    /\ let mail := mkSubmissionMail (SiteSubmission.userEmail s)
                     (SiteSubmission.userName s) (SiteSubmission.websites s)
                     (UpdateSiteSubmissionDto.adminNotes data) in
       (UpdateSiteSubmissionDto.status data = Some approved ->
        SiteSubmission.status cur <> approved ->
        outbox w' = (outbox w ++ [SiteSubmissionApprovalEmail mail])%list)
       /\ (UpdateSiteSubmissionDto.status data = Some rejected ->
           SiteSubmission.status cur <> rejected ->
           outbox w' = (outbox w ++ [SiteSubmissionRejectionEmail mail])%list)
       /\ (UpdateSiteSubmissionDto.status data = None
           \/ UpdateSiteSubmissionDto.status data
              = Some (SiteSubmission.status cur)
           \/ UpdateSiteSubmissionDto.status data = Some sub_pending ->
           outbox w' = outbox w).
Proof.
  intros Hcur _.
  destruct (SiteSubmissionService.updateSiteSubmission mailer now id data w)
    as [r w'] eqn:Hcall.
  unfold SiteSubmissionService.updateSiteSubmission in Hcall.
  rewrite Hcur in Hcall. injection Hcall as <- <-.
  eexists _, _. split; [reflexivity|].
  unfold SiteSubmissionService.statusChangeEmail.
  split.
  { destruct (UpdateSiteSubmissionDto.status data) as [st|];
      [|apply lookup_insert_eq].
    destruct (negb _); [|apply lookup_insert_eq].
    destruct st; try apply lookup_insert_eq;
      destruct (mailer _); apply lookup_insert_eq. }
  cbn zeta. split; [|split].
  - intros -> Hne. destruct (SiteSubmission.status cur); try congruence;
      cbn; now destruct (mailer _).
  - intros -> Hne. destruct (SiteSubmission.status cur); try congruence;
      cbn; now destruct (mailer _).
  - intros [-> | [-> | ->]]; [reflexivity | |].
    + now destruct (SiteSubmission.status cur).
    + now destruct (SiteSubmission.status cur).
Qed.

Lemma updateSiteSubmission_notification_witness :
  submissions (Cases.desk sub_pending) !! "s2"
  = Some (Cases.submission2 sub_pending)
  /\ exists s w',
       SiteSubmissionService.updateSiteSubmission Sample.bounce 5000 "s2"
         Cases.approve (Cases.desk sub_pending) = (Ok s, w')
       /\ outbox w'
          = (outbox (Cases.desk sub_pending)
             ++ [SiteSubmissionApprovalEmail
                   (mkSubmissionMail (SiteSubmission.userEmail s)
                      (SiteSubmission.userName s) (SiteSubmission.websites s)
                      (UpdateSiteSubmissionDto.adminNotes Cases.approve))])%list.
Proof.
  split; [reflexivity|].
  destruct (updateSiteSubmission_notification Sample.bounce 5000 "s2"
              Cases.approve (Cases.desk sub_pending)
              (Cases.submission2 sub_pending) eq_refl)
    as (s & w' & Hcall & _ & Happrove & _); [intros i [=]|].
  exists s, w'. split; [exact Hcall|].
  apply Happrove; [reflexivity | discriminate].
Defined.

Lemma blank_trimStart s : Js.blank (Js.trimStart s) = Js.blank s.
Proof.
  induction s as [|c r IH]; [reflexivity|]. cbn.
  destruct (Js.isSpace c) eqn:E; [exact IH|]. cbn. now rewrite E.
Qed.

Lemma trimEnd_empty s : Js.trimEnd s = EmptyString <-> Js.blank s = true.
Proof.
  destruct s as [|c r]; [easy|]. cbn [Js.trimEnd].
  destruct (Js.blank (String c r)); easy.
Qed.

Lemma trim_empty s : Js.trim s = EmptyString <-> Js.blank s = true.
Proof. unfold Js.trim. now rewrite trimEnd_empty, blank_trimStart. Qed.

Lemma trim_eqb s : String.eqb (Js.trim s) EmptyString = Js.blank s.
Proof.
  destruct (Js.blank s) eqn:E.
  - now apply String.eqb_eq, trim_empty.
  - apply String.eqb_neq. intros H. apply trim_empty in H. congruence.
Qed.

Lemma toLowerCase_eqb_empty s :
  String.eqb (Js.toLowerCase s) EmptyString = String.eqb s EmptyString.
Proof. now destruct s. Qed.

Lemma lowerChar_idem c : Js.lowerChar (Js.lowerChar c) = Js.lowerChar c.
Proof. destruct c as [[] [] [] [] [] [] [] []]; reflexivity. Qed.

Lemma toLowerCase_idem s : Js.toLowerCase (Js.toLowerCase s) = Js.toLowerCase s.
Proof.
  induction s as [|c r IH]; [reflexivity|]. cbn. now rewrite lowerChar_idem, IH.
Qed.

(** X12: [createSiteSubmission] for a name, an address and websites in
    ASCII text, none of them blank, and a user reference that is absent
    or an ObjectId, stores the submission as [pending], not yet
    reviewed, submitted at the time of the call, under the trimmed
    lower-cased address (which lower-casing leaves unchanged), and
    attempts exactly one "received" email, to the address as the caller
    gave it.  With a missing or blank name or address, or with a user
    reference that cannot be cast to an ObjectId, the call throws and
    stores and sends nothing. *)
Theorem createSiteSubmission_received mailer newId now data w :
  (forall name email,
      CreateSiteSubmissionDto.userName data = Some name ->
      CreateSiteSubmissionDto.userEmail data = Some email ->
      Text.isAscii name = true -> Text.isAscii email = true ->
      Js.blank name = false -> Js.blank email = false ->
      (forall site, In site (CreateSiteSubmissionDto.websites data) ->
                    Text.isAscii site = true /\ Js.blank site = false) ->
      (forall i, CreateSiteSubmissionDto.userId data = Some i ->
                 Js.isObjectIdShape i = true) ->
      exists s w',
        SiteSubmissionService.createSiteSubmission mailer newId now data w
        = (Ok s, w')
        /\ SiteSubmission.status s = sub_pending
        /\ SiteSubmission.reviewedAt s = None
        /\ SiteSubmission.submittedAt s = now
        /\ SiteSubmission.userEmail s = Js.toLowerCase (Js.trim email)
        /\ Js.toLowerCase (SiteSubmission.userEmail s)
           = SiteSubmission.userEmail s
        /\ submissions w' !! newId = Some s
        /\ outbox w'
           = (outbox w ++ [SiteSubmissionReceivedEmail
                             (mkSubmissionMail email name
                                (CreateSiteSubmissionDto.websites data) None)])%list)
  /\ (Js.blank (Js.orS (CreateSiteSubmissionDto.userName data) EmptyString) = true
      \/ Js.blank (Js.orS (CreateSiteSubmissionDto.userEmail data) EmptyString)
         = true
      \/ (exists i, CreateSiteSubmissionDto.userId data = Some i
                    /\ i <> EmptyString /\ Driver.neverCasts i = true) ->
      exists what,
        SiteSubmissionService.createSiteSubmission mailer newId now data w
        = (Thrown what, w)).
Proof.
  split.
  - intros name email Hname Hemail _ _ Hn He Hsites Hid.
    assert (Hne : forall x, Js.blank x = false -> x <> EmptyString)
      by (intros x Hx ->; discriminate).
    unfold SiteSubmissionService.createSiteSubmission.
    assert (Hvalid : SiteSubmissionService.validates
                       (SiteSubmissionService.fromDto newId now data) = true).
    { unfold SiteSubmissionService.validates, SiteSubmissionService.fromDto.
      cbn [SiteSubmission.userName SiteSubmission.userEmail
           SiteSubmission.websites SiteSubmission.userId].
      rewrite Hname, Hemail, !orS_Some by auto.
      rewrite toLowerCase_eqb_empty, !trim_eqb, Hn, He. cbn [negb andb].
      apply andb_true_intro. split.
      - apply forallb_forall. intros site Hin.
        apply in_map_iff in Hin as (raw & <- & Hraw).
        rewrite trim_eqb. now destruct (Hsites raw Hraw) as [_ ->].
      - destruct (CreateSiteSubmissionDto.userId data) as [i|];
          [|reflexivity].
        exact (Hid i eq_refl). }
    rewrite Hvalid. eexists _, _. split; [reflexivity|].
    split; [reflexivity|]. split; [reflexivity|]. split; [reflexivity|].
    cbn [SiteSubmissionService.fromDto SiteSubmission.userEmail].
    rewrite Hname, Hemail, !orS_Some by auto.
    split; [reflexivity|]. split; [apply toLowerCase_idem|].
    split; [destruct (mailer _); apply lookup_insert_eq|].
    now destruct (mailer _).
  - intros Hbad. unfold SiteSubmissionService.createSiteSubmission.
    assert (Hinvalid : SiteSubmissionService.validates
                         (SiteSubmissionService.fromDto newId now data) = false).
    { unfold SiteSubmissionService.validates, SiteSubmissionService.fromDto.
      cbn [SiteSubmission.userName SiteSubmission.userEmail
           SiteSubmission.websites SiteSubmission.userId].
      rewrite toLowerCase_eqb_empty, !trim_eqb.
      destruct Hbad as [-> | [-> | (i & -> & _ & Hcast)]]; cbn [negb andb].
      - reflexivity.
      - now rewrite andb_false_r.
      - rewrite (neverCasts_shape _ Hcast). apply andb_false_r. }
    rewrite Hinvalid. now eexists.
Qed.

Lemma createSiteSubmission_received_witness :
  exists s w',
    SiteSubmissionService.createSiteSubmission Sample.bounce "s9" 3000
      Cases.intake (Cases.desk approved) = (Ok s, w')
    /\ SiteSubmission.status s = sub_pending
    /\ SiteSubmission.userEmail s = "bob@example.com"
    /\ submissions w' !! "s9" = Some s.
Proof.
  destruct (createSiteSubmission_received Sample.bounce "s9" 3000 Cases.intake
              (Cases.desk approved)) as (Hok & _).
  destruct (Hok "Bob" "  Bob@Example.COM ")
    as (s & w' & Hcall & Hst & _ & _ & Hmail & _ & Hlook & _);
    try reflexivity.
  - intros site Hin. destruct Hin as [Hs|[Hs|Hs]];
      [subst site; split; reflexivity | subst site; split; reflexivity
      | destruct Hs].
  - intros i [=].
  - exists s, w'. split; [exact Hcall|]. split; [exact Hst|].
    split; [exact Hmail | exact Hlook].
Defined.

Lemma removed_gone (p : string) (d : gset string) : p ∉ d ∖ {[ p ]}.
Proof.
  intros H. apply elem_of_difference in H as [_ H].
  apply H, elem_of_singleton. reflexivity.
Qed.

Lemma removed_only (p q : string) (d : gset string) :
  q <> p -> q ∈ d -> q ∈ d ∖ {[ p ]}.
Proof.
  intros Hne Hq. apply elem_of_difference. split; [exact Hq|].
  rewrite elem_of_singleton. exact Hne.
Qed.

Lemma removed_subseteq (p : string) (d : gset string) : d ∖ {[ p ]} ⊆ d.
Proof.
  apply elem_of_subseteq. intros x Hx.
  now apply elem_of_difference in Hx as [Hx _].
Qed.

(** X13: what [deleteFileFromVPS] returns tells whether the file is
    gone: it returns [true] exactly when the file is absent afterwards
    (removed now, or never there), [false] when the file is still there;
    it never creates a file and never touches another path. *)
Theorem deleteFileFromVPS_result join locked filePath disk :
  let '(ok, disk', _) := FileUtils.deleteFileFromVPS join locked filePath disk in
  (ok = true <-> join filePath ∉ disk')
  /\ (ok = false -> disk' = disk)
  /\ disk' ⊆ disk
  /\ (forall other, other <> join filePath -> other ∈ disk -> other ∈ disk').
Proof.
  unfold FileUtils.deleteFileFromVPS, FileUtils.fs_unlink.
  destruct (decide (join filePath ∈ disk)) as [Hin|Hout];
    [destruct (decide (join filePath ∈ locked))|].
  - split; [split; [discriminate | intros H; contradiction]|].
    split; [reflexivity|]. split; [reflexivity|]. auto.
  - split; [split; [intros _; apply removed_gone | reflexivity]|].
    split; [discriminate|]. split; [apply removed_subseteq|].
    intros other Hne Hother. now apply removed_only.
  - split; [split; [auto | reflexivity]|].
    split; [discriminate|]. split; [reflexivity|]. auto.
Qed.





(** ** Threads: listing, creating, changing, deleting *)

Lemma insertByDate_sorted m l :
  MessageView.newestFirst l ->
  MessageView.newestFirst (MessageService.insertByDate m l).
Proof.
  unfold MessageView.newestFirst.
  induction 1 as [|x l Hl IH Hx]; cbn.
  - repeat constructor.
  - destruct (Message.date x <=? Message.date m)%Z eqn:E.
    + apply Z.leb_le in E. constructor; [now constructor|].
      constructor; [exact E|].
      eapply Forall_impl; [exact Hx|]. cbn. intros y Hy. lia.
    + apply Z.leb_gt in E. constructor; [exact IH|].
      eapply Permutation_Forall; [symmetry; apply insertByDate_perm|].
      constructor; [lia | exact Hx].
Qed.

Lemma sortByDateDesc_sorted l :
  MessageView.newestFirst (MessageService.sortByDateDesc l).
Proof.
  induction l as [|x l IH]; cbn; [constructor|].
  now apply insertByDate_sorted.
Qed.

(** X16: [getMessagesByUserEmail] returns nothing for an empty address,
    and for any other address the threads stored under exactly that
    address, each as often as it is stored, newest [date] first; the
    [getMyMessages] handler answers 401 without an authenticated
    address and with that list otherwise. *)
Theorem getMessagesByUserEmail_exact email (w : World) :
  MessageService.getMessagesByUserEmail EmptyString (messages w) = []
  /\ (email <> EmptyString ->
      let l := MessageService.getMessagesByUserEmail email (messages w) in
      MessageView.newestFirst l
      /\ l ≡ₚ List.filter (fun m => String.eqb (Message.userEmail m) email)
                (messages w)
      /\ (forall m, In m l
                    <-> In m (messages w) /\ Message.userEmail m = email))
  /\ (forall user,
        MessageHandlers.getMyMessages user w
        = match MessageHandlers.userEmailOf user with
          | None => MessageHandlers.Status401
          | Some mine =>
              MessageHandlers.ApiSuccess
                (MessageService.getMessagesByUserEmail mine (messages w))
          end).
Proof.
  split; [reflexivity|]. split; [|reflexivity].
  intros Hne l. subst l.
  pose proof (getMessagesByUserEmail_perm email (messages w) Hne) as Hp.
  split; [|split].
  - unfold MessageService.getMessagesByUserEmail.
    apply String.eqb_neq in Hne as ->. apply sortByDateDesc_sorted.
  - exact Hp.
  - intros m. rewrite <- !list_elem_of_In, Hp, !list_elem_of_In.
    now rewrite filter_In, String.eqb_eq.
Qed.

Lemma getMessagesByUserEmail_exact_witness :
  "alice@example.com" <> EmptyString
  /\ MessageView.newestFirst
       (MessageService.getMessagesByUserEmail "alice@example.com"
          (messages Cases.inbox))
  /\ MessageService.getMessagesByUserEmail "alice@example.com"
       (messages Cases.inbox)
     ≡ₚ List.filter
          (fun m => String.eqb (Message.userEmail m) "alice@example.com")
          (messages Cases.inbox).
Proof.
  split; [discriminate|].
  destruct (getMessagesByUserEmail_exact "alice@example.com" Cases.inbox)
    as (_ & Hmine & _).
  destruct Hmine as (Hsorted & Hperm & _); [discriminate|].
  exact (conj Hsorted Hperm).
Defined.

Lemma truthyOpt_Some o x :
  OrderService.truthyOpt o = Some x -> o = Some x /\ x <> EmptyString.
Proof.
  unfold OrderService.truthyOpt, Js.truthyS.
  destruct o as [y|]; [|discriminate].
  destruct (String.eqb y EmptyString) eqn:E; cbn; [discriminate|].
  intros [= ->]. split; [reflexivity | now apply String.eqb_neq].
Qed.

Lemma handler_email_nonempty user email :
  MessageHandlers.userEmailOf user = Some email -> email <> EmptyString.
Proof.
  unfold MessageHandlers.userEmailOf. destruct user as [u|]; [|discriminate].
  intros H. now apply truthyOpt_Some in H.
Qed.

Lemma In_getMessagesByUserEmail who ms m :
  In m (MessageService.getMessagesByUserEmail who ms)
  <-> who <> EmptyString /\ In m ms /\ Message.userEmail m = who.
Proof.
  destruct (String.eqb who EmptyString) eqn:E.
  - apply String.eqb_eq in E. subst who. cbn. tauto.
  - apply String.eqb_neq in E.
    rewrite <- !list_elem_of_In, (getMessagesByUserEmail_perm who ms E),
      !list_elem_of_In, filter_In, String.eqb_eq.
    tauto.
Qed.

(** X17: the [createMessage] handler answers 401 and stores nothing
    without an authenticated address; otherwise it appends one thread
    that belongs to the authenticated address whatever address the body
    names, so that it is listed for that address and for no other, and
    whose approval flag is never 0, so that the number of unread threads
    stays as it was. *)
Theorem createMessage_owner now today user body w :
  (MessageHandlers.userEmailOf user = None ->
   MessageHandlers.createMessage now user body w
   = (MessageHandlers.Status401, w))
  /\ (forall email,
        MessageHandlers.userEmailOf user = Some email ->
        exists m,
          MessageHandlers.createMessage now user body w
          = (MessageHandlers.ApiCreated m,
             setMessages (messages w ++ [m]) w)
          /\ Message.userEmail m = email
          /\ Message.approved m <> 0%Z
          /\ (forall who,
                In m (MessageService.getMessagesByUserEmail who
                        (messages w ++ [m]))
                <-> who = email)
          /\ MessageCrud.unread
               (MessageCrud.getMessageStats today
                  (setMessages (messages w ++ [m]) w))
             = MessageCrud.unread (MessageCrud.getMessageStats today w)).
Proof.
  split.
  - intros Hnone. unfold MessageHandlers.createMessage. now rewrite Hnone.
  - intros email Hmail. pose proof (handler_email_nonempty _ _ Hmail) as Hne.
    unfold MessageHandlers.createMessage. rewrite Hmail.
    eexists. split; [reflexivity|].
    assert (Happroved : Js.orZ (MessageDto.approved body) 1 <> 0%Z).
    { unfold Js.orZ. destruct (MessageDto.approved body) as [z|]; [|lia].
      destruct (z =? 0)%Z eqn:E; [lia | now apply Z.eqb_neq]. }
    split; [cbn -[Js.orS]; now rewrite orS_Some|].
    split; [exact Happroved|].
    split.
    + intros who. rewrite In_getMessagesByUserEmail, in_app_iff.
      cbn [MessageCrud.fromDto MessageHandlers.messageWithUser
           Message.userEmail MessageDto.userEmail].
      rewrite orS_Some by exact Hne. split.
      * intros (_ & _ & Hwho). now symmetry.
      * intros ->. split; [exact Hne|]. split; [right; now left | reflexivity].
    + cbn [MessageCrud.getMessageStats MessageCrud.unread messages setMessages].
      rewrite List.filter_app, length_app. cbn [List.filter].
      cbn [MessageCrud.fromDto MessageHandlers.messageWithUser
           Message.approved MessageDto.approved default].
      unfold id. apply Z.eqb_neq in Happroved. rewrite Happroved. cbn. lia.
Qed.

Lemma createMessage_owner_witness :
  MessageHandlers.userEmailOf (Some Cases.aliceUser) = Some "alice@example.com"
  /\ exists m,
       MessageHandlers.createMessage 8000 (Some Cases.aliceUser) Cases.note
         Cases.inbox
       = (MessageHandlers.ApiCreated m,
          setMessages (messages Cases.inbox ++ [m]) Cases.inbox)
       /\ Message.userEmail m = "alice@example.com"
       /\ Message.approved m <> 0%Z.
Proof.
  split; [reflexivity|].
  destruct (createMessage_owner 8000 0 (Some Cases.aliceUser) Cases.note
              Cases.inbox) as (_ & Hok).
  destruct (Hok "alice@example.com" eq_refl) as (m & Hcall & Hmail & Hap & _).
  exists m. exact (conj Hcall (conj Hmail Hap)).
Defined.

(** X18: the [updateMessage] handler changes a thread only for its
    owner: a successful answer means the request was authenticated, the
    first thread with that identifier belongs to the authenticated
    address, and exactly that thread was patched in place; without
    authentication (401), for an unknown identifier or for somebody
    else's thread (403) nothing is changed. *)
Theorem updateMessage_owner_only user id data w :
  (forall r w',
      MessageHandlers.updateMessage user id data w
      = (MessageHandlers.ApiSuccess r, w') ->
      exists email i m,
        MessageHandlers.userEmailOf user = Some email
        /\ messages w !! i = Some m
        /\ Message.commentId m = id
        /\ Message.userEmail m = email
        /\ r = Some (MessageCrud.applyPatch data m)
        /\ w' = setMessages
                  (<[i := MessageCrud.applyPatch data m]> (messages w)) w)
  /\ (MessageHandlers.userEmailOf user = None ->
      MessageHandlers.updateMessage user id data w
      = (MessageHandlers.Status401, w))
  /\ (forall email,
        MessageHandlers.userEmailOf user = Some email ->
        (forall t, In t (messages w) -> Message.commentId t <> id) ->
        MessageHandlers.updateMessage user id data w
        = (MessageHandlers.Status403, w))
  /\ (forall email i m,
        MessageHandlers.userEmailOf user = Some email ->
        MessageService.findOne id (messages w) = Some (i, m) ->
        Message.userEmail m <> email ->
        MessageHandlers.updateMessage user id data w
        = (MessageHandlers.Status403, w)).
Proof.
  unfold MessageHandlers.updateMessage, MessageCrud.getMessageById,
    MessageCrud.updateMessage.
  split; [|split; [|split]].
  - intros r w' H.
    destruct (MessageHandlers.userEmailOf user) as [email|]; [|discriminate].
    destruct (MessageService.findOne id (messages w)) as [[i m]|] eqn:Hfind;
      [|discriminate].
    cbn [option_map snd] in H.
    destruct (String.eqb (Message.userEmail m) email) eqn:Hown; [|discriminate].
    injection H as <- <-. apply String.eqb_eq in Hown.
    apply list_find_Some in Hfind as (Hi & Hc & _).
    exists email, i, m. repeat split; assumption.
  - intros ->. reflexivity.
  - intros email -> Hnone. now rewrite (findOne_None _ _ Hnone).
  - intros email i m -> -> Hother. cbn [option_map snd].
    now apply String.eqb_neq in Hother as ->.
Qed.

Lemma updateMessage_owner_only_witness :
  MessageHandlers.userEmailOf (Some Cases.bobUser) = Some "bob@example.com"
  /\ MessageService.findOne "1700000000001" (messages Cases.inbox)
     = Some (1%nat, Sample.thread2)
  /\ MessageHandlers.updateMessage (Some Cases.bobUser) "1700000000001"
       Cases.rename Cases.inbox
     = (MessageHandlers.Status403, Cases.inbox).
Proof.
  split; [reflexivity|]. split; [reflexivity|].
  destruct (updateMessage_owner_only (Some Cases.bobUser) "1700000000001"
              Cases.rename Cases.inbox) as (_ & _ & _ & Hother).
  apply (Hother "bob@example.com" 1%nat Sample.thread2);
    [reflexivity | reflexivity | discriminate].
Defined.

Lemma find_skips (P : Message.t -> Prop) `{forall m, Decision (P m)}
    (l1 l2 : list Message.t) x :
  ~ P x ->
  snd <$> list_find P (l1 ++ x :: l2) = snd <$> list_find P (l1 ++ l2).
Proof.
  intros Hx. induction l1 as [|y l1 IH]; cbn.
  - destruct (decide (P x)); [contradiction|].
    now destruct (list_find P l2) as [[j z]|].
  - destruct (decide (P y)); [reflexivity|].
    destruct (list_find P (l1 ++ x :: l2)) as [[j z]|],
             (list_find P (l1 ++ l2)) as [[j' z']|]; cbn in *; congruence.
Qed.

(** X19: [deleteMessage] removes the first thread that carries the
    identifier and nothing else: the collection gets one thread shorter
    and keeps its order, every other identifier reads as before, and
    the identifier itself reads as [null] afterwards when it named one
    thread only; an identifier that names no thread changes nothing. *)
Theorem deleteMessage_first id w :
  ((forall t, In t (messages w) -> Message.commentId t <> id) ->
   MessageCrud.deleteMessage id w = w)
  /\ (forall i m,
        MessageService.findOne id (messages w) = Some (i, m) ->
        let w' := MessageCrud.deleteMessage id w in
        messages w' = (take i (messages w) ++ drop (S i) (messages w))%list
        /\ S (length (messages w')) = length (messages w)
        /\ (forall other, other <> id ->
              MessageCrud.getMessageById other w'
              = MessageCrud.getMessageById other w)
        /\ (MessageView.namesOne id (messages w) ->
            MessageCrud.getMessageById id w' = None)).
Proof.
  split.
  - intros Hnone. unfold MessageCrud.deleteMessage.
    now rewrite (findOne_None _ _ Hnone).
  - intros i m Hfind w'. subst w'. unfold MessageCrud.deleteMessage.
    rewrite Hfind. cbn [messages setMessages].
    apply list_find_Some in Hfind as (Hi & Hc & _).
    pose proof (lookup_lt_Some _ _ _ Hi) as Hlt.
    pose proof (take_drop_middle _ _ _ Hi) as Hsplit.
    rewrite delete_take_drop.
    split; [reflexivity|].
    split.
    { rewrite <- Hsplit at 3. rewrite !length_app. cbn. lia. }
    split.
    { intros other Hne. unfold MessageCrud.getMessageById.
      cbn [messages setMessages]. rewrite <- Hsplit at 3.
      unfold MessageService.findOne. symmetry.
      change (option_map snd ?x) with (snd <$> x).
      apply find_skips. congruence. }
    intros Hone. unfold MessageCrud.getMessageById.
    cbn [messages setMessages].
    rewrite findOne_None; [reflexivity|].
    intros t Hin Hid. apply in_app_or in Hin.
    destruct Hin as [Hin|Hin]; apply list_elem_of_In in Hin.
    + apply elem_of_take in Hin as (j & Hj & Hji).
      pose proof (Hone j i t m Hj Hi Hid Hc). lia.
    + apply list_elem_of_lookup in Hin as (j & Hj).
      rewrite lookup_drop in Hj.
      pose proof (Hone (S i + j)%nat i t m Hj Hi Hid Hc). lia.
Qed.

Lemma deleteMessage_first_witness :
  MessageService.findOne "1700000000001" (messages Cases.inbox)
  = Some (1%nat, Sample.thread2)
  /\ S (length (messages (MessageCrud.deleteMessage "1700000000001"
                           Cases.inbox)))
     = length (messages Cases.inbox)
  /\ MessageCrud.getMessageById "1700000000002"
       (MessageCrud.deleteMessage "1700000000001" Cases.inbox)
     = MessageCrud.getMessageById "1700000000002" Cases.inbox.
Proof.
  split; [reflexivity|].
  destruct (deleteMessage_first "1700000000001" Cases.inbox) as (_ & Hdel).
  destruct (Hdel 1%nat Sample.thread2 eq_refl) as (_ & Hlen & Hother & _).
  split; [exact Hlen|]. apply Hother. discriminate.
Defined.

Lemma count_insert (f : Message.t -> bool) (l : list Message.t) i x y :
  l !! i = Some x ->
  (length (List.filter f (<[i := y]> l)) + (if f x then 1 else 0)
   = length (List.filter f l) + (if f y then 1 else 0))%nat.
Proof.
  intros Hi. pose proof (lookup_lt_Some _ _ _ Hi) as Hlt.
  rewrite insert_take_drop by exact Hlt.
  rewrite <- (take_drop_middle _ _ _ Hi) at 3.
  rewrite !List.filter_app, !length_app. cbn [List.filter].
  destruct (f x), (f y); cbn [length]; lia.
Qed.

(** X20: a reply appended by [addMessageToThread] marks its thread as
    read and as changed now: in [getMessageStats] the total stays the
    same, the number of unread threads drops by one when the thread was
    unread and stays otherwise, and when the clock is past today's
    midnight the thread counts for today from then on. *)
Theorem reply_marks_read now today id newMessage w i thread :
  MessageService.findOne id (messages w) = Some (i, thread) ->
  let w' := snd (MessageService.addMessageToThread now id newMessage w) in
  let before := MessageCrud.getMessageStats today w in
  let after := MessageCrud.getMessageStats today w' in
  MessageCrud.total after = MessageCrud.total before
  /\ (MessageCrud.unread after
      + (if (Message.approved thread =? 0)%Z then 1 else 0)
      = MessageCrud.unread before)%nat
  /\ ((today <= now)%Z ->
      (MessageCrud.todayCount after
       = MessageCrud.todayCount before
         + (if (today <=? Message.date thread)%Z then 0 else 1))%nat).
Proof.
  intros Hfind w' before after. subst w' before after.
  unfold MessageService.addMessageToThread. rewrite Hfind.
  cbn [snd MessageCrud.getMessageStats MessageCrud.total MessageCrud.unread
       MessageCrud.todayCount messages setMessages].
  apply list_find_Some in Hfind as (Hi & _ & _).
  split; [apply length_insert|]. split.
  - pose proof (count_insert (fun m => (Message.approved m =? 0)%Z)
                  (messages w) i thread
                  (MessageService.appended now newMessage thread) Hi) as Hc.
    cbn in Hc. lia.
  - intros Hclock.
    pose proof (count_insert (fun m => (today <=? Message.date m)%Z)
                  (messages w) i thread
                  (MessageService.appended now newMessage thread) Hi) as Hc.
    cbn [MessageService.appended Message.date] in Hc.
    apply Z.leb_le in Hclock. rewrite Hclock in Hc.
    destruct (today <=? Message.date thread)%Z; lia.
Qed.

Lemma reply_marks_read_witness :
  let w' := snd (MessageService.addMessageToThread 2000 "1700000000000"
                   (Sample.entry 2000 "reply") Cases.inbox) in
  MessageService.findOne "1700000000000" (messages Cases.inbox)
  = Some (0%nat, Sample.thread1 500)
  /\ (MessageCrud.unread (MessageCrud.getMessageStats 1000 w')
      + (if (Message.approved (Sample.thread1 500) =? 0)%Z then 1 else 0)
      = MessageCrud.unread (MessageCrud.getMessageStats 1000 Cases.inbox))%nat.
Proof.
  intros w'. split; [reflexivity|].
  destruct (reply_marks_read 2000 1000 "1700000000000"
              (Sample.entry 2000 "reply") Cases.inbox 0%nat
              (Sample.thread1 500) eq_refl) as (_ & Hunread & _).
  exact Hunread.
Defined.

(** ** The stream: refusal, and what a reply means for it *)

Lemma run_refused trace : forall s,
  ended s = true -> pollInterval s = false -> inflight s = 0%nat ->
  run s trace = s.
Proof.
  induction trace as [|a trace IH]; intros s Hend Hoff Hidle; [reflexivity|].
  change (run s (a :: trace)) with (run (step s a) trace).
  assert (Hstep : step s a = s).
  { destruct a as [|db now|]; cbn [step].
    - now rewrite Hoff.
    - now rewrite Hidle.
    - destruct s; cbn in *; now subst. }
  rewrite Hstep. now apply IH.
Qed.

(** X21: a stream request that carries no authenticated address and no
    token the verifier accepts is answered with status 401 and the
    single event "Unauthorized", and is over: whatever happens next, no
    timer is armed, no query is started and nothing more is written. *)
Theorem unauthenticated_stream_silent verifyAccessToken req trace :
  (Js.truthyS (req_userEmail req) = false ->
   verifyAccessToken (Js.orS (query_token req) EmptyString) = None ->
   authenticate verifyAccessToken req = None)
  /\ (authenticate verifyAccessToken req = None ->
      run (messageStream verifyAccessToken req) trace
      = mkStream 401 [EvError "Unauthorized"] true false 0 EmptyString
          (query_lastId req)).
Proof.
  split.
  - intros Huser Htoken. unfold authenticate. rewrite Huser, Htoken.
    now destruct (Js.truthyS (query_token req)).
  - intros Hnone. unfold messageStream. rewrite Hnone.
    now apply run_refused.
Qed.

Lemma unauthenticated_stream_silent_witness :
  let req := mkStreamRequest None None (Some "forged") in
  authenticate Sample.verifier req = None
  /\ written (run (messageStream Sample.verifier req)
                [TimerFire; PollDone [Sample.thread2] 100000; TimerFire])
     = [EvError "Unauthorized"].
Proof.
  intros req.
  destruct (unauthenticated_stream_silent Sample.verifier req
              [TimerFire; PollDone [Sample.thread2] 100000; TimerFire])
    as (Hnone & Hsilent).
  assert (Hauth : authenticate Sample.verifier req = None)
    by (apply Hnone; reflexivity).
  split; [exact Hauth|]. now rewrite (Hsilent Hauth).
Defined.

(** X22: a reply appended to a thread reaches the stream of the thread's
    owner on a poll that sees it, when the stream has no cursor or the
    poll falls less than ten seconds after the time stamp of the reply;
    and on a stream with a cursor no entry whose time stamp is ten
    seconds or more behind the poll, or missing, is ever written, so a
    reply that no poll catches within that window is not delivered by
    the stream at all. *)
Theorem reply_reaches_stream now id newMessage t0 w i thread s k pollTime :
  MessageService.findOne id (messages w) = Some (i, thread) ->
  MessageContent.time newMessage = Some t0 ->
  userEmail s = Message.userEmail thread ->
  userEmail s <> EmptyString ->
  ended s = false -> inflight s = S k ->
  let w' := snd (MessageService.addMessageToThread now id newMessage w) in
  (Js.truthyS (lastId s) = false \/ (pollTime - 10000 < t0)%Z ->
   In (EvMessage newMessage id)
      (written (step s (PollDone (messages w') pollTime))))
  /\ (forall db c cid,
        Js.truthyS (lastId s) = true ->
        (forall t, MessageContent.time c = Some t -> (t <= pollTime - 10000)%Z) ->
        ~ In (EvMessage c cid) (pollEvents s pollTime db)).
Proof.
  intros Hfind Htime Howner Hne Hopen Hpending w'.
  split.
  - intros Hwindow.
    destruct (poll_on_open_stream s pollTime (messages w') k Hopen Hpending Hne)
      as (Hw & _ & Hin).
    rewrite Hw. apply in_or_app. right. apply Hin.
    subst w'. unfold MessageService.addMessageToThread. rewrite Hfind.
    cbn [snd messages setMessages].
    apply list_find_Some in Hfind as (Hi & Hc & _).
    exists (MessageService.appended now newMessage thread).
    split.
    { apply list_elem_of_In, list_elem_of_lookup. exists i.
      apply list_lookup_insert_eq. now apply lookup_lt_Some in Hi. }
    split; [now rewrite Howner|].
    split; [cbn; apply in_or_app; right; now left|].
    split; [now rewrite <- Hc|].
    intros Hcursor. destruct Hwindow as [Hno|Hlt]; [congruence|].
    now exists t0.
  - intros db c cid Hcursor Hold Hin.
    destruct (poll_on_open_stream s pollTime db k Hopen Hpending Hne)
      as (_ & _ & Hiff).
    apply Hiff in Hin as (_ & _ & _ & _ & _ & Hrecent).
    destruct (Hrecent Hcursor) as (t & Ht & Hlt).
    specialize (Hold t Ht). lia.
Qed.

Lemma reply_reaches_stream_witness :
  let s := run (messageStream Sample.verifier Sample.subscribe) [TimerFire] in
  let w' := snd (MessageService.addMessageToThread 2000 "1700000000000"
                   (Sample.entry 2000 "reply") Cases.inbox) in
  MessageService.findOne "1700000000000" (messages Cases.inbox)
  = Some (0%nat, Sample.thread1 500)
  /\ In (EvMessage (Sample.entry 2000 "reply") "1700000000000")
        (written (step s (PollDone (messages w') 9000))).
Proof.
  intros s w'. split; [reflexivity|].
  destruct (reply_reaches_stream 2000 "1700000000000"
              (Sample.entry 2000 "reply") 2000 Cases.inbox 0%nat
              (Sample.thread1 500) s 0 9000)
    as (Hin & _);
    [reflexivity | reflexivity | reflexivity | discriminate | reflexivity
    | reflexivity |].
  apply Hin. right. reflexivity.
Defined.

(** ** Payments *)

Lemma paypalConfigured_credentials configureOk cfg :
  PaymentService.paypalConfigured configureOk cfg = true ->
  Js.truthyS (PaymentService.paypal_clientId cfg) = true
  /\ Js.truthyS (PaymentService.paypal_clientSecret cfg) = true.
Proof.
  unfold PaymentService.paypalConfigured. intros H.
  apply andb_prop in H as [H _]. apply andb_prop in H as [H _].
  now apply andb_prop in H.
Qed.

(** X23: [createPayPalPayment] resolves exactly when PayPal is
    configured, the gateway reported no error, and the payment it
    returned lists a link with relation [approval_url]; the result then
    carries the payment identifier and the address of the first such
    link. *)
Theorem createPayPalPayment_ok configureOk cfg error payment r :
  PaymentService.createPayPalPayment configureOk cfg error payment = Ok r
  <-> PaymentService.paypalConfigured configureOk cfg = true
      /\ error = None
      /\ exists pay links link,
           payment = Some pay
           /\ PaymentService.pp_links pay = Some links
           /\ List.find (fun l => String.eqb (PaymentService.rel l)
                                    "approval_url") links = Some link
           /\ r = PaymentService.mkPaymentResult true
                    (Some (PaymentService.pp_id pay)) None
                    (Some (PaymentService.href link)).
Proof.
  unfold PaymentService.createPayPalPayment. split.
  - intros H.
    destruct (negb _ || negb _); [discriminate|].
    destruct (PaymentService.paypalConfigured configureOk cfg);
      [|discriminate].
    cbn [negb] in H. split; [reflexivity|].
    destruct error as [e|].
    { destruct (_ || _); discriminate. }
    split; [reflexivity|].
    destruct payment as [[pid [links|] state]|]; try discriminate.
    destruct (List.find _ links) as [link|] eqn:Hlink; [|discriminate].
    injection H as <-. now exists (PaymentService.mkPayPalPayment pid (Some links) state), links, link.
  - intros (Hconf & -> & pay & links & link & -> & Hlinks & Hlink & ->).
    destruct (paypalConfigured_credentials _ _ Hconf) as [-> ->].
    rewrite Hconf. cbn [negb orb].
    destruct pay as [pid l state]. cbn in Hlinks. subst l.
    now rewrite Hlink.
Qed.

Lemma createPayPalPayment_ok_witness :
  PaymentService.createPayPalPayment true Sample.gateways None
    (Some Cases.created)
  = Ok (PaymentService.mkPaymentResult true (Some "PAY-1") None
          (Some "https://pay.example/approve/1")).
Proof.
  apply (createPayPalPayment_ok true Sample.gateways None (Some Cases.created)).
  split; [reflexivity|]. split; [reflexivity|].
  exists Cases.created, (default [] (PaymentService.pp_links Cases.created)),
    (PaymentService.mkLink "approval_url" "https://pay.example/approve/1").
  repeat split.
Defined.

(** X24: no payment operation reports success without its gateway
    being configured and having answered: a created Stripe intent needs
    the secret key and an intent from Stripe, a verification is [true]
    only for an intent in state [succeeded], an executed PayPal payment
    is reported only with both credentials set and the payment in state
    [approved] (any other state is refused with 400), and a PayPal
    client identifier of fewer than 20 characters makes every PayPal
    creation fail with 500 whatever the gateway would say. *)
Theorem payment_needs_configuration configureOk cfg :
  (forall reply r,
      PaymentService.createStripePaymentIntent cfg reply = Ok r ->
      PaymentService.stripe cfg = true
      /\ exists intent,
           reply = inr intent
           /\ PaymentService.success r = true
           /\ PaymentService.paymentId r
              = Some (PaymentService.pi_id intent))
  /\ (forall reply,
      PaymentService.verifyStripePayment cfg reply = Ok true ->
      PaymentService.stripe cfg = true
      /\ exists intent,
           reply = inr intent
           /\ PaymentService.pi_status intent = "succeeded")
  /\ (forall reply r,
      PaymentService.executePayPalPayment cfg reply = Ok r ->
      Js.truthyS (PaymentService.paypal_clientId cfg) = true
      /\ Js.truthyS (PaymentService.paypal_clientSecret cfg) = true
      /\ exists pay,
           reply = inr pay
           /\ PaymentService.pp_state pay = "approved"
           /\ r = PaymentService.mkPaymentResult true
                    (Some (PaymentService.pp_id pay)) None None)
  /\ (forall pay,
      Js.truthyS (PaymentService.paypal_clientId cfg) = true ->
      Js.truthyS (PaymentService.paypal_clientSecret cfg) = true ->
      PaymentService.pp_state pay <> "approved" ->
      PaymentService.executePayPalPayment cfg (inr pay)
      = Err (mkAppError "Payment was not approved" 400))
  /\ ((String.length
         (Js.stripSpaces
            (Js.trim (Js.orS (PaymentService.paypal_clientId cfg) EmptyString)))
       < 20)%nat ->
      forall error payment,
        exists e,
          PaymentService.createPayPalPayment configureOk cfg error payment
          = Err e
          /\ statusCode e = 500%Z).
Proof.
  split; [|split; [|split; [|split]]].
  - intros reply r H. unfold PaymentService.createStripePaymentIntent in H.
    destruct (PaymentService.stripe cfg); [|discriminate].
    split; [reflexivity|]. cbn [negb] in H.
    destruct reply as [e|intent]; [discriminate|].
    injection H as <-. now exists intent.
  - intros reply H. unfold PaymentService.verifyStripePayment in H.
    destruct (PaymentService.stripe cfg); [|discriminate].
    split; [reflexivity|]. cbn [negb] in H.
    destruct reply as [e|intent]; [discriminate|].
    injection H as H. exists intent. split; [reflexivity|].
    now apply String.eqb_eq.
  - intros reply r H. unfold PaymentService.executePayPalPayment in H.
    destruct (Js.truthyS (PaymentService.paypal_clientId cfg));
      [|discriminate].
    destruct (Js.truthyS (PaymentService.paypal_clientSecret cfg));
      [|discriminate].
    cbn [negb orb] in H. split; [reflexivity|]. split; [reflexivity|].
    destruct reply as [e|pay]; [discriminate|].
    destruct (String.eqb (PaymentService.pp_state pay) "approved") eqn:E;
      [|discriminate].
    injection H as <-. exists pay. split; [reflexivity|].
    split; [now apply String.eqb_eq | reflexivity].
  - intros pay Hid Hsecret Hstate.
    unfold PaymentService.executePayPalPayment. rewrite Hid, Hsecret.
    cbn [negb orb]. now apply String.eqb_neq in Hstate as ->.
  - intros Hshort error payment.
    unfold PaymentService.createPayPalPayment.
    destruct (negb _ || negb _); [now eexists|].
    assert (Hoff : PaymentService.paypalConfigured configureOk cfg = false).
    { unfold PaymentService.paypalConfigured.
      apply Nat.ltb_lt in Hshort. rewrite Hshort. cbn [orb negb].
      now rewrite andb_false_r. }
    rewrite Hoff. now eexists.
Qed.

Lemma payment_needs_configuration_witness :
  PaymentService.executePayPalPayment Sample.gateways (inr Cases.created)
  = Err (mkAppError "Payment was not approved" 400).
Proof.
  destruct (payment_needs_configuration true Sample.gateways)
    as (_ & _ & _ & Hstate & _).
  apply Hstate; [reflexivity | reflexivity | discriminate].
Defined.

Lemma truthyS_inv s :
  Js.truthyS s = true -> exists v, s = Some v /\ v <> EmptyString.
Proof.
  destruct s as [v|]; [|discriminate]. cbn. intros H.
  exists v. split; [reflexivity|].
  apply String.eqb_neq. now destruct (String.eqb v EmptyString).
Qed.

(** X25: the two handlers that create a payment answer 400 for a
    missing or non-positive amount before anything else is looked at, and
    they answer with a payment only for a positive amount, a known user
    identifier and e-mail address (from the token, else from the body),
    and a result that carries a payment identifier. *)
Theorem payment_handlers_validate configureOk cfg stripeGw paypalGw user b :
  let s := PaymentController.createStripePaymentIntent cfg stripeGw user b in
  let p := PaymentController.createPayPalPayment configureOk cfg paypalGw
             user b in
  (PaymentController.invalidAmount b = true ->
   s = PaymentController.BadRequest "Invalid amount"
   /\ p = PaymentController.BadRequest "Invalid amount")
  /\ (forall r msg,
        s = PaymentController.Success r msg
        \/ p = PaymentController.Success r msg ->
        (exists a, PaymentController.amount b = Some a /\ (0 < a)%Q)
        /\ (exists uid, PaymentController.userIdOf user b = Some uid
                        /\ uid <> EmptyString)
        /\ (exists mail, PaymentController.userEmailOf user b = Some mail
                         /\ mail <> EmptyString)
        /\ PaymentService.success r = true
        /\ PaymentService.paymentId r <> None).
Proof.
  cbn zeta. split.
  - intros Hbad. unfold PaymentController.createStripePaymentIntent,
      PaymentController.createPayPalPayment. now rewrite Hbad.
  - intros r msg H.
    assert (Hshared :
      PaymentController.invalidAmount b = false
      /\ Js.truthyS (PaymentController.userIdOf user b) = true
      /\ Js.truthyS (PaymentController.userEmailOf user b) = true
      /\ PaymentService.success r = true
      /\ PaymentService.paymentId r <> None).
    { destruct H as [H|H];
        [unfold PaymentController.createStripePaymentIntent in H
        |unfold PaymentController.createPayPalPayment in H];
        destruct (PaymentController.invalidAmount b); try discriminate;
        destruct (Js.truthyS (PaymentController.userIdOf user b));
        try discriminate;
        destruct (Js.truthyS (PaymentController.userEmailOf user b));
        try discriminate; cbn [negb orb] in H.
      - destruct (PaymentService.createStripePaymentIntent _ _) as [r'|e|t]
          eqn:E; try discriminate.
        cbn in H. injection H as <- _.
        unfold PaymentService.createStripePaymentIntent in E.
        destruct (negb _); [discriminate|].
        destruct (stripeGw _); [discriminate|].
        injection E as <-. now repeat split.
      - destruct (paypalGw _) as [error payment].
        destruct (PaymentService.createPayPalPayment _ _ _ _) as [r'|e|t]
          eqn:E; try discriminate.
        cbn in H. injection H as <- _.
        unfold PaymentService.createPayPalPayment in E.
        destruct (negb _ || negb _); [discriminate|].
        destruct (negb _); [discriminate|].
        destruct error as [e|]; [destruct (_ || _); discriminate|].
        destruct payment as [[pid [links|] state]|]; try discriminate.
        destruct (List.find _ links); [|discriminate].
        injection E as <-. now repeat split. }
    destruct Hshared as (Hamount & Hid & Hmail & Hok & Hpid).
    split; [|split; [|split; [|split]]]; try assumption.
    + unfold PaymentController.invalidAmount in Hamount.
      destruct (PaymentController.amount b) as [a|]; [|discriminate].
      exists a. split; [reflexivity | now apply Qle_bool_false_lt].
    + now apply truthyS_inv.
    + now apply truthyS_inv.
Qed.

Lemma payment_handlers_validate_witness :
  PaymentController.invalidAmount Cases.basket = true
  /\ PaymentController.createStripePaymentIntent Sample.gateways
       (fun _ => inr (PaymentService.mkPaymentIntent "pi_1" None "created"))
       None Cases.basket
     = PaymentController.BadRequest "Invalid amount"
  /\ PaymentController.createPayPalPayment true Sample.gateways
       (fun _ => (None, Some Cases.created)) None Cases.basket
     = PaymentController.BadRequest "Invalid amount".
Proof.
  split; [reflexivity|].
  apply (payment_handlers_validate true Sample.gateways
           (fun _ => inr (PaymentService.mkPaymentIntent "pi_1" None "created"))
           (fun _ => (None, Some Cases.created)) None Cases.basket).
  reflexivity.
Defined.

(** X26: the [verifyStripePayment] handler reports a payment as verified
    exactly when an identifier was given, Stripe is configured and the
    intent retrieved is in state [succeeded]; with Stripe configured a
    failing retrieval is answered as a successful request whose payment
    is not verified, not as an error. *)
Theorem verifyStripePayment_handler cfg gateway paymentIntentId :
  (forall msg,
      PaymentController.verifyStripePayment cfg gateway paymentIntentId
      = PaymentController.Success true msg
      <-> paymentIntentId <> EmptyString
          /\ PaymentService.stripe cfg = true
          /\ msg = "Payment verified successfully"
          /\ exists intent,
               gateway paymentIntentId = inr intent
               /\ PaymentService.pi_status intent = "succeeded")
  /\ (paymentIntentId <> EmptyString ->
      PaymentService.stripe cfg = true ->
      forall e, gateway paymentIntentId = inl e ->
      PaymentController.verifyStripePayment cfg gateway paymentIntentId
      = PaymentController.Success false "Payment verification failed").
Proof.
  unfold PaymentController.verifyStripePayment,
    PaymentService.verifyStripePayment. split.
  - intros msg. split.
    + intros H.
      destruct (String.eqb paymentIntentId EmptyString) eqn:Hid;
        [discriminate|].
      apply String.eqb_neq in Hid. split; [assumption|].
      destruct (PaymentService.stripe cfg); [|discriminate].
      split; [reflexivity|]. cbn [negb] in H.
      destruct (gateway paymentIntentId) as [e|intent]; [discriminate|].
      destruct (String.eqb (PaymentService.pi_status intent) "succeeded")
        eqn:Hst; [|discriminate].
      injection H as <-. split; [reflexivity|].
      exists intent. split; [reflexivity | now apply String.eqb_eq].
    + intros (Hid & Hcfg & -> & intent & Hgw & Hst).
      apply String.eqb_neq in Hid. rewrite Hid, Hcfg, Hgw. cbn [negb].
      apply String.eqb_eq in Hst. now rewrite Hst.
  - intros Hid Hcfg e Hgw.
    apply String.eqb_neq in Hid. now rewrite Hid, Hcfg, Hgw.
Qed.

Lemma verifyStripePayment_handler_witness :
  PaymentController.verifyStripePayment Sample.gateways
    (fun _ => inl Sample.invalidClient) "pi_1"
  = PaymentController.Success false "Payment verification failed".
Proof.
  destruct (verifyStripePayment_handler Sample.gateways
              (fun _ => inl Sample.invalidClient) "pi_1") as [_ H].
  apply (H ltac:(discriminate) eq_refl Sample.invalidClient eq_refl).
Defined.

(** ** The order handler in front of the service *)

(** X27: an order created through the [createOrder] handler is charged
    what the service alone would charge for the body ([price], else
    [amount]), and it is named [item_name], else [title], else [name]:
    the handler's title default comes before the service's [name]
    fallback. *)
Theorem createOrder_handler_fields newId now user body w order w' :
  OrderController.createOrder newId now user body w = (Ok order, w') ->
  Order.price order = OrderService.orderAmount body
  /\ Order.item_name order
     = Js.orS (Js.orSS (CreateOrderDto.item_name body)
                 (Js.orSS (CreateOrderDto.title body)
                    (CreateOrderDto.name body)))
              EmptyString.
Proof.
  unfold OrderController.createOrder, OrderService.createOrder. intros H.
  destruct (OrderService.resolveUser _ _) as [[u|]| |]; try discriminate.
  destruct (Qle_bool _ _); [discriminate|].
  destruct (Js.blank (OrderService.itemName _)); [discriminate|].
  destruct (Js.blank (OrderService.orderType _)); [discriminate|].
  injection H as <- _. cbn [Order.price Order.item_name
                             OrderService.orderDataToSave].
  split.
  - unfold OrderService.orderAmount, OrderController.prepare. cbn.
    destruct (CreateOrderDto.price body) as [p|],
      (CreateOrderDto.amount body) as [a|]; cbn; try reflexivity.
    + destruct (Qeq_bool p 0) eqn:Hp, (Qeq_bool a 0) eqn:Ha; cbn;
        rewrite ?Hp, ?Ha; reflexivity.
    + destruct (Qeq_bool a 0) eqn:Ha; cbn; rewrite ?Ha; reflexivity.
  - unfold OrderService.itemName, OrderController.prepare,
      Js.orS, Js.orSS, Js.truthyS. cbn.
    assert (Hempty : forall x, String.eqb x EmptyString = true ->
                               x = EmptyString)
      by (intros x; apply String.eqb_eq).
    destruct (CreateOrderDto.item_name body) as [i|],
      (CreateOrderDto.title body) as [t|],
      (CreateOrderDto.name body) as [n|]; cbn;
      repeat match goal with
             | |- context [String.eqb ?x EmptyString] =>
                 let E := fresh "E" in
                 destruct (String.eqb x EmptyString) eqn:E; cbn;
                 rewrite ?E; cbn
             end;
      try congruence;
      repeat match goal with
             | E : String.eqb _ EmptyString = true |- _ =>
                 apply Hempty in E
             end; congruence.
Qed.

Lemma createOrder_handler_fields_witness :
  exists order w',
    OrderController.createOrder "n1" 5000 (Some Cases.aliceUser)
      Cases.titled Cases.shop
    = (Ok order, w')
    /\ Order.price order = OrderService.orderAmount Cases.titled
    /\ Order.item_name order = "Guest post".
Proof.
  eexists _, _. split; [reflexivity|].
  apply (createOrder_handler_fields "n1" 5000 (Some Cases.aliceUser)
           Cases.titled Cases.shop _ _ eq_refl).
Defined.

(** ** Mail *)

Lemma includesChar_stripFrom c b s :
  EmailUtils.includesChar c (EmailUtils.stripFrom b s) = true ->
  EmailUtils.includesChar c s = true.
Proof.
  revert b. induction s as [|x r IH]; intros b; cbn; [easy|].
  destruct b.
  - destruct (Ascii.eqb x ">"%char); intros H; apply IH in H; rewrite H;
      apply orb_true_r.
  - destruct (Ascii.eqb x "<"%char);
      [destruct (EmailUtils.includesChar ">"%char r)|]; cbn; intros H.
    + apply IH in H. rewrite H. apply orb_true_r.
    + apply orb_prop in H as [->|H]; [reflexivity|].
      apply IH in H. rewrite H. apply orb_true_r.
    + apply orb_prop in H as [->|H]; [reflexivity|].
      apply IH in H. rewrite H. apply orb_true_r.
Qed.

Lemma stripFrom_stripFrom b s :
  EmailUtils.stripFrom false (EmailUtils.stripFrom b s)
  = EmailUtils.stripFrom b s.
Proof.
  revert b. induction s as [|x r IH]; intros b; cbn; [reflexivity|].
  destruct b.
  - destruct (Ascii.eqb x ">"%char); apply IH.
  - destruct (Ascii.eqb x "<"%char) eqn:Hx.
    + destruct (EmailUtils.includesChar ">"%char r) eqn:Hr; [apply IH|].
      cbn. rewrite Hx.
      destruct (EmailUtils.includesChar ">"%char
                  (EmailUtils.stripFrom false r)) eqn:Hs.
      * apply includesChar_stripFrom in Hs. congruence.
      * now rewrite IH.
    + cbn. rewrite Hx. now rewrite IH.
Qed.

Lemma stripFrom_length b s :
  (String.length (EmailUtils.stripFrom b s) <= String.length s)%nat.
Proof.
  revert b. induction s as [|x r IH]; intros b; cbn; [lia|].
  destruct b.
  - destruct (Ascii.eqb x ">"%char);
      [specialize (IH false) | specialize (IH true)]; lia.
  - destruct (Ascii.eqb x "<"%char);
      [destruct (EmailUtils.includesChar ">"%char r)|]; cbn;
      [specialize (IH true) | specialize (IH false) | specialize (IH false)];
      lia.
Qed.

Lemma includesChar_app c s t :
  EmailUtils.includesChar c (s ++ t)
  = EmailUtils.includesChar c s || EmailUtils.includesChar c t.
Proof.
  induction s as [|x r IH]; [reflexivity|].
  change (String x r ++ t) with (String x (r ++ t)). cbn.
  now rewrite IH, orb_assoc.
Qed.

(** X28: the plain-text part [sendEmail] derives from the HTML holds no
    tag: stripping it a second time changes nothing.  A text without
    [<] is left as it is, and stripping never makes a text longer. *)
Theorem stripTags_plain s :
  EmailUtils.stripTags (EmailUtils.stripTags s) = EmailUtils.stripTags s
  /\ (EmailUtils.includesChar "<"%char s = false ->
      EmailUtils.stripTags s = s)
  /\ (String.length (EmailUtils.stripTags s) <= String.length s)%nat.
Proof.
  split; [apply stripFrom_stripFrom|]. split; [|apply stripFrom_length].
  unfold EmailUtils.stripTags.
  induction s as [|x r IH]; cbn; [reflexivity|].
  destruct (Ascii.eqb x "<"%char); cbn; [discriminate|].
  intros H. now rewrite IH.
Qed.

Lemma stripTags_plain_witness :
  EmailUtils.includesChar "<"%char "Order completed" = false
  /\ EmailUtils.stripTags "Order completed" = "Order completed".
Proof.
  split; [reflexivity|].
  apply (stripTags_plain "Order completed"). reflexivity.
Defined.

(** X29: [sendEmail] answers [true] exactly when both mail credentials
    are set and the transport accepted the mail.  Without credentials
    nothing is handed to the transport; otherwise exactly one mail is,
    addressed to the recipient given, sent from an address in display
    form, with the caller's text or else the HTML stripped of its
    tags. *)
Theorem sendEmail_result cfg sendMail to subject html text :
  let r := EmailUtils.sendEmail cfg sendMail to subject html text in
  let options := EmailUtils.mailOptions cfg to subject html text in
  (fst r = true
   <-> Js.truthyS (EmailUtils.email_user cfg) = true
       /\ Js.truthyS (EmailUtils.email_password cfg) = true
       /\ exists transporter messageId,
            EmailUtils.createTransporter cfg = Some transporter
            /\ sendMail transporter options = Some messageId)
  /\ (EmailUtils.createTransporter cfg = None -> r = (false, []))
  /\ (EmailUtils.createTransporter cfg <> None -> snd r = [options])
  /\ EmailUtils.to options = to
  /\ EmailUtils.includesChar "<"%char (EmailUtils.from options) = true
  /\ EmailUtils.text options
     = (if Js.truthyS text then Js.orS text EmptyString
        else EmailUtils.stripTags html).
Proof.
  cbn zeta. unfold EmailUtils.sendEmail.
  split; [|split; [|split; [|split; [|split]]]].
  - unfold EmailUtils.createTransporter.
    destruct (Js.truthyS (EmailUtils.email_user cfg)),
      (Js.truthyS (EmailUtils.email_password cfg)); cbn [negb orb fst];
      try (split; [discriminate | now intros (? & ? & _)]).
    destruct (sendMail _ _) as [messageId|] eqn:Hsend; cbn [fst].
    + split; [|reflexivity]. intros _. repeat split.
      eexists _, messageId. split; [reflexivity | exact Hsend].
    + split; [discriminate|].
      intros (_ & _ & transporter & messageId & Ht & Hs).
      injection Ht as <-. congruence.
  - now intros ->.
  - intros Ht. destruct (EmailUtils.createTransporter cfg) as [t|];
      [|contradiction].
    now destruct (sendMail t _).
  - reflexivity.
  - cbn. unfold EmailUtils.fromAddress.
    destruct (EmailUtils.includesChar "<"%char (EmailUtils.email_from cfg))
      eqn:E; [exact E|].
    cbn. rewrite includesChar_app. reflexivity.
  - reflexivity.
Qed.

Lemma sendEmail_result_witness :
  EmailUtils.createTransporter Cases.mailbox <> None
  /\ snd (EmailUtils.sendEmail Cases.mailbox (fun _ _ => None)
            "alice@example.com" "Order completed" "<p>Done</p>" None)
     = [EmailUtils.mailOptions Cases.mailbox "alice@example.com"
          "Order completed" "<p>Done</p>" None].
Proof.
  split; [discriminate|].
  apply (sendEmail_result Cases.mailbox (fun _ _ => None)
           "alice@example.com" "Order completed" "<p>Done</p>" None).
  discriminate.
Defined.

(** ** Submissions of one address *)

Lemma insertBySubmittedAt_perm s l :
  SiteSubmissionCrud.insertBySubmittedAt s l ≡ₚ s :: l.
Proof.
  induction l as [|x l IH]; [reflexivity|]. cbn.
  destruct (SiteSubmission.submittedAt x <=? SiteSubmission.submittedAt s)%Z;
    [reflexivity|].
  rewrite IH. apply perm_swap.
Qed.

Lemma sortBySubmittedAt_perm l :
  fold_right SiteSubmissionCrud.insertBySubmittedAt [] l ≡ₚ l.
Proof.
  induction l as [|x l IH]; [reflexivity|]. cbn.
  now rewrite insertBySubmittedAt_perm, IH.
Qed.

Lemma insertBySubmittedAt_sorted s l :
  SubmissionView.newestFirst l ->
  SubmissionView.newestFirst (SiteSubmissionCrud.insertBySubmittedAt s l).
Proof.
  unfold SubmissionView.newestFirst.
  induction 1 as [|x l Hl IH Hx]; cbn.
  - repeat constructor.
  - destruct (SiteSubmission.submittedAt x <=? SiteSubmission.submittedAt s)%Z
      eqn:E.
    + apply Z.leb_le in E. constructor; [now constructor|].
      constructor; [exact E|].
      eapply Forall_impl; [exact Hx|]. cbn. intros y Hy. lia.
    + apply Z.leb_gt in E. constructor; [exact IH|].
      eapply Permutation_Forall;
        [symmetry; apply insertBySubmittedAt_perm|].
      constructor; [lia | exact Hx].
Qed.

Lemma In_submissionDocs w s :
  In s (SiteSubmissionCrud.submissionDocs w)
  <-> exists id, submissions w !! id = Some s.
Proof.
  unfold SiteSubmissionCrud.submissionDocs.
  rewrite <- list_elem_of_In, list_elem_of_fmap. split.
  - intros ([id s'] & -> & Hin). exists id.
    now apply elem_of_map_to_list in Hin.
  - intros (id & Hid). exists (id, s). split; [reflexivity|].
    now apply elem_of_map_to_list.
Qed.

Lemma In_getSiteSubmissionsByUser email f w x :
  In x (SiteSubmissionCrud.getSiteSubmissionsByUser email f w)
  <-> (exists id, submissions w !! id = Some x)
      /\ SiteSubmission.userEmail x = SiteSubmissionCrud.castEmail email
      /\ Paging.agrees (SiteSubmissionFilters.status f)
           (SiteSubmissionCrud.statusName (SiteSubmission.status x)).
Proof.
  unfold SiteSubmissionCrud.getSiteSubmissionsByUser.
  rewrite <- list_elem_of_In, sortBySubmittedAt_perm, list_elem_of_In.
  rewrite filter_In, In_submissionDocs, andb_true_iff, eqFilter_agrees,
    String.eqb_eq.
  tauto.
Qed.

(** X30: a submission [createSiteSubmission] stored is found by
    [getSiteSubmissionsByUser] under the address it was sent with,
    whatever its letter case and surrounding blanks, as long as the
    status asked for, if any, is [pending].  The list is ordered newest
    first and holds stored submissions of that one address only. *)
Theorem createSiteSubmission_then_listed mailer newId now data w s w' email f :
  SiteSubmissionService.createSiteSubmission mailer newId now data w
  = (Ok s, w') ->
  CreateSiteSubmissionDto.userEmail data = Some email ->
  let l := SiteSubmissionCrud.getSiteSubmissionsByUser email f w' in
  SubmissionView.newestFirst l
  /\ (Paging.agrees (SiteSubmissionFilters.status f) "pending" -> In s l)
  /\ (forall x, In x l ->
                (exists id, submissions w' !! id = Some x)
                /\ SiteSubmission.userEmail x = SiteSubmission.userEmail s).
Proof.
  intros H Hmail l. subst l.
  unfold SiteSubmissionService.createSiteSubmission in H.
  destruct (SiteSubmissionService.validates _); [|discriminate].
  injection H as Hs Hw.
  assert (Hsub : submissions w' = <[newId := s]> (submissions w)).
  { rewrite <- Hw, <- Hs. now destruct (mailer _). }
  assert (Hcast : SiteSubmission.userEmail s
                  = SiteSubmissionCrud.castEmail email).
  { rewrite <- Hs. cbn. rewrite Hmail. unfold SiteSubmissionCrud.castEmail.
    cbn. now destruct (String.eqb email EmptyString) eqn:E;
      [apply String.eqb_eq in E as ->|]. }
  assert (Hstatus : SiteSubmission.status s = sub_pending)
    by now rewrite <- Hs.
  split; [|split].
  - unfold SiteSubmissionCrud.getSiteSubmissionsByUser.
    induction (List.filter _ _) as [|x l IH]; cbn; [constructor|].
    now apply insertBySubmittedAt_sorted.
  - intros Hst. apply In_getSiteSubmissionsByUser.
    split; [|split; [exact Hcast | now rewrite Hstatus]].
    exists newId. rewrite Hsub. apply lookup_insert_eq.
  - intros x Hx. apply In_getSiteSubmissionsByUser in Hx as (Hid & Hx & _).
    split; [exact Hid | congruence].
Qed.

Lemma createSiteSubmission_then_listed_witness :
  exists s w',
    SiteSubmissionService.createSiteSubmission (fun _ => Raised) "s9" 7000
      Cases.intake (Cases.desk approved) = (Ok s, w')
    /\ In s (SiteSubmissionCrud.getSiteSubmissionsByUser "  Bob@Example.COM "
               (SiteSubmissionFilters.mk None None) w').
Proof.
  eexists _, _. split; [reflexivity|].
  apply (createSiteSubmission_then_listed (fun _ => Raised) "s9" 7000
           Cases.intake (Cases.desk approved) _ _ "  Bob@Example.COM "
           (SiteSubmissionFilters.mk None None) eq_refl eq_refl).
  intros v [=].
Defined.
